(** * AI-Podcast-Generator backend: a shallow embedding of the request pipeline

    The Express backend (auth gate, per-route rate limiter, the three
    routers and the two service wrappers) is embedded as functions in a small
    state-and-exception monad over a [World] that holds the process
    environment, the limiter stores, the rows kept by the external store and
    the log of calls made to external services.  The external services
    themselves (identity provider, script generator, speech synthesis, store
    faults, supabase-js's [createClient], the runtime's
    [String.prototype.toLowerCase]) are the fields of one record,
    [External], over which every statement is quantified.  The
    pure parts of the two browser pages that call the API are embedded too. *)

From Stdlib Require Import QArith Lqa.
From stdpp Require Import gmap strings list sorting.

Open Scope Z_scope.

(** ** JavaScript strings

    A JS string is a sequence of UTF-16 code units; [js] embeds the ASCII
    literals of the source. *)

Definition jsstring : Type := list N.

#[global] Instance jsstring_eq_dec : EqDecision jsstring.
Proof. unfold jsstring. apply _. Defined.

#[global] Instance jsstring_countable : Countable jsstring.
Proof. unfold jsstring. apply _. Defined.

Definition js (s : string) : jsstring :=
  map Ascii.N_of_ascii (String.list_ascii_of_string s).

(** WhiteSpace and LineTerminator code points of ECMAScript, the ones
    [String.prototype.trim] strips. *)
Definition isWhiteSpace (c : N) : bool :=
  match c with
  | 9 | 10 | 11 | 12 | 13 | 32 | 160 | 5760
  | 8232 | 8233 | 8239 | 8287 | 12288 | 65279 => true
  | _ => (8192 <=? c)%N && (c <=? 8202)%N
  end%N.

Fixpoint trimStart (s : jsstring) : jsstring :=
  match s with
  | c :: s' => if isWhiteSpace c then trimStart s' else s
  | [] => []
  end.

Definition trimEnd (s : jsstring) : jsstring :=
  reverse (trimStart (reverse s)).

Definition trim (s : jsstring) : jsstring := trimEnd (trimStart s).

Fixpoint startsWith (s p : jsstring) : bool :=
  match p, s with
  | [], _ => true
  | a :: p', b :: s' => bool_decide (a = b) && startsWith s' p'
  | _ :: _, [] => false
  end.

(** [s.substring(n)] for [0 <= n]. *)
Definition substring (s : jsstring) (n : nat) : jsstring := drop n s.

(** [parts.join(sep)] on an array of strings. *)
Fixpoint join (sep : jsstring) (parts : list jsstring) : jsstring :=
  match parts with
  | [] => []
  | [p] => p
  | p :: rest => p ++ sep ++ join sep rest
  end.

(** [xs.includes(x)] on an array of strings. *)
Definition includes (xs : list jsstring) (x : jsstring) : bool :=
  bool_decide (x ∈ xs).

(** ** JavaScript numbers and values

    A finite double is a rational; the tests the handlers make on a number
    ([!d], [d < 5], [d > 120]) give on the double what they give on its
    rational value, so a statement over every [Q] covers every finite double. *)

Inductive Number :=
| NaN
| Infinity (negative : bool)
| Finite (q : Q).

Definition num_lt (a b : Number) : bool :=
  match a, b with
  | NaN, _ | _, NaN => false
  | Infinity true, Infinity true => false
  | Infinity true, _ => true
  | _, Infinity true => false
  | Infinity false, _ => false
  | Finite _, Infinity false => true
  | Finite x, Finite y => negb (Qle_bool y x)
  end.

Definition num_gt (a b : Number) : bool := num_lt b a.

Definition num_of_Z (z : Z) : Number := Finite (inject_Z z).

#[warnings="-register-all"]
Inductive Value :=
| VUndefined
| VNull
| VBool (b : bool)
| VNumber (n : Number)
| VString (s : jsstring)
| VArray (items : list Value)
| VObject (fields : list (jsstring * Value)).

(** ToBoolean. *)
Definition truthy (v : Value) : bool :=
  match v with
  | VUndefined | VNull => false
  | VBool b => b
  | VNumber NaN => false
  | VNumber (Infinity _) => true
  | VNumber (Finite q) => negb (Qeq_bool q 0)
  | VString s => negb (bool_decide (s = []))
  | VArray _ | VObject _ => true
  end.

Inductive TypeTag := TUndefined | TObject | TBoolean | TNumber | TString.

Definition typeof (v : Value) : TypeTag :=
  match v with
  | VUndefined => TUndefined
  | VNull | VArray _ | VObject _ => TObject
  | VBool _ => TBoolean
  | VNumber _ => TNumber
  | VString _ => TString
  end.

#[global] Instance TypeTag_eq_dec : EqDecision TypeTag.
Proof. solve_decision. Defined.

(** The string held by a value whose [typeof] is known to be ['string'], and
    the number held by one whose [typeof] is known to be ['number']. *)
Definition str (v : Value) : jsstring :=
  match v with VString s => s | _ => [] end.

Definition num (v : Value) : Number :=
  match v with VNumber n => n | _ => NaN end.

Definition isArray (v : Value) : bool :=
  match v with VArray _ => true | _ => false end.

(** The elements of a value known to be an array. *)
Definition items (v : Value) : list Value :=
  match v with VArray l => l | _ => [] end.

Fixpoint assoc (k : jsstring) (fields : list (jsstring * Value)) : Value :=
  match fields with
  | [] => VUndefined
  | (k', v) :: rest => if bool_decide (k' = k) then v else assoc k rest
  end.

(** [v.k] for a key [k] that no prototype defines (the handlers read
    [topic], [durationMinutes], [style], [script] and [text]): [None] is the
    TypeError of reading a property of [undefined] or [null]. *)
Definition prop (v : Value) (k : jsstring) : option Value :=
  match v with
  | VUndefined | VNull => None
  | VObject fields => Some (assoc k fields)
  | _ => Some VUndefined
  end.


(** ** Process environment and clients *)

Record Env := {
  SUPABASE_URL : option jsstring;
  SUPABASE_SERVICE_KEY : option jsstring;
  ELEVENLABS_API_KEY : option jsstring;
  ELEVENLABS_HOST_VOICE_ID : option jsstring;
  PYTHON_SERVICE_URL : option jsstring
}.

(** An entry of [process.env] is a string or undefined; it is truthy when it
    is set and not empty. *)
Definition env_truthy (v : option jsstring) : bool :=
  match v with Some (_ :: _) => true | _ => false end.

(** [v || d] on an entry of [process.env]. *)
Definition env_or (v : option jsstring) (d : jsstring) : jsstring :=
  match v with Some (c :: s) => c :: s | _ => d end.

Record SupabaseClient := { client_url : jsstring; client_key : jsstring }.

(** [supabaseUrl && supabaseServiceKey ? createClient(...) : null]: which
    client the two variables ask for.  [createClient] itself belongs to
    supabase-js and throws on a URL it does not accept; that part is the
    oracle [createClientThrows] below, consulted where the gate builds its
    client ([getSupabaseClient]). *)
Definition createClientFromEnv (e : Env) : option SupabaseClient :=
  if env_truthy (SUPABASE_URL e) && env_truthy (SUPABASE_SERVICE_KEY e)
  then Some {| client_url := env_or (SUPABASE_URL e) [];
               client_key := env_or (SUPABASE_SERVICE_KEY e) [] |}
  else None.

(** ** Data model *)

Record User := { user_id : jsstring; user_email : option jsstring }.

(** A row of the [scripts] table (database/schema.sql). *)
Record ScriptRow := {
  row_id : jsstring;
  row_user_id : jsstring;
  row_topic : jsstring;
  row_duration_minutes : Number;
  row_style : jsstring;
  row_script_data : Value;
  row_created_at : Z;
  row_updated_at : Z
}.

(** The columns of [select('id, topic, duration_minutes, style, created_at,
    updated_at')]. *)
Record ScriptSummary := {
  sum_id : jsstring;
  sum_topic : jsstring;
  sum_duration_minutes : Number;
  sum_style : jsstring;
  sum_created_at : Z;
  sum_updated_at : Z
}.

Definition summary (r : ScriptRow) : ScriptSummary :=
  {| sum_id := row_id r; sum_topic := row_topic r;
     sum_duration_minutes := row_duration_minutes r; sum_style := row_style r;
     sum_created_at := row_created_at r; sum_updated_at := row_updated_at r |}.

(** The object passed to [insert]. *)
Record NewScript := {
  new_user_id : jsstring;
  new_topic : jsstring;
  new_duration_minutes : Number;
  new_style : jsstring;
  new_script_data : Value
}.

Record GenerateScriptRequest := {
  gs_topic : jsstring;
  gs_durationMinutes : Number;
  gs_style : jsstring
}.

(** ** Errors, responses and requests *)

Inductive RuntimeError := TypeError | SyntaxError | NetworkError.

(** The [message] of a thrown [Error]. *)
Inductive Message :=
| Lit (s : string)                          (* a literal of the source *)
| ToString (v : Value)                      (* new Error(v) *)
| HttpError (status : Z)                    (* `HTTP error: ${status}` *)
| ElevenLabsApiError (status : Z) (errorText : jsstring)
| Runtime (e : RuntimeError).               (* raised by the runtime *)

Inductive Body :=
| JsonError (m : Message)                                (* { error } *)
| JsonScript (script : Value) (savedId : option jsstring) (* { script, savedId } *)
| JsonScripts (scripts : list ScriptSummary)             (* { scripts } *)
| JsonRow (r : ScriptRow)
| JsonMessage (m : string)                               (* { message } *)
| Audio (buffer : list N)
| Text (m : string)
| NoRoute.                                               (* Express's own 404 *)

Record Response := {
  status : Z;
  headers : list (string * string);
  body : Body
}.

(** [res.status(code).json(b)] and [res.json(b)]. *)
Definition json (code : Z) (b : Body) : Response :=
  {| status := code; headers := []; body := b |}.

Inductive Mount := ApiGenerateResearch | ApiGenerateAudio | ApiScripts.
Inductive Method := GET | POST | DELETE | PUT.

(** A request that reached one of the [app.use('/api/...')] mounts, its JSON
    body parsed; [path] is what follows the mount point, [now] the clock when
    it arrives. *)
Record Request := {
  mount : Mount;
  method : Method;
  path : list jsstring;
  authorization : option jsstring;
  ip : jsstring;
  now : Z;
  req_body : Value;
  req_user : option User
}.

Definition set_user (u : User) (r : Request) : Request :=
  {| mount := mount r; method := method r; path := path r;
     authorization := authorization r; ip := ip r; now := now r;
     req_body := req_body r; req_user := Some u |}.

(** ** External services *)

Record HttpResponse := {
  resp_status : Z;
  resp_json : option Value;      (* [None]: the body is not JSON *)
  resp_text : jsstring;
  resp_bytes : list N
}.

Definition resp_ok (r : HttpResponse) : bool :=
  (200 <=? resp_status r) && (resp_status r <=? 299).

Inductive FetchResult :=
| FetchFailed                     (* fetch rejects *)
| Fetched (r : HttpResponse).

(** [{ data: { user }, error }] of [client.auth.getUser], or a rejection.
    The client reports a failed verification, a provider it cannot reach
    included, as an [error]; the rejection is what the [catch] of the
    middleware is for. *)
Inductive AuthReply :=
| AuthReturns (user : option User) (error : bool)
| AuthRejects.

Inductive StoreOp :=
| OpInsert (row : NewScript)
| OpList (uid : jsstring)
| OpGet (id uid : jsstring)
| OpGetId (id uid : jsstring)
| OpDelete (id uid : jsstring).

Inductive StoreFault :=
| FaultRejects                    (* the call throws *)
| FaultError (code : jsstring)    (* { data: null, error: { code } } *)
| FaultNoData.                    (* { data: null, error: null } *)

Record External := {
  toLowerCase : jsstring -> jsstring;
  createClientThrows : jsstring -> jsstring -> bool;   (* createClient(url, key) throws *)
  getUser : SupabaseClient -> jsstring -> AuthReply;
  fetchScript : jsstring -> GenerateScriptRequest -> FetchResult;
  fetchSpeech : jsstring -> jsstring -> jsstring -> FetchResult;
  storeFault : StoreOp -> option StoreFault;
  gen_random_uuid : list ScriptRow -> jsstring
}.

Inductive Call :=
| CallGetUser (client : SupabaseClient) (token : jsstring)
| CallScriptService (endpoint : jsstring) (r : GenerateScriptRequest)
| CallSpeechService (voiceId apiKey text : jsstring)
| CallStore (op : StoreOp).

(** ** The world and the monad of handlers *)

Record World := {
  env : Env;
  auth_supabase : option SupabaseClient;        (* auth.ts: let supabase *)
  generate_hits : gmap jsstring (list Z);       (* store of generateLimiter *)
  audio_hits : gmap jsstring (list Z);          (* store of audioLimiter *)
  scripts_table : list ScriptRow;               (* rows at the external store *)
  calls : list Call                             (* external calls, oldest first *)
}.

Definition log_call (c : Call) (w : World) : World :=
  {| env := env w; auth_supabase := auth_supabase w;
     generate_hits := generate_hits w; audio_hits := audio_hits w;
     scripts_table := scripts_table w; calls := calls w ++ [c] |}.

Definition set_table (t : list ScriptRow) (w : World) : World :=
  {| env := env w; auth_supabase := auth_supabase w;
     generate_hits := generate_hits w; audio_hits := audio_hits w;
     scripts_table := t; calls := calls w |}.

Definition set_auth_supabase (c : option SupabaseClient) (w : World) : World :=
  {| env := env w; auth_supabase := c;
     generate_hits := generate_hits w; audio_hits := audio_hits w;
     scripts_table := scripts_table w; calls := calls w |}.

Definition set_generate_hits (h : gmap jsstring (list Z)) (w : World) : World :=
  {| env := env w; auth_supabase := auth_supabase w;
     generate_hits := h; audio_hits := audio_hits w;
     scripts_table := scripts_table w; calls := calls w |}.

Definition set_audio_hits (h : gmap jsstring (list Z)) (w : World) : World :=
  {| env := env w; auth_supabase := auth_supabase w;
     generate_hits := generate_hits w; audio_hits := h;
     scripts_table := scripts_table w; calls := calls w |}.

Inductive Result (A : Type) :=
| Returns (a : A)
| Throws (e : Message).
Arguments Returns {A} a.
Arguments Throws {A} e.

Definition M (A : Type) : Type := World -> Result A * World.

#[global] Instance M_ret : MRet M := fun A a w => (Returns a, w).

#[global] Instance M_bind : MBind M := fun A B f m w =>
  match m w with
  | (Returns a, w') => f a w'
  | (Throws e, w') => (Throws e, w')
  end.

Definition throw {A} (e : Message) : M A := fun w => (Throws e, w).

(** [try { m } catch (e) { h e }] *)
Definition try_catch {A} (m : M A) (h : Message -> M A) : M A := fun w =>
  match m w with
  | (Returns a, w') => (Returns a, w')
  | (Throws e, w') => h e w'
  end.

Definition get_env : M Env := fun w => (Returns (env w), w).

(** Reading a property, raising the runtime's TypeError on [undefined] and
    [null]. *)
Definition get_prop (v : Value) (k : jsstring) : M Value :=
  match prop v k with
  | Some x => mret x
  | None => throw (Runtime TypeError)
  end.

(** ** The external store: answers and queries

    The [scripts] table as the Supabase client presents it: a call answers
    [{ data, error }] or rejects. *)

Record PgResult (A : Type) := {
  data : option A;
  error : option jsstring        (* error.code *)
}.
Arguments data {A} _.
Arguments error {A} _.

Definition PGRST116 : jsstring := js "PGRST116".

(** [.eq('id', id).eq('user_id', uid)] *)
Definition owned_by (id uid : jsstring) (r : ScriptRow) : bool :=
  bool_decide (row_id r = id) && bool_decide (row_user_id r = uid).

(** [.single()]: exactly one row, or error PGRST116. *)
Definition single {A} (rows : list A) : PgResult A :=
  match rows with
  | [r] => {| data := Some r; error := None |}
  | _ => {| data := None; error := Some PGRST116 |}
  end.

(** [.order('created_at', { ascending: false })] *)
Definition newer (a b : ScriptRow) : Prop := row_created_at b <= row_created_at a.

#[global] Instance newer_dec a b : Decision (newer a b).
Proof. unfold newer. apply _. Defined.

Section Backend.

Variable X : External.

(** ** The external store: calls

    A call is logged; unless [storeFault] injects a failure, the answer is
    the one of a relational table, whose rows the call may change. *)

Definition store_call {A} (op : StoreOp)
    (answer : list ScriptRow -> PgResult A * list ScriptRow) : M (PgResult A) :=
  fun w =>
    let w' := log_call (CallStore op) w in
    match storeFault X op with
    | Some FaultRejects => (Throws (Runtime NetworkError), w')
    | Some (FaultError code) => (Returns {| data := None; error := Some code |}, w')
    | Some FaultNoData => (Returns {| data := None; error := None |}, w')
    | None =>
        let '(r, t) := answer (scripts_table w) in (Returns r, set_table t w')
    end.

(** [.insert(row).select('id').single()] *)
Definition store_insert (t : Z) (n : NewScript) : M (PgResult jsstring) :=
  store_call (OpInsert n) (fun rows =>
    let r := {| row_id := gen_random_uuid X rows; row_user_id := new_user_id n;
                row_topic := new_topic n;
                row_duration_minutes := new_duration_minutes n;
                row_style := new_style n; row_script_data := new_script_data n;
                row_created_at := t; row_updated_at := t |} in
    ({| data := Some (row_id r); error := None |}, rows ++ [r])).

(** [.select(summary columns).eq('user_id', uid).order('created_at',
    { ascending: false })] *)
Definition store_list (uid : jsstring) : M (PgResult (list ScriptSummary)) :=
  store_call (OpList uid) (fun rows =>
    ({| data := Some (map summary (merge_sort newer
          (List.filter (fun r => bool_decide (row_user_id r = uid)) rows)));
        error := None |}, rows)).

(** [.select('*').eq('id', id).eq('user_id', uid).single()] *)
Definition store_get (id uid : jsstring) : M (PgResult ScriptRow) :=
  store_call (OpGet id uid) (fun rows =>
    (single (List.filter (owned_by id uid) rows), rows)).

(** [.select('id').eq('id', id).eq('user_id', uid).single()] *)
Definition store_get_id (id uid : jsstring) : M (PgResult jsstring) :=
  store_call (OpGetId id uid) (fun rows =>
    (single (map row_id (List.filter (owned_by id uid) rows)), rows)).

(** [.delete().eq('id', id).eq('user_id', uid)] *)
Definition store_delete (id uid : jsstring) : M (PgResult unit) :=
  store_call (OpDelete id uid) (fun rows =>
    ({| data := None; error := None |},
     List.filter (fun r => negb (owned_by id uid r)) rows)).

(** ** services/pythonService.ts *)

Definition fetch_script (endpoint : jsstring) (r : GenerateScriptRequest)
  : M HttpResponse :=
  fun w =>
    let w' := log_call (CallScriptService endpoint r) w in
    match fetchScript X endpoint r with
    | FetchFailed => (Throws (Runtime NetworkError), w')
    | Fetched resp => (Returns resp, w')
    end.

(** The [catch] of the source rethrows every [Error]; nothing else is thrown
    inside the [try]. *)
Definition generatePodcastScript (request : GenerateScriptRequest) : M Value :=
  e ← get_env;
  let pythonServiceUrl := env_or (PYTHON_SERVICE_URL e) (js "http://localhost:8000") in
  let endpoint := pythonServiceUrl ++ js "/generate" in
  response ← fetch_script endpoint request;
  if negb (resp_ok response) then
    let errorData :=
      match resp_json response with
      | Some v => v
      | None => VObject [(js "error", VString (js "Unknown error"))]
      end in
    err ← get_prop errorData (js "error");
    if truthy err then throw (ToString err)
    else throw (HttpError (resp_status response))
  else
    match resp_json response with
    | None => throw (Runtime SyntaxError)
    | Some script =>
        if negb (isArray script)
        then throw (Lit "Invalid script format: expected array")
        else mret script
    end.

(** ** services/elevenlabsService.ts *)

Definition fetch_speech (voiceId apiKey text : jsstring) : M HttpResponse :=
  fun w =>
    let w' := log_call (CallSpeechService voiceId apiKey text) w in
    match fetchSpeech X voiceId apiKey text with
    | FetchFailed => (Throws (Runtime NetworkError), w')
    | Fetched resp => (Returns resp, w')
    end.

Definition generateSingleAudio (text voiceId apiKey : jsstring) : M (list N) :=
  response ← fetch_speech voiceId apiKey text;
  if negb (resp_ok response)
  then throw (ElevenLabsApiError (resp_status response) (resp_text response))
  else mret (resp_bytes response).

(** [script.map((line) => line.text)] *)
Fixpoint map_text (script : list Value) : option (list Value) :=
  match script with
  | [] => Some []
  | line :: rest =>
      match prop line (js "text"), map_text rest with
      | Some t, Some ts => Some (t :: ts)
      | _, _ => None
      end
  end.

(** [texts.filter((text) => text.trim().length > 0)]; [text.trim] is not a
    function unless [text] is a string. *)
Fixpoint filter_nonblank (texts : list Value) : option (list jsstring) :=
  match texts with
  | [] => Some []
  | VString s :: rest =>
      match filter_nonblank rest with
      | Some kept =>
          Some (if (0 <? length (trim s))%nat then s :: kept else kept)
      | None => None
      end
  | _ :: _ => None
  end.

Definition DEFAULT_VOICE : jsstring := js "21m00Tcm4TlvDq8ikWAM".

Definition generateAudioFromScript (script : list Value) : M (list N) :=
  e ← get_env;
  if negb (env_truthy (ELEVENLABS_API_KEY e))
  then throw (Lit "ELEVENLABS_API_KEY not configured")
  else
    let apiKey := env_or (ELEVENLABS_API_KEY e) [] in
    let voiceId := env_or (ELEVENLABS_HOST_VOICE_ID e) DEFAULT_VOICE in
    match map_text script with
    | None => throw (Runtime TypeError)
    | Some texts =>
        match filter_nonblank texts with
        | None => throw (Runtime TypeError)
        | Some kept =>
            let allText := join (js " ") kept in
            if bool_decide (trim allText = [])
            then throw (Lit "Script is empty")
            else generateSingleAudio allText voiceId apiKey
        end
    end.

(** ** routes/generate-research.ts *)

Definition validStyleNames : list string :=
  ["conversational"; "documentary"; "investigative"; "educational"; "storytelling"]%string.

Definition validStyles : list jsstring := map js validStyleNames.

(** [`Style must be one of: ${validStyles.join(', ')}`] *)
Definition STYLE_LIST : string :=
  ("Style must be one of: " +:+ String.concat ", " validStyleNames)%string.

(** [!topic || typeof topic !== 'string' || topic.trim().length === 0] *)
Definition topic_invalid (topic : Value) : bool :=
  negb (truthy topic) || negb (bool_decide (typeof topic = TString))
  || bool_decide (length (trim (str topic)) = 0%nat).

(** [!durationMinutes || typeof durationMinutes !== 'number' ||
     durationMinutes < 5 || durationMinutes > 120] *)
Definition duration_invalid (durationMinutes : Value) : bool :=
  negb (truthy durationMinutes)
  || negb (bool_decide (typeof durationMinutes = TNumber))
  || num_lt (num durationMinutes) (num_of_Z 5)
  || num_gt (num durationMinutes) (num_of_Z 120).

(** [!style || typeof style !== 'string'] *)
Definition style_missing (style : Value) : bool :=
  negb (truthy style) || negb (bool_decide (typeof style = TString)).

(** [!validStyles.includes(style.toLowerCase())] *)
Definition style_unknown (style : Value) : bool :=
  negb (includes validStyles (toLowerCase X (str style))).

(** The best-effort save: [savedScriptId] stays [null] unless the insert
    answers a row and no error; a rejection is caught and dropped. *)
Definition save_script (supabase : option SupabaseClient) (req : Request)
    (topic durationMinutes style script : Value) : M (option jsstring) :=
  match supabase, req_user req with
  | Some _, Some u =>
      try_catch
        (r ← store_insert (now req)
               {| new_user_id := user_id u; new_topic := trim (str topic);
                  new_duration_minutes := num durationMinutes;
                  new_style := toLowerCase X (str style);
                  new_script_data := script |};
         match error r, data r with
         | None, Some id => mret (Some id)
         | _, _ => mret None
         end)
        (fun _ => mret None)
  | _, _ => mret None
  end.

Definition bad_request (m : string) : Response := json 400 (JsonError (Lit m)).

(** The handler of [router.post('/')]; [supabase] is the module-level client. *)
Definition generateResearch_handler (supabase : option SupabaseClient)
    (req : Request) : M Response :=
  try_catch
    (topic ← get_prop (req_body req) (js "topic");
     durationMinutes ← get_prop (req_body req) (js "durationMinutes");
     style ← get_prop (req_body req) (js "style");
     if topic_invalid topic
     then mret (bad_request "Topic is required and must be a non-empty string")
     else if duration_invalid durationMinutes
     then mret (bad_request "Duration must be a number between 5 and 120 minutes")
     else if style_missing style
     then mret (bad_request "Style is required")
     else if style_unknown style
     then mret (bad_request STYLE_LIST)
     else
       script ← generatePodcastScript
                  {| gs_topic := trim (str topic);
                     gs_durationMinutes := num durationMinutes;
                     gs_style := toLowerCase X (str style) |};
       savedScriptId ← save_script supabase req topic durationMinutes style script;
       mret (json 200 (JsonScript script savedScriptId)))
    (fun e => mret (json 500 (JsonError e))).

(** ** routes/generate-audio.ts *)

Definition dquote : string := String (Ascii.ascii_of_nat 34) EmptyString.

Definition AUDIO_HEADERS : list (string * string) :=
  [("Content-Type", "audio/mpeg");
   ("Content-Disposition",
    "inline; filename=" +:+ dquote +:+ "podcast.mp3" +:+ dquote);
   ("Cache-Control", "no-cache")]%string.

Definition generateAudio_handler (req : Request) : M Response :=
  try_catch
    (script ← get_prop (req_body req) (js "script");
     if negb (truthy script) || negb (isArray script)
     then mret (bad_request "Script array is required")
     else
       audioBuffer ← generateAudioFromScript (items script);
       mret {| status := 200; headers := AUDIO_HEADERS; body := Audio audioBuffer |})
    (fun e => mret (json 500 (JsonError e))).

(** ** routes/scripts.ts *)

Definition DB_NOT_CONFIGURED : Response :=
  json 500 (JsonError (Lit "Database not configured")).

Definition NOT_FOUND : Response := json 404 (JsonError (Lit "Script not found")).

Definition listScripts_handler (supabase : option SupabaseClient)
    (req : Request) : M Response :=
  try_catch
    (match supabase, req_user req with
     | Some _, Some u =>
         r ← store_list (user_id u);
         match error r with
         | Some _ => mret (json 500 (JsonError (Lit "Failed to fetch scripts")))
         | None => mret (json 200 (JsonScripts (default [] (data r))))
         end
     | _, _ => mret DB_NOT_CONFIGURED
     end)
    (fun _ => mret (json 500 (JsonError (Lit "Internal server error")))).

Definition getScript_handler (supabase : option SupabaseClient)
    (id : jsstring) (req : Request) : M Response :=
  try_catch
    (match supabase, req_user req with
     | Some _, Some u =>
         r ← store_get id (user_id u);
         match error r with
         | Some code =>
             if bool_decide (code = PGRST116) then mret NOT_FOUND
             else mret (json 500 (JsonError (Lit "Failed to fetch script")))
         | None =>
             match data r with
             | None => mret NOT_FOUND
             | Some row => mret (json 200 (JsonRow row))
             end
         end
     | _, _ => mret DB_NOT_CONFIGURED
     end)
    (fun _ => mret (json 500 (JsonError (Lit "Internal server error")))).

Definition deleteScript_handler (supabase : option SupabaseClient)
    (id : jsstring) (req : Request) : M Response :=
  try_catch
    (match supabase, req_user req with
     | Some _, Some u =>
         existing ← store_get_id id (user_id u);
         match error existing, data existing with
         | None, Some _ =>
             d ← store_delete id (user_id u);
             match error d with
             | Some _ => mret (json 500 (JsonError (Lit "Failed to delete script")))
             | None => mret (json 200 (JsonMessage "Script deleted successfully"))
             end
         | _, _ => mret NOT_FOUND
         end
     | _, _ => mret DB_NOT_CONFIGURED
     end)
    (fun _ => mret (json 500 (JsonError (Lit "Internal server error")))).

(** ** The rate limiters *)

Record LimiterOptions := {
  windowMs : Z;
  max : nat;
  message : string
}.

Definition generateLimiter : LimiterOptions :=
  {| windowMs := 15 * 60 * 1000; max := 10;
     message := "Too many script generation requests, please try again later." |}.

Definition audioLimiter : LimiterOptions :=
  {| windowMs := 15 * 60 * 1000; max := 5;
     message := "Too many audio generation requests, please try again later." |}.

(** Modelled from the spec: the middleware that [rateLimit(options)] builds
    belongs to the express-rate-limit package and is not in the sources; only
    its options are.  Following the specification (4.2 and 5), a limiter keeps
    for each client address the timestamps of its requests of the last
    [windowMs] milliseconds, adds the arriving request and then checks the
    count against [max].  It answers whether the request goes on to the
    handler, and the new store. *)
Definition rateLimit (o : LimiterOptions) (hits : gmap jsstring (list Z))
    (client : jsstring) (t : Z) : bool * gmap jsstring (list Z) :=
  let window :=
    t :: List.filter (fun s => bool_decide (t - windowMs o < s))
           (default [] (hits !! client)) in
  (bool_decide (length window <= max o)%nat, <[client := window]> hits).

Definition tooMany (o : LimiterOptions) : Response :=
  {| status := 429; headers := []; body := Text (message o) |}.

(** [router.post('/', generateLimiter, handler)] *)
Definition generateResearch_route (supabase : option SupabaseClient)
    (req : Request) : M Response :=
  fun w =>
    let '(pass, hits) :=
      rateLimit generateLimiter (generate_hits w) (ip req) (now req) in
    let w' := set_generate_hits hits w in
    if pass then generateResearch_handler supabase req w'
    else (Returns (tooMany generateLimiter), w').

(** [router.post('/', audioLimiter, handler)] *)
Definition generateAudio_route (req : Request) : M Response :=
  fun w =>
    let '(pass, hits) :=
      rateLimit audioLimiter (audio_hits w) (ip req) (now req) in
    let w' := set_audio_hits hits w in
    if pass then generateAudio_handler req w'
    else (Returns (tooMany audioLimiter), w').

(** ** middleware/auth.ts *)

(** The cached client if there is one; otherwise [createClient] is called
    when both variables are set.  When it throws, nothing is assigned and
    the error reaches the [catch] of the middleware. *)
Definition getSupabaseClient : M (option SupabaseClient) := fun w =>
  match auth_supabase w with
  | Some c => (Returns (Some c), w)
  | None =>
      match createClientFromEnv (env w) with
      | Some c =>
          if createClientThrows X (client_url c) (client_key c)
          then (Throws (Runtime TypeError), w)
          else (Returns (Some c), set_auth_supabase (Some c) w)
      | None => (Returns None, set_auth_supabase None w)
      end
  end.

Definition auth_getUser (client : SupabaseClient) (token : jsstring)
  : M (option User * bool) :=
  fun w =>
    let w' := log_call (CallGetUser client token) w in
    match getUser X client token with
    | AuthRejects => (Throws (Runtime NetworkError), w')
    | AuthReturns u err => (Returns (u, err), w')
    end.

Definition BEARER : jsstring := js "Bearer ".

(** [inl] is a response sent by the middleware, [inr] the request handed to
    [next()] with [req.user] set. *)
Definition authMiddleware (req : Request) : M (Response + Request) :=
  try_catch
    (match authorization req with
     | Some authHeader =>
         if negb (bool_decide (authHeader = [])) && startsWith authHeader BEARER
         then
           let token := substring authHeader 7 in
           client ← getSupabaseClient;
           match client with
           | None =>
               mret (inl (json 500 (JsonError (Lit "Authentication service not configured"))))
           | Some c =>
               reply ← auth_getUser c token;
               match reply with
               | (Some u, false) =>
                   mret (inr (set_user {| user_id := user_id u;
                                          user_email := user_email u |} req))
               | _ =>
                   mret (inl (json 401 (JsonError (Lit "Invalid or expired token"))))
               end
           end
         else mret (inl (json 401 (JsonError (Lit "Missing or invalid authorization header"))))
     | None =>
         mret (inl (json 401 (JsonError (Lit "Missing or invalid authorization header"))))
     end)
    (fun _ => mret (inl (json 500 (JsonError (Lit "Authentication error"))))).

(** ** server.ts *)

(** The module-level clients of the two routers, built when the modules
    load.  A [createClient] that throws there ends the import, so no server
    runs: [load_routers] describes the processes that did start. *)
Record Routers := {
  research_supabase : option SupabaseClient;   (* routes/generate-research.ts *)
  scripts_supabase : option SupabaseClient     (* routes/scripts.ts *)
}.

Definition load_routers (e : Env) : Routers :=
  {| research_supabase := createClientFromEnv e;
     scripts_supabase := createClientFromEnv e |}.

Definition NO_ROUTE : Response := {| status := 404; headers := []; body := NoRoute |}.

(** What each mounted router does with a request handed over by the auth
    gate; a request that matches none of its routes falls through to
    Express's 404. *)
Definition router (rs : Routers) (req : Request) : M Response :=
  match mount req, method req, path req with
  | ApiGenerateResearch, POST, [] =>
      generateResearch_route (research_supabase rs) req
  | ApiGenerateAudio, POST, [] => generateAudio_route req
  | ApiScripts, GET, [] => listScripts_handler (scripts_supabase rs) req
  | ApiScripts, GET, [id] => getScript_handler (scripts_supabase rs) id req
  | ApiScripts, DELETE, [id] => deleteScript_handler (scripts_supabase rs) id req
  | _, _, _ => mret NO_ROUTE
  end.

(** [app.use('/api/...', authMiddleware, router)] *)
Definition api (rs : Routers) (req : Request) : M Response :=
  r ← authMiddleware req;
  match r with
  | inl response => mret response
  | inr req' => router rs req'
  end.

End Backend.

(** * The browser side: pages/PodcastGenerator.tsx and pages/ScriptHistory.tsx

    The pure parts of the two pages: the options and the limit of the
    generator form, the body it posts, and the file name of a downloaded
    script. *)

(** [STYLE_OPTIONS]: value and label. *)
Definition STYLE_OPTIONS : list (string * string) :=
  [("conversational", "Conversational"); ("documentary", "Documentary");
   ("investigative", "Investigative"); ("educational", "Educational");
   ("storytelling", "Storytelling")]%string.

Definition MAX_DURATION : Z := 30.

(** The state of the form: [topic], [duration], [style]. *)
Record GeneratorForm := {
  form_topic : jsstring;
  form_duration : Number;
  form_style : jsstring
}.

(** [duration > MAX_DURATION], the check that opens [handleGenerate]. *)
Definition exceeds_max (f : GeneratorForm) : bool :=
  num_gt (form_duration f) (num_of_Z MAX_DURATION).

(** [disabled={loading || !topic.trim()}], when nothing is loading. *)
Definition submit_disabled (f : GeneratorForm) : bool :=
  bool_decide (trim (form_topic f) = []).

(** A number as [JSON.stringify] writes it and [express.json()] reads it
    back: NaN and the infinities become [null]. *)
Definition json_number (n : Number) : Value :=
  match n with
  | Finite q => VNumber (Finite q)
  | _ => VNull
  end.

(** [JSON.stringify({ topic: topic.trim(), durationMinutes: duration, style })],
    as the server parses it. *)
Definition generate_body (f : GeneratorForm) : Value :=
  VObject [(js "topic", VString (trim (form_topic f)));
           (js "durationMinutes", json_number (form_duration f));
           (js "style", VString (form_style f))].

(** [topic.replace(/\s+/g, '-')]: every maximal run of white space becomes
    one hyphen; [in_run] tells that the previous code unit was white space. *)
Fixpoint hyphenate (in_run : bool) (s : jsstring) : jsstring :=
  match s with
  | [] => []
  | c :: s' =>
      if isWhiteSpace c
      then if in_run then hyphenate true s' else 45%N :: hyphenate true s'
      else c :: hyphenate false s'
  end.

(** [`podcast-script-${topic.replace(/\s+/g, '-').toLowerCase()}.txt`] *)
Definition download_name (lower : jsstring -> jsstring) (topic : jsstring) : jsstring :=
  js "podcast-script-" ++ lower (hyphenate false topic) ++ js ".txt".

(** * Vocabulary of the properties

    Predicates and functions in which the properties below are stated: what
    the specification says of requests, scripts, rows and runs of requests. *)

(** ** Requests

    The Authorization header starts with [Bearer ]. *)
Definition has_bearer (h : option jsstring) : bool :=
  match h with
  | Some authHeader => startsWith authHeader BEARER
  | None => false
  end.

(** ** Scripts

    The text of a line, whether it has one, and the text the specification
    sends to the speech service: the texts in order, the white-space-only
    ones removed, joined by single spaces. *)
Definition text_of (l : Value) : jsstring :=
  match prop l (js "text") with Some (VString s) => s | _ => [] end.

Definition has_text (l : Value) : bool :=
  match prop l (js "text") with Some (VString _) => true | _ => false end.

Definition whitespace_only (s : jsstring) : bool := forallb isWhiteSpace s.

Definition spoken_text (lines : list Value) : jsstring :=
  join (js " ") (List.filter (fun s => negb (whitespace_only s)) (map text_of lines)).

(** A line whose text is white space only. *)
Definition blank_line (l : Value) : bool :=
  has_text l && whitespace_only (text_of l).

(** The voice and the key the deployment is configured with. *)
Definition configured_voice (e : Env) : jsstring :=
  env_or (ELEVENLABS_HOST_VOICE_ID e) DEFAULT_VOICE.

Definition configured_key (e : Env) : jsstring := env_or (ELEVENLABS_API_KEY e) [].

(** ** Script generation

    The URL of the script service. *)
Definition script_endpoint (e : Env) : jsstring :=
  env_or (PYTHON_SERVICE_URL e) (js "http://localhost:8000") ++ js "/generate".

(** The request the handler forwards upstream. *)
Definition forwarded (X : External) (topic durationMinutes style : Value)
  : GenerateScriptRequest :=
  {| gs_topic := trim (str topic); gs_durationMinutes := num durationMinutes;
     gs_style := toLowerCase X (str style) |}.

(** The row the handler asks the store to insert. *)
Definition inserted (X : External) (u : User) (topic durationMinutes style script : Value)
  : NewScript :=
  {| new_user_id := user_id u; new_topic := trim (str topic);
     new_duration_minutes := num durationMinutes;
     new_style := toLowerCase X (str style); new_script_data := script |}.

(** The body carries these three values under [topic], [durationMinutes] and
    [style] ([VUndefined] for a key that is absent). *)
Definition reads (req : Request) (topic durationMinutes style : Value) : Prop :=
  prop (req_body req) (js "topic") = Some topic /\
  prop (req_body req) (js "durationMinutes") = Some durationMinutes /\
  prop (req_body req) (js "style") = Some style.

(** The request passes the four checks of the handler. *)
Definition accepted (X : External) (topic durationMinutes style : Value) : bool :=
  negb (topic_invalid topic) && negb (duration_invalid durationMinutes)
  && negb (style_missing style) && negb (style_unknown X style).

(** The script service answers a 2xx response whose JSON body is an array. *)
Definition upstream_succeeds (X : External) (e : Env) (r : GenerateScriptRequest)
    (script : Value) : Prop :=
  exists resp, fetchScript X (script_endpoint e) r = Fetched resp /\
    resp_ok resp = true /\ resp_json resp = Some script /\ isArray script = true.

(** A number in the closed interval [5, 120]. *)
Definition in_range (v : Value) : bool :=
  match v with
  | VNumber (Finite q) => Qle_bool (inject_Z 5) q && Qle_bool q (inject_Z 120)
  | _ => false
  end.

(** ** Rows

    No row has this id. *)
Definition absent (id : jsstring) (rows : list ScriptRow) : bool :=
  forallb (fun r => negb (bool_decide (row_id r = id))) rows.

(** Some row has this id, and no row with this id belongs to [uid]. *)
Definition foreign (id uid : jsstring) (rows : list ScriptRow) : bool :=
  existsb (fun r => bool_decide (row_id r = id)) rows
  && forallb (fun r => negb (owned_by id uid r)) rows.

(** A row with its dialogue payload blanked. *)
Definition redact (r : ScriptRow) : ScriptRow :=
  {| row_id := row_id r; row_user_id := row_user_id r; row_topic := row_topic r;
     row_duration_minutes := row_duration_minutes r; row_style := row_style r;
     row_script_data := VNull; row_created_at := row_created_at r;
     row_updated_at := row_updated_at r |}.

(** The rows of [uid], newest first: what GET /api/scripts lists. *)
Definition listed (uid : jsstring) (rows : list ScriptRow) : list ScriptRow :=
  merge_sort newer (List.filter (fun r => bool_decide (row_user_id r = uid)) rows).

(** ** Rows the caller cannot see

    What GET /api/scripts/:id answers when the lookup finds no row of the
    caller's under the id, by what the store did with the lookup. *)
Definition unseen_get_answer (fault : option StoreFault) : Response :=
  match fault with
  | None | Some FaultNoData => NOT_FOUND
  | Some (FaultError code) =>
      if bool_decide (code = PGRST116) then NOT_FOUND
      else json 500 (JsonError (Lit "Failed to fetch script"))
  | Some FaultRejects => json 500 (JsonError (Lit "Internal server error"))
  end.

(** The same for DELETE /api/scripts/:id. *)
Definition unseen_delete_answer (fault : option StoreFault) : Response :=
  match fault with
  | Some FaultRejects => json 500 (JsonError (Lit "Internal server error"))
  | _ => NOT_FOUND
  end.

(** ** Runs of requests

    The requests are served one after the other, each in the world the
    previous one left. *)
Fixpoint serve (f : Request -> M Response) (reqs : list Request) (w : World)
  : list (Result Response) * World :=
  match reqs with
  | [] => ([], w)
  | r :: rest =>
      let '(out, w1) := f r w in
      let '(outs, w2) := serve f rest w1 in
      (out :: outs, w2)
  end.

(** The requests arrive in the order of their clocks. *)
Fixpoint chronological (reqs : list Request) : bool :=
  match reqs with
  | r1 :: rest =>
      match rest with
      | r2 :: _ => bool_decide (now r1 <= now r2) && chronological rest
      | [] => true
      end
  | [] => true
  end.

(** The answer did not come from a limiter. *)
Definition admitted (out : Result Response) : bool :=
  match out with
  | Returns r => negb (bool_decide (status r = 429))
  | Throws _ => true
  end.

(** Timestamps after [lo] kept for a client, and requests of a client that
    reached the limiter of the [target] route after [lo]. *)
Definition stored (lo : Z) (c : jsstring) (hits : gmap jsstring (list Z)) : nat :=
  length (List.filter (fun s => bool_decide (lo < s)) (default [] (hits !! c))).

Definition arrived (target : Request -> bool) (lo : Z) (c : jsstring)
    (reqs : list Request) : nat :=
  length (List.filter
            (fun r => target r && bool_decide (ip r = c) && bool_decide (lo < now r))
            reqs).

(** Requests of client [c] for the [target] route that arrived in
    [[a, a + windowMs)] and went on to the handler. *)
Definition admitted_in (o : LimiterOptions) (target : Request -> bool) (a : Z)
    (c : jsstring) (served : list (Request * Result Response)) : nat :=
  length (List.filter
            (fun p => target (fst p) && bool_decide (ip (fst p) = c)
                      && bool_decide (a <= now (fst p) < a + windowMs o)
                      && admitted (snd p))
            served).

(** The requests paired with their answers. *)
Definition served_by (f : Request -> M Response) (reqs : list Request) (w : World)
  : list (Request * Result Response) :=
  zip reqs (fst (serve f reqs w)).

(** A merge-sort stack, mapped. *)
Definition map_stack {A B} (f : A -> B) (st : list (option (list A)))
  : list (option (list B)) :=
  map (option_map (map f)) st.

(** ** What a computation leaves alone

    [tame P m]: the computation [m] does not write to either limiter store,
    and whatever it returns satisfies [P]. *)
Definition same_hits (w w' : World) : Prop :=
  generate_hits w' = generate_hits w /\ audio_hits w' = audio_hits w.

Definition tame {A} (P : A -> Prop) (m : M A) : Prop :=
  forall w, same_hits w (snd (m w)) /\
            match fst (m w) with Returns a => P a | Throws _ => True end.

Definition any {A} : A -> Prop := fun _ => True.

Definition not_limited (r : Response) : Prop := status r <> 429.

(** The requests that [router] hands to each limited route. *)
Definition is_research (req : Request) : bool :=
  match mount req, method req, path req with
  | ApiGenerateResearch, POST, [] => true
  | _, _, _ => false
  end.

Definition is_audio (req : Request) : bool :=
  match mount req, method req, path req with
  | ApiGenerateAudio, POST, [] => true
  | _, _, _ => false
  end.

(** ** Frames

    [framed R P m]: the world the computation [m] leaves is related by [R] to
    the one it started in, and whatever it returns satisfies [P]. *)
Definition framed (R : relation World) {A} (P : A -> Prop) (m : M A) : Prop :=
  forall w, R w (snd (m w)) /\
            match fst (m w) with Returns a => P a | Throws _ => True end.

(** The computation answers: no exception leaves it. *)
Definition responds {A} (m : M A) : Prop :=
  forall w, exists a, fst (m w) = Returns a.

(** The rows are the same. *)
Definition same_table : relation World :=
  fun w w' => scripts_table w' = scripts_table w.

(** The rows that do not belong to [uid], in the order of the table. *)
Definition rows_of_others (uid : jsstring) (rows : list ScriptRow) : list ScriptRow :=
  List.filter (fun r => negb (bool_decide (row_user_id r = uid))) rows.

Definition same_others (uid : jsstring) : relation World :=
  fun w w' => rows_of_others uid (scripts_table w') = rows_of_others uid (scripts_table w).

Definition unrelated : relation World := fun _ _ => True.

(** The statuses of the answers. *)
Definition status_in (allowed : list Z) (r : Response) : Prop := status r ∈ allowed.

(** ** The auth gate

    The client the gate verifies with: the one it built before, or else one
    that [createClient] builds now from the environment, without throwing. *)
Definition gate_client (X : External) (w : World) : option SupabaseClient :=
  match auth_supabase w with
  | Some c => Some c
  | None =>
      match createClientFromEnv (env w) with
      | Some c =>
          if createClientThrows X (client_url c) (client_key c) then None else Some c
      | None => None
      end
  end.

(** No client is cached, both variables are set, and [createClient] throws
    on them. *)
Definition client_cannot_be_built (X : External) (w : World) : Prop :=
  auth_supabase w = None
  /\ exists c, createClientFromEnv (env w) = Some c
       /\ createClientThrows X (client_url c) (client_key c) = true.

(** The token of a header: what follows the seven code units of [Bearer ]. *)
Definition bearer_token (h : jsstring) : jsstring := drop 7 h.

(** The world after the gate has asked the identity provider. *)
Definition verified_with (c : SupabaseClient) (token : jsstring) (w : World) : World :=
  log_call (CallGetUser c token) (set_auth_supabase (Some c) w).

(** ** Script generation, continued

    A string with a code unit that is not white space. *)
Definition nonblank_string (v : Value) : bool :=
  match v with
  | VString s => negb (whitespace_only s)
  | _ => false
  end.

(** The script service answers a 2xx response whose JSON body is an array
    ([upstream_succeeds], as a test). *)
Definition upstream_ok (X : External) (e : Env) (r : GenerateScriptRequest) : bool :=
  match fetchScript X (script_endpoint e) r with
  | Fetched resp =>
      resp_ok resp &&
      match resp_json resp with Some v => isArray v | None => false end
  | FetchFailed => false
  end.

(** The message [generatePodcastScript] throws on a response [resp] whose
    status is outside 200..299. *)
Definition upstream_error_message (resp : HttpResponse) : Message :=
  match resp_json resp with
  | None => ToString (VString (js "Unknown error"))
  | Some body =>
      match prop body (js "error") with
      | None => Runtime TypeError
      | Some err => if truthy err then ToString err else HttpError (resp_status resp)
      end
  end.

(** The row the store makes of an insert at time [t] into [rows]. *)
Definition stored_row (X : External) (rows : list ScriptRow) (t : Z) (n : NewScript)
  : ScriptRow :=
  {| row_id := gen_random_uuid X rows; row_user_id := new_user_id n;
     row_topic := new_topic n; row_duration_minutes := new_duration_minutes n;
     row_style := new_style n; row_script_data := new_script_data n;
     row_created_at := t; row_updated_at := t |}.

(** The ids of the rows are pairwise different ([id] is the primary key). *)
Definition unique_ids (rows : list ScriptRow) : Prop := NoDup (map row_id rows).

(** ** Strings, continued

    The string does not start with white space. *)
Definition no_leading_space (s : jsstring) : Prop :=
  match s with
  | c :: _ => isWhiteSpace c = false
  | [] => True
  end.

(** [toLowerCase] leaves the five style names, which are lower-case ASCII,
    as they are. *)
Definition keeps_style_names (X : External) : Prop :=
  forall s, s ∈ validStyles -> toLowerCase X s = s.

(** * A concrete deployment, for running the model

    [asciiLower] is [toLowerCase] on strings of ASCII code units; the
    services answer as a healthy deployment would. *)

Definition asciiLower (s : jsstring) : jsstring :=
  map (fun c => if (65 <=? c)%N && (c <=? 90)%N then (c + 32)%N else c) s.

Definition alice : User := {| user_id := js "alice"; user_email := None |}.
Definition bob : User := {| user_id := js "bob"; user_email := None |}.

Definition line (speaker text : string) : Value :=
  VObject [(js "speaker", VString (js speaker)); (js "text", VString (js text))].

Definition demo_script : Value :=
  VArray [line "Host" "Welcome to the show."; line "Guest" "Glad to be here."].

Definition demo_external : External :=
  {| toLowerCase := asciiLower;
     createClientThrows := fun _ _ => false;
     getUser := fun _ token =>
       if bool_decide (token = js "alice-token") then AuthReturns (Some alice) false
       else if bool_decide (token = js "bob-token") then AuthReturns (Some bob) false
       else AuthReturns None true;
     fetchScript := fun _ _ =>
       Fetched {| resp_status := 200; resp_json := Some demo_script;
                  resp_text := []; resp_bytes := [] |};
     fetchSpeech := fun _ _ text =>
       Fetched {| resp_status := 200; resp_json := None; resp_text := [];
                  resp_bytes := text |};
     storeFault := fun _ => None;
     gen_random_uuid := fun rows => js "script-" ++ replicate (length rows) 49%N |}.

(** The same deployment with a store that rejects every insert. *)
Definition failing_store_external : External :=
  {| toLowerCase := asciiLower;
     createClientThrows := fun _ _ => false;
     getUser := getUser demo_external;
     fetchScript := fetchScript demo_external;
     fetchSpeech := fetchSpeech demo_external;
     storeFault := fun op =>
       match op with OpInsert _ => Some (FaultError (js "23503")) | _ => None end;
     gen_random_uuid := gen_random_uuid demo_external |}.

Definition demo_env : Env :=
  {| SUPABASE_URL := Some (js "https://demo.supabase.co");
     SUPABASE_SERVICE_KEY := Some (js "service-key");
     ELEVENLABS_API_KEY := Some (js "xi-key");
     ELEVENLABS_HOST_VOICE_ID := None;
     PYTHON_SERVICE_URL := None |}.

Definition demo_client : SupabaseClient :=
  {| client_url := js "https://demo.supabase.co"; client_key := js "service-key" |}.

Definition demo_world : World :=
  {| env := demo_env; auth_supabase := None; generate_hits := ∅;
     audio_hits := ∅; scripts_table := []; calls := [] |}.

Definition request (m : Mount) (meth : Method) (p : list jsstring)
    (auth : option jsstring) (t : Z) (b : Value) : Request :=
  {| mount := m; method := meth; path := p; authorization := auth;
     ip := js "203.0.113.7"; now := t; req_body := b; req_user := None |}.

Definition research_body (topic : string) (minutes : Z) (style : string) : Value :=
  VObject [(js "topic", VString (js topic));
           (js "durationMinutes", VNumber (num_of_Z minutes));
           (js "style", VString (js style))].

Definition bearer_request : Request :=
  request ApiGenerateResearch POST [] (Some (js "Bearer alice-token")) 1000
    (research_body "The history of coffee" 10 "Conversational").

Definition basic_auth_request : Request :=
  request ApiGenerateResearch POST [] (Some (js "Basic dXNlcjpwdw==")) 0
    (research_body "The history of coffee" 10 "documentary").

Definition empty_script_request : Request :=
  request ApiGenerateAudio POST [] (Some (js "Bearer alice-token")) 0
    (VObject [(js "script", VArray [])]).

Definition blank_script_request : Request :=
  request ApiGenerateAudio POST [] (Some (js "Bearer alice-token")) 0
    (VObject [(js "script", VArray [line "Host" "  "; line "Guest" ""])]).

Definition spoken_request (speaker1 speaker2 : string) : Request :=
  request ApiGenerateAudio POST [] (Some (js "Bearer alice-token")) 0
    (VObject [(js "script",
       VArray [line speaker1 "Welcome back."; line speaker2 " ";
               VObject [(js "speaker", VString (js "Guest"));
                        (js "text", VString (js "Thanks for having me."));
                        (js "audioEffect", VString (js "laugh"))]])]).

Definition long_request : Request :=
  request ApiGenerateResearch POST [] (Some (js "Bearer alice-token")) 0
    (research_body "The history of coffee" 121 "documentary").

Definition empty_style_request : Request :=
  request ApiGenerateResearch POST [] (Some (js "Bearer alice-token")) 0
    (research_body "The history of coffee" 10 "").

Definition shouting_request : Request :=
  request ApiGenerateResearch POST [] (Some (js "Bearer alice-token")) 0
    (research_body "  The history of coffee " 10 "Documentary").

Definition coffee_request : Request :=
  set_user alice
    (request ApiGenerateResearch POST [] (Some (js "Bearer alice-token")) 1000
       (research_body "The history of coffee" 10 "Conversational")).

Definition row_of (id : string) (owner : User) (t : Z) : ScriptRow :=
  {| row_id := js id; row_user_id := user_id owner;
     row_topic := js "The history of coffee";
     row_duration_minutes := num_of_Z 10; row_style := js "documentary";
     row_script_data := demo_script; row_created_at := t; row_updated_at := t |}.

Definition bobs_world : World := set_table [row_of "s1" bob 10] demo_world.

Definition alice_request (meth : Method) (p : list jsstring) : Request :=
  set_user alice
    (request ApiScripts meth p (Some (js "Bearer alice-token")) 2000 (VObject [])).

(** The same requests as they arrive, before the gate has set [req.user]. *)
Definition bearer_scripts_request (meth : Method) (p : list jsstring) : Request :=
  request ApiScripts meth p (Some (js "Bearer alice-token")) 2000 (VObject []).

(** A deployment whose store, like Postgres on the UUID column [id],
    answers the id [not-a-uuid] with error 22P02. *)
Definition uuid_store_external : External :=
  {| toLowerCase := asciiLower;
     createClientThrows := fun _ _ => false;
     getUser := getUser demo_external;
     fetchScript := fetchScript demo_external;
     fetchSpeech := fetchSpeech demo_external;
     storeFault := fun op =>
       match op with
       | OpGet id _ | OpGetId id _ | OpDelete id _ =>
           if bool_decide (id = js "not-a-uuid")
           then Some (FaultError (js "22P02")) else None
       | _ => None
       end;
     gen_random_uuid := gen_random_uuid demo_external |}.

Definition alices_world : World :=
  set_table [row_of "s1" bob 10; row_of "s2" alice 20] demo_world.

Definition shared_world : World :=
  set_table [row_of "s1" alice 10; row_of "s2" bob 20; row_of "s3" alice 30]
    demo_world.

Definition research_at (t : Z) : Request :=
  set_user alice
    (request ApiGenerateResearch POST [] (Some (js "Bearer alice-token")) t
       (research_body "The history of coffee" 10 "documentary")).

Definition ten_requests : list Request :=
  map research_at [0; 1000; 2000; 3000; 4000; 5000; 6000; 7000; 8000; 9000].

Definition mallory_request : Request :=
  request ApiScripts DELETE [js "s1"] (Some (js "Bearer stolen-token")) 3000
    (VObject []).

(** A deployment whose identity provider is unreachable: the client comes
    back with an error and no user. *)
Definition offline_identity_external : External :=
  {| toLowerCase := asciiLower;
     createClientThrows := fun _ _ => false;
     getUser := fun _ _ => AuthReturns None true;
     fetchScript := fetchScript demo_external;
     fetchSpeech := fetchSpeech demo_external;
     storeFault := storeFault demo_external;
     gen_random_uuid := gen_random_uuid demo_external |}.

(** A deployment whose identity client throws instead of answering. *)
Definition throwing_identity_external : External :=
  {| toLowerCase := asciiLower;
     createClientThrows := fun _ _ => false;
     getUser := fun _ _ => AuthRejects;
     fetchScript := fetchScript demo_external;
     fetchSpeech := fetchSpeech demo_external;
     storeFault := storeFault demo_external;
     gen_random_uuid := gen_random_uuid demo_external |}.

(** A deployment whose [createClient] insists on a URL that begins with a
    scheme, started with [SUPABASE_URL] lacking it. *)
Definition url_checking_external : External :=
  {| toLowerCase := asciiLower;
     createClientThrows := fun url _ =>
       negb (startsWith url (js "http://") || startsWith url (js "https://"));
     getUser := getUser demo_external;
     fetchScript := fetchScript demo_external;
     fetchSpeech := fetchSpeech demo_external;
     storeFault := storeFault demo_external;
     gen_random_uuid := gen_random_uuid demo_external |}.

Definition typo_env : Env :=
  {| SUPABASE_URL := Some (js "demo.supabase.co");
     SUPABASE_SERVICE_KEY := Some (js "service-key");
     ELEVENLABS_API_KEY := Some (js "xi-key");
     ELEVENLABS_HOST_VOICE_ID := None;
     PYTHON_SERVICE_URL := None |}.

Definition typo_world : World :=
  {| env := typo_env; auth_supabase := None; generate_hits := ∅;
     audio_hits := ∅; scripts_table := []; calls := [] |}.

(** A deployment started without the Supabase variables. *)
Definition bare_env : Env :=
  {| SUPABASE_URL := None; SUPABASE_SERVICE_KEY := None;
     ELEVENLABS_API_KEY := None; ELEVENLABS_HOST_VOICE_ID := None;
     PYTHON_SERVICE_URL := None |}.

Definition bare_world : World :=
  {| env := bare_env; auth_supabase := None; generate_hits := ∅;
     audio_hits := ∅; scripts_table := []; calls := [] |}.

Definition blank_topic_request : Request :=
  request ApiGenerateResearch POST [] (Some (js "Bearer alice-token")) 0
    (research_body "   " 500 "jazz").

(** A deployment whose script service answers 422 with an error text. *)
Definition refusing_script_external : External :=
  {| toLowerCase := asciiLower;
     createClientThrows := fun _ _ => false;
     getUser := getUser demo_external;
     fetchScript := fun _ _ =>
       Fetched {| resp_status := 422;
                  resp_json := Some (VObject [(js "error", VString (js "Topic not allowed"))]);
                  resp_text := []; resp_bytes := [] |};
     fetchSpeech := fetchSpeech demo_external;
     storeFault := storeFault demo_external;
     gen_random_uuid := gen_random_uuid demo_external |}.

(** A deployment whose store is down: every call answers an error. *)
Definition broken_store_external : External :=
  {| toLowerCase := asciiLower;
     createClientThrows := fun _ _ => false;
     getUser := getUser demo_external;
     fetchScript := fetchScript demo_external;
     fetchSpeech := fetchSpeech demo_external;
     storeFault := fun _ => Some (FaultError (js "57P01"));
     gen_random_uuid := gen_random_uuid demo_external |}.

Definition bob_request (meth : Method) (p : list jsstring) : Request :=
  set_user bob
    (request ApiScripts meth p (Some (js "Bearer bob-token")) 2000 (VObject [])).

Definition malformed_script_request : Request :=
  request ApiGenerateAudio POST [] (Some (js "Bearer alice-token")) 0
    (VObject [(js "script",
       VArray [line "Host" "Welcome back.";
               VObject [(js "speaker", VString (js "Guest"));
                        (js "text", VNumber (num_of_Z 42))]])]).

Definition coffee_form : GeneratorForm :=
  {| form_topic := js "  The history of coffee ";
     form_duration := num_of_Z 20; form_style := js "storytelling" |}.

Definition coffee_form_request : Request :=
  set_user alice
    (request ApiGenerateResearch POST [] (Some (js "Bearer alice-token")) 1000
       (generate_body coffee_form)).

(** * Properties *)

(** ** Strings *)

Example trim_spaces : trim (js "  hi there 	") = js "hi there".
Proof. reflexivity. Qed.

Lemma trimStart_nil (s : jsstring) :
  trimStart s = [] <-> forallb isWhiteSpace s = true.
Proof.
  induction s as [|c s IH]; simpl; [tauto|].
  destruct (isWhiteSpace c); simpl; [exact IH|].
  split; discriminate.
Qed.

Lemma forallb_reverse (s : jsstring) :
  forallb isWhiteSpace (reverse s) = forallb isWhiteSpace s.
Proof.
  induction s as [|c s IH]; [reflexivity|].
  rewrite reverse_cons, forallb_app, IH. simpl.
  destruct (isWhiteSpace c), (forallb isWhiteSpace s); reflexivity.
Qed.

Lemma trimStart_suffix (s : jsstring) : exists p,
  s = p ++ trimStart s /\ forallb isWhiteSpace p = true.
Proof.
  induction s as [|c s [p [E H]]]; simpl.
  - exists []. split; reflexivity.
  - destruct (isWhiteSpace c) eqn:W.
    + exists (c :: p). simpl. rewrite W, H. split; [congruence|reflexivity].
    + exists []. split; reflexivity.
Qed.

(** [trim] leaves nothing exactly when every code unit is white space. *)
Lemma trim_nil (s : jsstring) :
  trim s = [] <-> forallb isWhiteSpace s = true.
Proof.
  unfold trim, trimEnd.
  destruct (trimStart_suffix s) as [p [E Hp]].
  split.
  - intros H. apply (f_equal reverse) in H. rewrite reverse_involutive in H.
    simpl in H. apply trimStart_nil in H. rewrite forallb_reverse in H.
    rewrite E, forallb_app, Hp, H. reflexivity.
  - intros H. apply trimStart_nil in H. rewrite H. reflexivity.
Qed.

Lemma join_blank (parts : list jsstring) :
  forallb isWhiteSpace (join (js " ") parts) = true ->
  forall p, p ∈ parts -> forallb isWhiteSpace p = true.
Proof.
  induction parts as [|q rest IH]; intros H p Hin.
  - inversion Hin.
  - destruct rest as [|r rest'].
    + apply list_elem_of_singleton in Hin. subst. exact H.
    + change (join (js " ") (q :: r :: rest'))
        with (q ++ js " " ++ join (js " ") (r :: rest')) in H.
      rewrite !forallb_app in H.
      apply andb_true_iff in H as [Hq H]. apply andb_true_iff in H as [_ H].
      apply elem_of_cons in Hin as [->|Hin]; [exact Hq|].
      apply IH; assumption.
Qed.

(** ** Running handlers *)

Ltac run :=
  unfold mbind, M_bind, mret, M_ret, try_catch, throw, get_prop, get_env in *;
  simpl in *.

(** ** The auth gate *)

(** C3. A request to any of the mounted /api routes whose Authorization
    header is absent, or does not start with [Bearer ], is answered 401 by the
    auth gate, and the world is left exactly as it was: no limiter store is
    updated, no external service is called and no row is touched. *)
Theorem C3_unauthenticated_is_401_and_touches_nothing
    (X : External) (rs : Routers) (req : Request) (w : World) :
  has_bearer (authorization req) = false ->
  api X rs req w =
    (Returns (json 401 (JsonError (Lit "Missing or invalid authorization header"))), w).
Proof.
  intros H. unfold api, authMiddleware. run.
  destruct (authorization req) as [h|]; simpl in *; [|reflexivity].
  rewrite H. rewrite andb_false_r. reflexivity.
Qed.

Lemma C3_witness :
  has_bearer (authorization basic_auth_request) = false /\
  api demo_external (load_routers demo_env) basic_auth_request demo_world =
    (Returns (json 401 (JsonError (Lit "Missing or invalid authorization header"))),
     demo_world).
Proof.
  split; [reflexivity|].
  apply (C3_unauthenticated_is_401_and_touches_nothing demo_external). reflexivity.
Defined.

(** ** Audio generation *)

Lemma nonblank_length (s : jsstring) :
  (0 <? length (trim s))%nat = negb (whitespace_only s).
Proof.
  unfold whitespace_only. destruct (forallb isWhiteSpace s) eqn:E.
  - apply trim_nil in E. rewrite E. reflexivity.
  - destruct (trim s) eqn:T; [|reflexivity].
    apply trim_nil in T. congruence.
Qed.

Lemma map_text_typed (lines : list Value) :
  forallb has_text lines = true ->
  map_text lines = Some (map (fun l => VString (text_of l)) lines).
Proof.
  induction lines as [|l lines IH]; simpl; [reflexivity|].
  intros H. apply andb_true_iff in H as [Hl H]. rewrite (IH H).
  unfold has_text, text_of in *.
  destruct (prop l (js "text")) as [[]|]; try discriminate. reflexivity.
Qed.

Lemma filter_nonblank_strings (texts : list jsstring) :
  filter_nonblank (map VString texts) =
    Some (List.filter (fun s => negb (whitespace_only s)) texts).
Proof.
  induction texts as [|s texts IH]; simpl; [reflexivity|].
  rewrite IH, nonblank_length. reflexivity.
Qed.

Lemma spoken_nil_blank (texts : list jsstring) :
  let kept := List.filter (fun s => negb (whitespace_only s)) texts in
  trim (join (js " ") kept) = [] <-> join (js " ") kept = [].
Proof.
  intros kept. split; [|intros ->; reflexivity].
  intros H. apply trim_nil in H.
  destruct kept as [|p rest] eqn:K; [reflexivity|].
  assert (Hin : p ∈ kept) by (rewrite K; left).
  pose proof (join_blank kept) as J. rewrite K in J.
  specialize (J H p (list_elem_of_here _ _)).
  unfold kept in Hin. apply list_elem_of_In, filter_In in Hin as [_ Hp].
  unfold whitespace_only in Hp. rewrite J in Hp. discriminate.
Qed.

(** What [generateAudioFromScript] does on a script whose lines all carry a
    string [text]. *)
Lemma generateAudioFromScript_typed (X : External) (lines : list Value) (w : World) :
  forallb has_text lines = true ->
  generateAudioFromScript X lines w =
    if negb (env_truthy (ELEVENLABS_API_KEY (env w)))
    then (Throws (Lit "ELEVENLABS_API_KEY not configured"), w)
    else if bool_decide (spoken_text lines = [])
    then (Throws (Lit "Script is empty"), w)
    else generateSingleAudio X (spoken_text lines) (configured_voice (env w))
           (configured_key (env w)) w.
Proof.
  intros H. unfold generateAudioFromScript. run.
  destruct (env_truthy (ELEVENLABS_API_KEY (env w))); simpl; [|reflexivity].
  rewrite (map_text_typed _ H).
  replace (map (fun l => VString (text_of l)) lines)
    with (map VString (map text_of lines)) by (rewrite map_map; reflexivity).
  rewrite filter_nonblank_strings. fold (spoken_text lines).
  pose proof (spoken_nil_blank (map text_of lines)) as E. simpl in E.
  fold (spoken_text lines) in E.
  destruct (bool_decide_reflect (spoken_text lines = [])) as [S|S].
  - rewrite bool_decide_eq_true_2 by (apply E; exact S). reflexivity.
  - rewrite bool_decide_eq_false_2 by (intros T; apply S, E, T). reflexivity.
Qed.

Lemma spoken_text_blank (lines : list Value) :
  forallb blank_line lines = true -> spoken_text lines = [].
Proof.
  unfold spoken_text. induction lines as [|l lines IH]; simpl; [reflexivity|].
  intros H. apply andb_true_iff in H as [Hl H].
  unfold blank_line in Hl. apply andb_true_iff in Hl as [_ Hl].
  rewrite Hl. simpl. exact (IH H).
Qed.

Lemma blank_lines_have_text (lines : list Value) :
  forallb blank_line lines = true -> forallb has_text lines = true.
Proof.
  induction lines as [|l lines IH]; simpl; [reflexivity|].
  intros H. apply andb_true_iff in H as [Hl H].
  unfold blank_line in Hl. apply andb_true_iff in Hl as [Hl _].
  rewrite Hl. exact (IH H).
Qed.

(** C1, as stated, fails: an empty script array is answered 500, not 400. *)
Lemma C1_empty_script_is_not_400 :
  generateAudio_handler demo_external empty_script_request demo_world =
    (Returns (json 500 (JsonError (Lit "Script is empty"))), demo_world) /\
  forall r w, generateAudio_handler demo_external empty_script_request demo_world
              = (Returns r, w) -> status r <> 400.
Proof.
  split; [reflexivity|].
  intros r w H. vm_compute in H. inversion H. discriminate.
Qed.

(** C1, amended. When the script of a POST /api/generate-audio request is an
    empty array, or an array whose lines all have a white-space-only text, the
    handler answers 500 with the message of the error the service wrapper
    throws ("Script is empty", or "ELEVENLABS_API_KEY not configured" when the
    key is unset), and the world is unchanged: the speech-synthesis service is
    not called. *)
Theorem C1_blank_script_is_500_without_call
    (X : External) (req : Request) (w : World) (lines : list Value) :
  prop (req_body req) (js "script") = Some (VArray lines) ->
  forallb blank_line lines = true ->
  generateAudio_handler X req w =
    (Returns (json 500 (JsonError (Lit
       (if env_truthy (ELEVENLABS_API_KEY (env w)) then "Script is empty"
        else "ELEVENLABS_API_KEY not configured")))), w).
Proof.
  intros Hs Hb. unfold generateAudio_handler. run. rewrite Hs. simpl.
  rewrite (generateAudioFromScript_typed X lines w (blank_lines_have_text _ Hb)).
  rewrite (spoken_text_blank _ Hb).
  destruct (env_truthy (ELEVENLABS_API_KEY (env w))); reflexivity.
Qed.

Lemma C1_witness :
  generateAudio_handler demo_external blank_script_request demo_world =
    (Returns (json 500 (JsonError (Lit "Script is empty"))), demo_world).
Proof.
  apply (C1_blank_script_is_500_without_call demo_external blank_script_request
           demo_world [line "Host" "  "; line "Guest" ""]); reflexivity.
Defined.

Lemma generateAudio_handler_script (X : External) (req : Request) (w : World)
    (lines : list Value) :
  prop (req_body req) (js "script") = Some (VArray lines) ->
  generateAudio_handler X req w =
    match generateAudioFromScript X lines w with
    | (Returns buf, w') =>
        (Returns {| status := 200; headers := AUDIO_HEADERS; body := Audio buf |}, w')
    | (Throws e, w') => (Returns (json 500 (JsonError e)), w')
    end.
Proof.
  intros Hs. unfold generateAudio_handler. run. rewrite Hs. simpl.
  destruct (generateAudioFromScript X lines w) as [[buf|e] w']; reflexivity.
Qed.

Lemma generateSingleAudio_world (X : External) (text voiceId apiKey : jsstring)
    (w : World) :
  snd (generateSingleAudio X text voiceId apiKey w) =
    log_call (CallSpeechService voiceId apiKey text) w.
Proof.
  unfold generateSingleAudio, fetch_speech. run.
  destruct (fetchSpeech X voiceId apiKey text) as [|r]; [reflexivity|].
  destruct (resp_ok r); reflexivity.
Qed.

(** C8. For a script whose lines carry string texts, the handler of
    POST /api/generate-audio makes at most one call to the speech service:
    exactly when the key is configured and some text is not white-space-only,
    and then with the one configured voice and with the texts in order, the
    white-space-only ones removed, joined by single spaces.  Two scripts with
    the same texts, whatever their speakers and other fields, get the same
    answer and cause the same call. *)
Theorem C8_speech_text_is_joined_nonblank_texts
    (X : External) (req : Request) (w : World) (lines : list Value) :
  prop (req_body req) (js "script") = Some (VArray lines) ->
  forallb has_text lines = true ->
  snd (generateAudio_handler X req w) =
    (if env_truthy (ELEVENLABS_API_KEY (env w))
        && negb (bool_decide (spoken_text lines = []))
     then log_call (CallSpeechService (configured_voice (env w))
                      (configured_key (env w)) (spoken_text lines)) w
     else w) /\
  forall (req' : Request) (lines' : list Value),
    prop (req_body req') (js "script") = Some (VArray lines') ->
    forallb has_text lines' = true ->
    map text_of lines' = map text_of lines ->
    generateAudio_handler X req' w = generateAudio_handler X req w.
Proof.
  intros Hs Ht. split.
  - rewrite (generateAudio_handler_script X req w lines Hs).
    rewrite (generateAudioFromScript_typed X lines w Ht).
    destruct (env_truthy (ELEVENLABS_API_KEY (env w))); simpl; [|reflexivity].
    destruct (bool_decide (spoken_text lines = [])); simpl; [reflexivity|].
    rewrite <- generateSingleAudio_world with (X := X).
    destruct (generateSingleAudio X _ _ _ w) as [[buf|e] w']; reflexivity.
  - intros req' lines' Hs' Ht' E.
    rewrite (generateAudio_handler_script X req w lines Hs).
    rewrite (generateAudio_handler_script X req' w lines' Hs').
    rewrite (generateAudioFromScript_typed X lines w Ht).
    rewrite (generateAudioFromScript_typed X lines' w Ht').
    unfold spoken_text. rewrite E. reflexivity.
Qed.

Lemma C8_witness :
  snd (generateAudio_handler demo_external (spoken_request "Host" "Host") demo_world) =
    log_call (CallSpeechService DEFAULT_VOICE (js "xi-key")
                (js "Welcome back. Thanks for having me.")) demo_world /\
  generateAudio_handler demo_external (spoken_request "Guest" "Host") demo_world =
    generateAudio_handler demo_external (spoken_request "Host" "Host") demo_world.
Proof.
  pose proof (C8_speech_text_is_joined_nonblank_texts demo_external
                (spoken_request "Host" "Host") demo_world _ eq_refl eq_refl) as [H1 H2].
  split.
  - exact H1.
  - exact (H2 (spoken_request "Guest" "Host") _ eq_refl eq_refl eq_refl).
Defined.

(** ** Script generation *)

Lemma prop_defined (v : Value) (k k' : jsstring) (x : Value) :
  prop v k = Some x -> exists y, prop v k' = Some y.
Proof. destruct v; simpl; try discriminate; eauto. Qed.

Lemma reads_of_prop (req : Request) (k : jsstring) (x : Value) :
  prop (req_body req) k = Some x ->
  exists topic durationMinutes style, reads req topic durationMinutes style.
Proof.
  intros H. unfold reads.
  destruct (prop_defined _ _ (js "topic") _ H) as [a Ha].
  destruct (prop_defined _ _ (js "durationMinutes") _ H) as [b Hb].
  destruct (prop_defined _ _ (js "style") _ H) as [c Hc].
  eauto 10.
Qed.

(** The handler, once the three values are read from the body. *)
Lemma generateResearch_handler_reads (X : External) (supabase : option SupabaseClient)
    (req : Request) (w : World) (topic durationMinutes style : Value) :
  reads req topic durationMinutes style ->
  generateResearch_handler X supabase req w =
    if topic_invalid topic
    then (Returns (bad_request "Topic is required and must be a non-empty string"), w)
    else if duration_invalid durationMinutes
    then (Returns (bad_request "Duration must be a number between 5 and 120 minutes"), w)
    else if style_missing style
    then (Returns (bad_request "Style is required"), w)
    else if style_unknown X style
    then (Returns (bad_request STYLE_LIST), w)
    else
      match generatePodcastScript X (forwarded X topic durationMinutes style) w with
      | (Returns script, w1) =>
          match save_script X supabase req topic durationMinutes style script w1 with
          | (Returns saved, w2) => (Returns (json 200 (JsonScript script saved)), w2)
          | (Throws e, w2) => (Returns (json 500 (JsonError e)), w2)
          end
      | (Throws e, w1) => (Returns (json 500 (JsonError e)), w1)
      end.
Proof.
  intros (Ht & Hd & Hs). unfold generateResearch_handler.
  unfold mbind, M_bind, mret, M_ret, try_catch, throw, get_prop.
  rewrite Ht, Hd, Hs. unfold mret, M_ret. cbv beta iota.
  destruct (topic_invalid topic); [reflexivity|].
  destruct (duration_invalid durationMinutes); [reflexivity|].
  destruct (style_missing style); [reflexivity|].
  destruct (style_unknown X style); [reflexivity|].
  fold (forwarded X topic durationMinutes style).
  destruct (generatePodcastScript X _ w) as [[script|e] w1]; [|reflexivity].
  destruct (save_script X supabase req topic durationMinutes style script w1)
    as [[saved|e] w2]; reflexivity.
Qed.

Lemma generatePodcastScript_ok (X : External) (r : GenerateScriptRequest)
    (script : Value) (w : World) :
  upstream_succeeds X (env w) r script ->
  generatePodcastScript X r w =
    (Returns script, log_call (CallScriptService (script_endpoint (env w)) r) w).
Proof.
  intros (resp & Hf & Hok & Hj & Ha).
  unfold generatePodcastScript, fetch_script, script_endpoint in *.
  unfold mbind, M_bind, mret, M_ret, throw, get_env. cbv beta iota.
  rewrite Hf. cbv beta iota. rewrite Hok, Hj. simpl. rewrite Ha. reflexivity.
Qed.

Lemma duration_invalid_in_range (v : Value) :
  duration_invalid v = negb (in_range v).
Proof.
  unfold duration_invalid, in_range.
  destruct v as [| |b|n|s|l|f]; try reflexivity; [destruct b; reflexivity| |].
  2: { destruct (truthy (VString s)); reflexivity. }
  destruct n as [|neg|q]; [reflexivity|destruct neg; reflexivity|].
  unfold num_gt, num_of_Z. simpl.
    destruct (Qle_bool (inject_Z 5) q) eqn:A, (Qle_bool q (inject_Z 120)) eqn:B;
      simpl; rewrite ?orb_true_r; try reflexivity.
    rewrite !orb_false_r, negb_involutive.
    apply not_true_is_false. intros E. apply Qeq_bool_iff in E.
    apply Qle_bool_iff in A. rewrite E in A. vm_compute in A. apply A. reflexivity.
Qed.

Example STYLE_LIST_text :
  STYLE_LIST =
  "Style must be one of: conversational, documentary, investigative, educational, storytelling"%string.
Proof. reflexivity. Qed.

Lemma generatePodcastScript_world (X : External) (r : GenerateScriptRequest)
    (w : World) :
  snd (generatePodcastScript X r w) =
    log_call (CallScriptService (script_endpoint (env w)) r) w.
Proof.
  unfold generatePodcastScript, fetch_script, script_endpoint.
  unfold mbind, M_bind, mret, M_ret, throw, get_env, get_prop. cbv beta iota.
  destruct (fetchScript X _ r) as [|resp]; [reflexivity|]. cbv beta iota.
  destruct (resp_ok resp); simpl.
  - destruct (resp_json resp) as [v|]; [|reflexivity].
    destruct (isArray v); reflexivity.
  - destruct (prop _ _) as [err|]; [|reflexivity].
    unfold mret, M_ret. destruct (truthy err); reflexivity.
Qed.

Lemma save_script_calls (X : External) (supabase : option SupabaseClient)
    (req : Request) (topic durationMinutes style script : Value) (w : World) :
  exists rest saved w',
    save_script X supabase req topic durationMinutes style script w = (Returns saved, w')
    /\ calls w' = calls w ++ rest.
Proof.
  unfold save_script.
  destruct supabase as [c|], (req_user req) as [u|];
    try (exists [], None, w; rewrite app_nil_r; split; reflexivity).
  unfold try_catch, mbind, M_bind, mret, M_ret, store_insert, store_call.
  destruct (storeFault X _) as [[|code|]|]; simpl; eauto 10.
Qed.

(** C4. When the [durationMinutes] of a POST /api/generate-research request is
    not a number in the closed interval [5, 120] (any other type, NaN, an
    infinity, or a number below 5 or above 120), the handler answers 400 and
    leaves the world untouched, so the script service is not called; 5 and
    120 themselves pass the duration check. *)
Theorem C4_duration_outside_5_120_is_400_without_upstream_call
    (X : External) (supabase : option SupabaseClient) (req : Request) (w : World)
    (d : Value) :
  prop (req_body req) (js "durationMinutes") = Some d ->
  in_range d = false ->
  (exists m, generateResearch_handler X supabase req w = (Returns (bad_request m), w))
  /\ duration_invalid (VNumber (num_of_Z 5)) = false
  /\ duration_invalid (VNumber (num_of_Z 120)) = false.
Proof.
  intros Hd Hr. split; [|split; reflexivity].
  destruct (reads_of_prop req _ _ Hd) as (topic & d' & style & R).
  assert (d' = d) as -> by (destruct R as (_ & R & _); congruence).
  rewrite (generateResearch_handler_reads X supabase req w _ _ _ R).
  rewrite duration_invalid_in_range, Hr. simpl.
  destruct (topic_invalid topic); eauto.
Qed.

Lemma C4_witness :
  (exists m, generateResearch_handler demo_external (Some demo_client) long_request
               demo_world = (Returns (bad_request m), demo_world))
  /\ duration_invalid (VNumber (num_of_Z 5)) = false
  /\ duration_invalid (VNumber (num_of_Z 120)) = false.
Proof.
  apply (C4_duration_outside_5_120_is_400_without_upstream_call demo_external
           (Some demo_client) long_request demo_world (VNumber (num_of_Z 121)));
    reflexivity.
Defined.

(** C5, as stated, fails: the empty style is not a member of the set after
    lower-casing, yet the message of the 400 does not list the allowed set. *)
Lemma C5_empty_style_message_omits_allowed_set :
  includes validStyles (toLowerCase demo_external (js "")) = false /\
  generateResearch_handler demo_external (Some demo_client) empty_style_request
    demo_world = (Returns (bad_request "Style is required"), demo_world) /\
  bad_request "Style is required" <> bad_request STYLE_LIST.
Proof. repeat split; try reflexivity. discriminate. Qed.

(** C5, amended. A POST /api/generate-research request whose style is
    missing, empty or not a string, or is a string that after lower-casing is
    not one of the five styles, is answered 400 with the world untouched (no
    upstream call).  When topic and duration pass their checks, the message
    lists the allowed set if the style is a non-empty string, and is "Style is
    required" otherwise.  For an accepted request the first call made is the
    one to the script service, with the trimmed topic and the lower-cased
    style. *)
Theorem C5_style_checked_then_forwarded_lowercased
    (X : External) (supabase : option SupabaseClient) (req : Request) (w : World)
    (topic durationMinutes style : Value) :
  reads req topic durationMinutes style ->
  (style_missing style || style_unknown X style = true ->
   exists m, generateResearch_handler X supabase req w = (Returns (bad_request m), w))
  /\ (topic_invalid topic = false -> duration_invalid durationMinutes = false ->
      style_missing style = false -> style_unknown X style = true ->
      generateResearch_handler X supabase req w = (Returns (bad_request STYLE_LIST), w))
  /\ (topic_invalid topic = false -> duration_invalid durationMinutes = false ->
      style_missing style = true ->
      generateResearch_handler X supabase req w =
        (Returns (bad_request "Style is required"), w))
  /\ (accepted X topic durationMinutes style = true ->
      exists t s rest, topic = VString t /\ style = VString s /\
        calls (snd (generateResearch_handler X supabase req w)) =
          calls w ++
          CallScriptService (script_endpoint (env w))
            {| gs_topic := trim t; gs_durationMinutes := num durationMinutes;
               gs_style := toLowerCase X s |} :: rest).
Proof.
  intros R. rewrite (generateResearch_handler_reads X supabase req w _ _ _ R).
  repeat split.
  - intros H. destruct (topic_invalid topic); [eauto|].
    destruct (duration_invalid durationMinutes); [eauto|].
    destruct (style_missing style); [eauto|]. simpl in H. rewrite H. eauto.
  - intros -> -> -> ->. reflexivity.
  - intros -> -> ->. reflexivity.
  - unfold accepted. intros H.
    apply andb_true_iff in H as [H Hu]. apply andb_true_iff in H as [H Hm].
    apply andb_true_iff in H as [Ht Hd].
    apply negb_true_iff in Hu, Hm, Ht, Hd. rewrite Ht, Hd, Hm, Hu.
    assert (exists t, topic = VString t) as [t ->].
    { destruct topic; try discriminate Ht; eauto;
        unfold topic_invalid in Ht; simpl in Ht;
        rewrite ?orb_true_r in Ht; simpl in Ht; discriminate. }
    assert (exists s, style = VString s) as [s ->].
    { destruct style; try discriminate Hm; eauto;
        unfold style_missing in Hm; simpl in Hm;
        rewrite ?orb_true_r in Hm; discriminate. }
    pose proof (generatePodcastScript_world X
                  (forwarded X (VString t) durationMinutes (VString s)) w) as G.
    destruct (generatePodcastScript X _ w) as [[script|e] w1]; simpl in G; subst w1.
    + destruct (save_script_calls X supabase req (VString t) durationMinutes
                  (VString s) script
                  (log_call (CallScriptService (script_endpoint (env w))
                     (forwarded X (VString t) durationMinutes (VString s))) w))
        as (rest & saved & w2 & -> & C).
      exists t, s, rest. repeat split. simpl. rewrite C. simpl.
      rewrite <- app_assoc. reflexivity.
    + exists t, s, []. repeat split.
Qed.

Lemma C5_witness :
  exists rest,
    calls (snd (generateResearch_handler demo_external None shouting_request demo_world)) =
      CallScriptService (js "http://localhost:8000/generate")
        {| gs_topic := js "The history of coffee";
           gs_durationMinutes := num_of_Z 10;
           gs_style := js "documentary" |} :: rest.
Proof.
  destruct (C5_style_checked_then_forwarded_lowercased demo_external None
              shouting_request demo_world
              (VString (js "  The history of coffee ")) (VNumber (num_of_Z 10))
              (VString (js "Documentary")))
    as (_ & _ & _ & H); [repeat split|].
  destruct (H eq_refl) as (t & s & rest & Et & Es & C).
  exists rest. injection Et as <-. injection Es as <-. exact C.
Defined.

(** ** Best-effort persistence *)

Lemma generateResearch_handler_generated (X : External)
    (supabase : option SupabaseClient) (req : Request) (w : World)
    (topic durationMinutes style script : Value) :
  reads req topic durationMinutes style ->
  accepted X topic durationMinutes style = true ->
  upstream_succeeds X (env w) (forwarded X topic durationMinutes style) script ->
  generateResearch_handler X supabase req w =
    match save_script X supabase req topic durationMinutes style script
            (log_call (CallScriptService (script_endpoint (env w))
               (forwarded X topic durationMinutes style)) w) with
    | (Returns saved, w2) => (Returns (json 200 (JsonScript script saved)), w2)
    | (Throws e, w2) => (Returns (json 500 (JsonError e)), w2)
    end.
Proof.
  intros R A U. rewrite (generateResearch_handler_reads X supabase req w _ _ _ R).
  unfold accepted in A.
  apply andb_true_iff in A as [A Hu]. apply andb_true_iff in A as [A Hm].
  apply andb_true_iff in A as [Ht Hd].
  apply negb_true_iff in Hu, Hm, Ht, Hd. rewrite Ht, Hd, Hm, Hu.
  rewrite (generatePodcastScript_ok X _ script w U). reflexivity.
Qed.

(** C2. When a POST /api/generate-research request passes validation and the
    script service answers a script, and the insert into the store then fails
    (it rejects, answers an error, or answers no row), the handler still
    answers 200 with the generated script and [savedId] null. *)
Theorem C2_failed_insert_still_answers_200_with_null_savedId
    (X : External) (client : SupabaseClient) (u : User) (req : Request) (w : World)
    (topic durationMinutes style script : Value) (fault : StoreFault) :
  reads req topic durationMinutes style ->
  accepted X topic durationMinutes style = true ->
  upstream_succeeds X (env w) (forwarded X topic durationMinutes style) script ->
  req_user req = Some u ->
  storeFault X (OpInsert (inserted X u topic durationMinutes style script)) = Some fault ->
  fst (generateResearch_handler X (Some client) req w) =
    Returns (json 200 (JsonScript script None))
  /\ scripts_table (snd (generateResearch_handler X (Some client) req w)) =
       scripts_table w.
Proof.
  intros R A U Hu Hf.
  rewrite (generateResearch_handler_generated X _ req w _ _ _ script R A U).
  unfold save_script. rewrite Hu.
  unfold try_catch, mbind, M_bind, mret, M_ret, store_insert, store_call.
  fold (inserted X u topic durationMinutes style script). rewrite Hf.
  destruct fault; split; reflexivity.
Qed.

Lemma C2_witness :
  fst (generateResearch_handler failing_store_external (Some demo_client)
         coffee_request demo_world) = Returns (json 200 (JsonScript demo_script None))
  /\ scripts_table (snd (generateResearch_handler failing_store_external
         (Some demo_client) coffee_request demo_world)) = scripts_table demo_world.
Proof.
  apply (C2_failed_insert_still_answers_200_with_null_savedId failing_store_external
           demo_client alice coffee_request demo_world
           (VString (js "The history of coffee")) (VNumber (num_of_Z 10))
           (VString (js "Conversational")) demo_script (FaultError (js "23503")));
    try reflexivity.
  - repeat split.
  - eexists. repeat split.
Defined.

(** C10. With no store client (the credentials are missing), a valid
    POST /api/generate-research request whose script call succeeds is answered
    200 with the script and [savedId] null, and the store is not called at
    all; in the same configuration the three scripts handlers answer 500
    "Database not configured" without touching anything. *)
Theorem C10_no_store_client_skips_save_but_fails_scripts_routes
    (X : External) (req : Request) (w : World)
    (topic durationMinutes style script : Value) :
  reads req topic durationMinutes style ->
  accepted X topic durationMinutes style = true ->
  upstream_succeeds X (env w) (forwarded X topic durationMinutes style) script ->
  generateResearch_handler X None req w =
    (Returns (json 200 (JsonScript script None)),
     log_call (CallScriptService (script_endpoint (env w))
                 (forwarded X topic durationMinutes style)) w)
  /\ status DB_NOT_CONFIGURED = 500
  /\ (forall r id w',
        listScripts_handler X None r w' = (Returns DB_NOT_CONFIGURED, w') /\
        getScript_handler X None id r w' = (Returns DB_NOT_CONFIGURED, w') /\
        deleteScript_handler X None id r w' = (Returns DB_NOT_CONFIGURED, w')).
Proof.
  intros R A U. split; [|split; [reflexivity|]].
  - rewrite (generateResearch_handler_generated X _ req w _ _ _ script R A U).
    reflexivity.
  - intros r id w'. repeat split.
Qed.

Lemma C10_witness :
  generateResearch_handler demo_external None coffee_request demo_world =
    (Returns (json 200 (JsonScript demo_script None)),
     log_call (CallScriptService (js "http://localhost:8000/generate")
                 {| gs_topic := js "The history of coffee";
                    gs_durationMinutes := num_of_Z 10;
                    gs_style := js "conversational" |}) demo_world)
  /\ getScript_handler demo_external None (js "script-") coffee_request demo_world =
       (Returns DB_NOT_CONFIGURED, demo_world).
Proof.
  destruct (C10_no_store_client_skips_save_but_fails_scripts_routes demo_external
              coffee_request demo_world
              (VString (js "The history of coffee")) (VNumber (num_of_Z 10))
              (VString (js "Conversational")) demo_script)
    as (H1 & _ & H3).
  - repeat split.
  - reflexivity.
  - eexists. repeat split.
  - split; [exact H1|]. apply H3.
Defined.

(** ** The scripts resource *)

Lemma filter_none {A} (f : A -> bool) (l : list A) :
  forallb (fun x => negb (f x)) l = true -> List.filter f l = [].
Proof.
  induction l as [|x l IH]; simpl; [reflexivity|].
  intros H. apply andb_true_iff in H as [Hx H].
  apply negb_true_iff in Hx. rewrite Hx. exact (IH H).
Qed.

Lemma absent_not_owned (id uid : jsstring) (rows : list ScriptRow) :
  absent id rows = true -> forallb (fun r => negb (owned_by id uid r)) rows = true.
Proof.
  unfold absent. induction rows as [|r rows IH]; simpl; [reflexivity|].
  intros H. apply andb_true_iff in H as [Hr H]. rewrite (IH H), andb_true_r.
  unfold owned_by. apply negb_true_iff in Hr. rewrite Hr. reflexivity.
Qed.

Lemma filter_after_delete {A} (f : A -> bool) (l : list A) :
  List.filter f (List.filter (fun x => negb (f x)) l) = [].
Proof.
  apply filter_none. apply forallb_forall. intros x Hx.
  apply filter_In in Hx as [_ Hx]. exact Hx.
Qed.

Section Scripts.

Variable X : External.
Variable client : SupabaseClient.
Variable u : User.
Variable req : Request.
Variable id : jsstring.
Hypothesis authenticated : req_user req = Some u.

Lemma getScript_unseen (w : World) :
  forallb (fun r => negb (owned_by id (user_id u) r)) (scripts_table w) = true ->
  getScript_handler X (Some client) id req w =
    (Returns (unseen_get_answer (storeFault X (OpGet id (user_id u)))),
     log_call (CallStore (OpGet id (user_id u))) w).
Proof.
  intros H. unfold getScript_handler, store_get, store_call.
  unfold try_catch, mbind, M_bind, mret, M_ret.
  rewrite authenticated.
  destruct (storeFault X (OpGet id (user_id u))) as [[|code|]|]; simpl;
    try reflexivity.
  - destruct (bool_decide (code = PGRST116)); reflexivity.
  - rewrite (filter_none _ _ H). destruct w; reflexivity.
Qed.

Lemma deleteScript_unseen (w : World) :
  forallb (fun r => negb (owned_by id (user_id u) r)) (scripts_table w) = true ->
  deleteScript_handler X (Some client) id req w =
    (Returns (unseen_delete_answer (storeFault X (OpGetId id (user_id u)))),
     log_call (CallStore (OpGetId id (user_id u))) w).
Proof.
  intros H. unfold deleteScript_handler, store_get_id, store_call.
  unfold try_catch, mbind, M_bind, mret, M_ret.
  rewrite authenticated.
  destruct (storeFault X (OpGetId id (user_id u))) as [[|code|]|]; simpl;
    try reflexivity.
  rewrite (filter_none _ _ H). destruct w; reflexivity.
Qed.

Lemma deleteScript_deletes (w w' : World) :
  storeFault X (OpDelete id (user_id u)) = None ->
  deleteScript_handler X (Some client) id req w =
    (Returns (json 200 (JsonMessage "Script deleted successfully")), w') ->
  storeFault X (OpGetId id (user_id u)) = None
  /\ scripts_table w' =
       List.filter (fun r => negb (owned_by id (user_id u) r)) (scripts_table w).
Proof.
  intros Hd. unfold deleteScript_handler, store_get_id, store_delete, store_call.
  unfold try_catch, mbind, M_bind, mret, M_ret.
  rewrite authenticated.
  destruct (storeFault X (OpGetId id (user_id u))) as [[|code|]|]; simpl;
    try discriminate.
  cbv beta iota zeta.
  destruct (single _) as [[d|] [e|]]; simpl; try discriminate.
  rewrite Hd. simpl. intros H. injection H as <-. split; reflexivity.
Qed.

End Scripts.

(** C6 as stated does not hold: the store can answer the lookup of an id
    that matches no row with an error of its own, as Postgres does on the
    UUID column for an id that is no UUID.  GET then answers 500 "Failed to
    fetch script" (only error PGRST116 is turned into 404), while DELETE
    answers 404. *)
Lemma C6_missing_id_can_be_answered_500 :
  absent (js "not-a-uuid") (scripts_table demo_world) = true
  /\ fst (api uuid_store_external (load_routers demo_env)
            (bearer_scripts_request GET [js "not-a-uuid"]) demo_world) =
       Returns (json 500 (JsonError (Lit "Failed to fetch script")))
  /\ fst (getScript_handler uuid_store_external (Some demo_client)
            (js "not-a-uuid") (alice_request GET [js "not-a-uuid"]) demo_world) <>
       Returns NOT_FOUND
  /\ fst (api uuid_store_external (load_routers demo_env)
            (bearer_scripts_request DELETE [js "not-a-uuid"]) demo_world) =
       Returns NOT_FOUND.
Proof. repeat split; try reflexivity. discriminate. Qed.

(** C6, amended.  For an authenticated caller, GET and DELETE of
    /api/scripts/:id answer the same whether no row has the id or the row
    with the id belongs to another user, whatever the store does with the
    lookup; the answer is 404 "Script not found" or a 500, never 403, and
    the table is left as it was.  It is the 404 whenever the store answers
    the lookup; for DELETE also when the store answers it with an error.
    And once a DELETE of an id has succeeded and the store has carried it
    out, a second DELETE of that id is answered with that same 404. *)
Theorem C6_missing_and_foreign_records_are_answered_alike
    (X : External) (client : SupabaseClient) (u : User) (req : Request)
    (id : jsstring) (w_absent w_foreign : World) :
  req_user req = Some u ->
  absent id (scripts_table w_absent) = true ->
  foreign id (user_id u) (scripts_table w_foreign) = true ->
  (fst (getScript_handler X (Some client) id req w_absent) =
     Returns (unseen_get_answer (storeFault X (OpGet id (user_id u))))
   /\ fst (getScript_handler X (Some client) id req w_foreign) =
        Returns (unseen_get_answer (storeFault X (OpGet id (user_id u)))))
  /\ (fst (deleteScript_handler X (Some client) id req w_absent) =
        Returns (unseen_delete_answer (storeFault X (OpGetId id (user_id u))))
      /\ fst (deleteScript_handler X (Some client) id req w_foreign) =
           Returns (unseen_delete_answer (storeFault X (OpGetId id (user_id u)))))
  /\ (forall fault,
        (unseen_get_answer fault = NOT_FOUND \/ status (unseen_get_answer fault) = 500)
        /\ (unseen_delete_answer fault = NOT_FOUND
            \/ status (unseen_delete_answer fault) = 500))
  /\ status NOT_FOUND = 404
  /\ (storeFault X (OpGet id (user_id u)) = None ->
      fst (getScript_handler X (Some client) id req w_absent) = Returns NOT_FOUND
      /\ fst (getScript_handler X (Some client) id req w_foreign) = Returns NOT_FOUND)
  /\ (storeFault X (OpGetId id (user_id u)) <> Some FaultRejects ->
      fst (deleteScript_handler X (Some client) id req w_absent) = Returns NOT_FOUND
      /\ fst (deleteScript_handler X (Some client) id req w_foreign) = Returns NOT_FOUND)
  /\ (scripts_table (snd (getScript_handler X (Some client) id req w_foreign))
        = scripts_table w_foreign
      /\ scripts_table (snd (deleteScript_handler X (Some client) id req w_foreign))
           = scripts_table w_foreign)
  /\ (storeFault X (OpDelete id (user_id u)) = None ->
      forall w w',
        deleteScript_handler X (Some client) id req w =
          (Returns (json 200 (JsonMessage "Script deleted successfully")), w') ->
        fst (deleteScript_handler X (Some client) id req w') = Returns NOT_FOUND).
Proof.
  intros Hu Ha Hf.
  apply andb_true_iff in Hf as [_ Hf].
  pose proof (absent_not_owned id (user_id u) _ Ha) as Ha'.
  rewrite !(getScript_unseen X client u req id Hu) by assumption.
  rewrite !(deleteScript_unseen X client u req id Hu) by assumption.
  cbn [fst snd].
  split; [split; reflexivity|]. split; [split; reflexivity|].
  split.
  { intros [[|code|]|]; simpl; try (split; left; reflexivity);
      try (split; right; reflexivity).
    destruct (bool_decide (code = PGRST116));
      split; first [left; reflexivity | right; reflexivity]. }
  split; [reflexivity|]. split.
  { intros ->. split; reflexivity. }
  split.
  { intros Hn. destruct (storeFault X (OpGetId id (user_id u))) as [[|code|]|];
      [contradiction| | |]; split; reflexivity. }
  split; [split; reflexivity|].
  intros Hd w w' H.
  apply (deleteScript_deletes X client u req id Hu w w' Hd) in H as [Hi H].
  rewrite (deleteScript_unseen X client u req id Hu), Hi; [reflexivity|].
  rewrite H. apply forallb_forall. intros r Hr.
  apply filter_In in Hr as [_ Hr]. exact Hr.
Qed.

Lemma C6_witness :
  fst (getScript_handler demo_external (Some demo_client) (js "s1")
         (alice_request GET [js "s1"]) demo_world) = Returns NOT_FOUND
  /\ fst (getScript_handler demo_external (Some demo_client) (js "s1")
         (alice_request GET [js "s1"]) bobs_world) = Returns NOT_FOUND.
Proof.
  exact (proj1 (C6_missing_and_foreign_records_are_answered_alike demo_external
                  demo_client alice (alice_request GET [js "s1"]) (js "s1")
                  demo_world bobs_world eq_refl eq_refl eq_refl)).
Defined.

Example delete_twice :
  let first := deleteScript_handler demo_external (Some demo_client) (js "s2")
                 (alice_request DELETE [js "s2"]) alices_world in
  fst first = Returns (json 200 (JsonMessage "Script deleted successfully")) /\
  fst (deleteScript_handler demo_external (Some demo_client) (js "s2")
         (alice_request DELETE [js "s2"]) (snd first)) = Returns NOT_FOUND.
Proof. split; reflexivity. Qed.

(** Sorting commutes with a map that preserves the order. *)
Section merge_sort_map.

Context {A B : Type} (RA : relation A) (RB : relation B).
Context `{!forall x y, Decision (RA x y)} `{!forall x y, Decision (RB x y)}.
Variable f : A -> B.
Hypothesis f_mono : forall x y, RA x y <-> RB (f x) (f y).

Lemma list_merge_map (l1 l2 : list A) :
  map f (list_merge RA l1 l2) = list_merge RB (map f l1) (map f l2).
Proof.
  revert l2. induction l1 as [|x1 l1 IH]; intros l2.
  - destruct l2; reflexivity.
  - induction l2 as [|x2 l2 IH2]; [reflexivity|].
    cbn [map list_merge].
    destruct (decide (RA x1 x2)) as [r|r], (decide (RB (f x1) (f x2))) as [r'|r'];
      try (exfalso; apply f_mono in r || apply f_mono in r'; contradiction).
    + cbn [map]. f_equal. apply (IH (x2 :: l2)).
    + cbn [map]. f_equal. exact IH2.
Qed.

Lemma merge_list_to_stack_map (st : list (option (list A))) (l : list A) :
  map_stack f (merge_list_to_stack RA st l) =
    merge_list_to_stack RB (map_stack f st) (map f l).
Proof.
  revert l. induction st as [|[l'|] st IH]; intros l; simpl; try reflexivity.
  rewrite <- list_merge_map. f_equal. apply IH.
Qed.

Lemma merge_stack_map (st : list (option (list A))) :
  map f (merge_stack RA st) = merge_stack RB (map_stack f st).
Proof.
  induction st as [|[l'|] st IH]; simpl; try reflexivity; [|exact IH].
  rewrite list_merge_map, IH. reflexivity.
Qed.

Lemma merge_sort_aux_map (st : list (option (list A))) (l : list A) :
  map f (merge_sort_aux RA st l) = merge_sort_aux RB (map_stack f st) (map f l).
Proof.
  revert st. induction l as [|x l IH]; intros st; simpl.
  - apply merge_stack_map.
  - rewrite IH, merge_list_to_stack_map. reflexivity.
Qed.

Lemma merge_sort_map (l : list A) :
  map f (merge_sort RA l) = merge_sort RB (map f l).
Proof. apply (merge_sort_aux_map []). Qed.

End merge_sort_map.

#[local] Instance newer_total : Total newer.
Proof. intros a b. unfold newer. lia. Qed.

#[local] Instance newer_trans : Transitive newer.
Proof. intros a b c. unfold newer. lia. Qed.

Lemma filter_map_redact (uid : jsstring) (rows : list ScriptRow) :
  List.filter (fun r => bool_decide (row_user_id r = uid)) (map redact rows) =
    map redact (List.filter (fun r => bool_decide (row_user_id r = uid)) rows).
Proof.
  induction rows as [|r rows IH]; simpl; [reflexivity|].
  rewrite IH. destruct (bool_decide (row_user_id r = uid)); reflexivity.
Qed.

Lemma listed_redact (uid : jsstring) (rows : list ScriptRow) :
  map summary (listed uid rows) = map summary (listed uid (map redact rows)).
Proof.
  unfold listed. rewrite filter_map_redact.
  rewrite <- (merge_sort_map newer newer redact) by (intros x y; reflexivity).
  rewrite map_map. reflexivity.
Qed.

Lemma listScripts_lists (X : External) (client : SupabaseClient) (u : User)
    (req : Request) (w : World) :
  req_user req = Some u ->
  storeFault X (OpList (user_id u)) = None ->
  fst (listScripts_handler X (Some client) req w) =
    Returns (json 200 (JsonScripts (map summary (listed (user_id u) (scripts_table w))))).
Proof.
  intros Hu Hf. unfold listScripts_handler, store_list, store_call.
  unfold try_catch, mbind, M_bind, mret, M_ret. rewrite Hu, Hf. reflexivity.
Qed.

(** C9. For an authenticated caller and a store that answers, GET /api/scripts
    answers 200 with the summaries of exactly the rows the caller owns, newest
    first; a summary has no dialogue payload, and the answer does not depend
    on the payloads stored. *)
Theorem C9_list_is_own_summaries_newest_first
    (X : External) (client : SupabaseClient) (u : User) (req : Request) (w : World) :
  req_user req = Some u ->
  storeFault X (OpList (user_id u)) = None ->
  exists rows,
    fst (listScripts_handler X (Some client) req w) =
      Returns (json 200 (JsonScripts (map summary rows)))
    /\ (forall r, r ∈ rows <-> r ∈ scripts_table w /\ row_user_id r = user_id u)
    /\ rows ≡ₚ List.filter (fun r => bool_decide (row_user_id r = user_id u))
                 (scripts_table w)
    /\ StronglySorted (fun a b => row_created_at b <= row_created_at a) rows
    /\ (forall w', map redact (scripts_table w') = map redact (scripts_table w) ->
          fst (listScripts_handler X (Some client) req w') =
          fst (listScripts_handler X (Some client) req w)).
Proof.
  intros Hu Hf. exists (listed (user_id u) (scripts_table w)).
  split; [apply listScripts_lists; assumption|].
  assert (P : listed (user_id u) (scripts_table w) ≡ₚ
              List.filter (fun r => bool_decide (row_user_id r = user_id u))
                (scripts_table w)) by apply merge_sort_Permutation.
  split; [|split; [exact P|split]].
  - intros r. rewrite P, list_elem_of_In, filter_In, <- list_elem_of_In.
    rewrite bool_decide_eq_true. reflexivity.
  - apply (StronglySorted_merge_sort newer).
  - intros w' E. rewrite !(listScripts_lists X client u) by assumption.
    rewrite (listed_redact _ (scripts_table w')), E, <- listed_redact. reflexivity.
Qed.

Example list_alice :
  fst (listScripts_handler demo_external (Some demo_client) (alice_request GET [])
         shared_world) =
    Returns (json 200 (JsonScripts [summary (row_of "s3" alice 30);
                                    summary (row_of "s1" alice 10)])).
Proof. reflexivity. Qed.

Lemma C9_witness :
  exists rows,
    fst (listScripts_handler demo_external (Some demo_client) (alice_request GET [])
           shared_world) = Returns (json 200 (JsonScripts (map summary rows)))
    /\ rows ≡ₚ [row_of "s1" alice 10; row_of "s3" alice 30]
    /\ StronglySorted (fun a b => row_created_at b <= row_created_at a) rows.
Proof.
  destruct (C9_list_is_own_summaries_newest_first demo_external demo_client alice
              (alice_request GET []) shared_world eq_refl eq_refl)
    as (rows & H & _ & P & S & _).
  exists rows. split; [exact H|]. split; [exact P|exact S].
Defined.

(** ** Rate limiting *)

Lemma chronological_snoc (pre : list Request) (x : Request) :
  chronological (pre ++ [x]) = true ->
  chronological pre = true /\ forall r, r ∈ pre -> now r <= now x.
Proof.
  induction pre as [|r1 pre IH]; intros H.
  - split; [reflexivity|]. intros r Hr. inversion Hr.
  - destruct pre as [|r2 pre].
    + simpl in H. apply andb_true_iff in H as [H _].
      apply bool_decide_eq_true in H. split; [reflexivity|].
      intros r Hr. apply list_elem_of_singleton in Hr. subst. exact H.
    + change (chronological ((r1 :: r2 :: pre) ++ [x]))
        with (bool_decide (now r1 <= now r2) && chronological ((r2 :: pre) ++ [x])) in H.
      apply andb_true_iff in H as [H12 H]. destruct (IH H) as [C L].
      split.
      * change (chronological (r1 :: r2 :: pre))
          with (bool_decide (now r1 <= now r2) && chronological (r2 :: pre)).
        rewrite H12, C. reflexivity.
      * apply bool_decide_eq_true in H12. intros r Hr.
        apply elem_of_cons in Hr as [->|Hr]; [|exact (L r Hr)].
        specialize (L r2 (list_elem_of_here _ _)). lia.
Qed.

Lemma serve_snoc (f : Request -> M Response) (pre : list Request) (x : Request)
    (w : World) :
  serve f (pre ++ [x]) w =
    (fst (serve f pre w) ++ [fst (f x (snd (serve f pre w)))],
     snd (f x (snd (serve f pre w)))).
Proof.
  revert w. induction pre as [|r pre IH]; intros w; simpl.
  - destruct (f x w); reflexivity.
  - destruct (f r w) as [out w1]. rewrite IH.
    destruct (serve f pre w1); reflexivity.
Qed.

Lemma serve_length (f : Request -> M Response) (reqs : list Request) (w : World) :
  length (fst (serve f reqs w)) = length reqs.
Proof.
  revert w. induction reqs as [|r reqs IH]; intros w; simpl; [reflexivity|].
  destruct (f r w) as [out w1]. specialize (IH w1).
  destruct (serve f reqs w1). simpl in *. congruence.
Qed.

Section Limiter.

Variable o : LimiterOptions.
Variable hits_of : World -> gmap jsstring (list Z).
Variable target : Request -> bool.
Variable f : Request -> M Response.

Hypothesis f_hits : forall req w,
  hits_of (snd (f req w)) =
    if target req then snd (rateLimit o (hits_of w) (ip req) (now req))
    else hits_of w.

Hypothesis f_admits : forall req w, target req = true ->
  admitted (fst (f req w)) = fst (rateLimit o (hits_of w) (ip req) (now req)).

Lemma filter_filter_after (lo t : Z) (l : list Z) :
  t <= lo ->
  List.filter (fun s => bool_decide (lo < s))
    (List.filter (fun s => bool_decide (t < s)) l) =
  List.filter (fun s => bool_decide (lo < s)) l.
Proof.
  intros H. induction l as [|s l IH]; simpl; [reflexivity|].
  destruct (bool_decide_reflect (t < s)); simpl; rewrite IH; [reflexivity|].
  rewrite bool_decide_eq_false_2 by lia. reflexivity.
Qed.

Lemma stored_rateLimit (lo : Z) (c c' : jsstring) (t : Z)
    (hits : gmap jsstring (list Z)) :
  t - windowMs o <= lo ->
  stored lo c (snd (rateLimit o hits c' t)) =
    (stored lo c hits +
     if bool_decide (c' = c) && bool_decide (lo < t)%Z then 1 else 0)%nat.
Proof.
  intros H. unfold stored, rateLimit. simpl.
  destruct (bool_decide_reflect (c' = c)) as [->|Hc]; simpl.
  - rewrite lookup_insert_eq. simpl. rewrite filter_filter_after by exact H.
    destruct (bool_decide (lo < t)); simpl; lia.
  - rewrite lookup_insert_ne by exact Hc. lia.
Qed.

Lemma stored_serve (reqs : list Request) (w : World) (lo : Z) (c : jsstring) :
  (forall r, r ∈ reqs -> now r - windowMs o <= lo) ->
  stored lo c (hits_of (snd (serve f reqs w))) =
    (stored lo c (hits_of w) + arrived target lo c reqs)%nat.
Proof.
  revert w. induction reqs as [|r reqs IH]; intros w H.
  - unfold arrived. simpl. lia.
  - cbn [serve]. pose proof (f_hits r w) as Hr.
    destruct (f r w) as [out w1]. cbn [snd] in Hr.
    specialize (IH w1 (fun r' Hin => H r' (list_elem_of_further _ _ _ Hin))).
    destruct (serve f reqs w1) as [outs w2]. cbn [snd] in *. rewrite IH, Hr.
    unfold arrived. cbn [List.filter]. destruct (target r); cbn [andb].
    + rewrite stored_rateLimit by (apply H; left).
      destruct (bool_decide (ip r = c) && bool_decide (lo < now r));
        cbn [length]; lia.
    + lia.
Qed.

Lemma admitted_in_arrived (a lo : Z) (c : jsstring) (reqs : list Request)
    (outs : list (Result Response)) :
  lo < a -> (admitted_in o target a c (zip reqs outs) <= arrived target lo c reqs)%nat.
Proof.
  intros H. unfold admitted_in, arrived. revert outs.
  induction reqs as [|r reqs IH]; intros [|out outs]; simpl; try lia.
  specialize (IH outs). destruct (target r); simpl; [|exact IH].
  destruct (bool_decide (ip r = c)); simpl; [|exact IH].
  destruct (bool_decide_reflect (a <= now r < a + windowMs o)); simpl.
  - rewrite bool_decide_eq_true_2 by lia. destruct (admitted out); simpl; lia.
  - destruct (bool_decide (lo < now r)); simpl; lia.
Qed.

(** At the moment a request is admitted, it and the requests of its client
    in the preceding window number at most [max]. *)
Lemma admitted_bound (pre : list Request) (x : Request) (w : World) :
  chronological (pre ++ [x]) = true ->
  target x = true ->
  admitted (fst (f x (snd (serve f pre w)))) = true ->
  (arrived target (now x - windowMs o) (ip x) pre + 1 <= max o)%nat.
Proof.
  intros C T A. apply chronological_snoc in C as [_ L].
  rewrite (f_admits _ _ T) in A. unfold rateLimit in A. simpl in A.
  apply bool_decide_eq_true in A.
  pose proof (stored_serve pre w (now x - windowMs o) (ip x)) as S.
  unfold stored in S. rewrite S in A by (intros r Hr; specialize (L r Hr); lia).
  lia.
Qed.

Theorem window_bound (reqs : list Request) (w : World) (a : Z) (c : jsstring) :
  chronological reqs = true ->
  (admitted_in o target a c (served_by f reqs w) <= max o)%nat.
Proof.
  induction reqs as [|x pre IH] using rev_ind; intros C.
  - unfold admitted_in. simpl. lia.
  - unfold served_by. rewrite serve_snoc. simpl.
    rewrite zip_with_app by (symmetry; apply serve_length).
    unfold admitted_in. rewrite List.filter_app, length_app. simpl.
    fold (admitted_in o target a c (zip pre (fst (serve f pre w)))).
    specialize (IH (proj1 (chronological_snoc _ _ C))). unfold served_by in IH.
    destruct (target x) eqn:T; simpl; [|lia].
    destruct (bool_decide_reflect (ip x = c)) as [<-|]; simpl; [|lia].
    destruct (bool_decide_reflect (a <= now x < a + windowMs o)); simpl; [|lia].
    destruct (admitted (fst (f x (snd (serve f pre w))))) eqn:A; simpl; [|lia].
    pose proof (admitted_bound pre x w C T A).
    pose proof (admitted_in_arrived a (now x - windowMs o) (ip x) pre
                  (fst (serve f pre w))).
    lia.
Qed.

(** A request that finds [max] requests of its client in the preceding window
    is not admitted. *)
Theorem over_cap (pre : list Request) (x : Request) (w : World) :
  chronological (pre ++ [x]) = true ->
  target x = true ->
  (max o <= arrived target (now x - windowMs o) (ip x) pre)%nat ->
  fst (rateLimit o (hits_of (snd (serve f pre w))) (ip x) (now x)) = false.
Proof.
  intros C T A. apply chronological_snoc in C as [_ L].
  unfold rateLimit. simpl. apply bool_decide_eq_false.
  pose proof (stored_serve pre w (now x - windowMs o) (ip x)) as S.
  unfold stored in S. rewrite S by (intros r Hr; specialize (L r Hr); lia).
  lia.
Qed.

End Limiter.

(** *** What handlers leave alone *)

Lemma same_hits_refl (w : World) : same_hits w w.
Proof. split; reflexivity. Qed.

Lemma same_hits_trans (w1 w2 w3 : World) :
  same_hits w1 w2 -> same_hits w2 w3 -> same_hits w1 w3.
Proof. unfold same_hits. intros [] []. split; congruence. Qed.

Lemma tame_ret {A} (P : A -> Prop) (a : A) : P a -> tame P (mret a).
Proof. intros H w. split; [apply same_hits_refl|exact H]. Qed.

Lemma tame_throw {A} (P : A -> Prop) (e : Message) : tame P (throw e).
Proof. intros w. split; [apply same_hits_refl|exact I]. Qed.

Lemma tame_bind {A B} (P : B -> Prop) (m : M A) (k : A -> M B) :
  tame any m -> (forall a, tame P (k a)) -> tame P (m ≫= k).
Proof.
  intros Hm Hk w. unfold mbind, M_bind. destruct (Hm w) as [S _].
  destruct (m w) as [[a|e] w1]; simpl in *.
  - destruct (Hk a w1) as [S' R]. split; [|exact R].
    eapply same_hits_trans; eassumption.
  - split; [exact S|exact I].
Qed.

Lemma tame_try_catch {A} (P : A -> Prop) (m : M A) (h : Message -> M A) :
  tame P m -> (forall e, tame P (h e)) -> tame P (try_catch m h).
Proof.
  intros Hm Hh w. unfold try_catch. destruct (Hm w) as [S R].
  destruct (m w) as [[a|e] w1]; simpl in *.
  - split; assumption.
  - destruct (Hh e w1) as [S' R']. split; [|exact R'].
    eapply same_hits_trans; eassumption.
Qed.

Lemma tame_any {A} (P : A -> Prop) (m : M A) : tame P m -> tame any m.
Proof.
  intros H w. destruct (H w) as [S _]. split; [exact S|].
  destruct (fst (m w)); exact I.
Qed.

Lemma tame_get_env : tame any get_env.
Proof. intros w. split; [apply same_hits_refl|exact I]. Qed.

Lemma tame_get_prop (v : Value) (k : jsstring) : tame any (get_prop v k).
Proof.
  unfold get_prop. destruct (prop v k); [apply tame_ret; exact I|apply tame_throw].
Qed.

Lemma tame_store_call (X : External) {A} (op : StoreOp)
    (answer : list ScriptRow -> PgResult A * list ScriptRow) :
  tame any (store_call X op answer).
Proof.
  intros w. unfold store_call.
  destruct (storeFault X op) as [[|code|]|]; simpl;
    try (repeat split; reflexivity).
  destruct (answer (scripts_table w)). repeat split; reflexivity.
Qed.

Lemma tame_fetch_script (X : External) (endpoint : jsstring)
    (r : GenerateScriptRequest) : tame any (fetch_script X endpoint r).
Proof.
  intros w. unfold fetch_script.
  destruct (fetchScript X endpoint r); repeat split; reflexivity.
Qed.

Lemma tame_fetch_speech (X : External) (voiceId apiKey text : jsstring) :
  tame any (fetch_speech X voiceId apiKey text).
Proof.
  intros w. unfold fetch_speech.
  destruct (fetchSpeech X voiceId apiKey text); repeat split; reflexivity.
Qed.

Create HintDb tame.

#[local] Hint Resolve tame_get_env tame_get_prop tame_store_call
  tame_fetch_script tame_fetch_speech : tame.

(** Walks a handler: binds, catches, conditionals and matches. *)
Ltac tame :=
  repeat first
    [ apply tame_ret; first [exact I | simpl; discriminate]
    | apply tame_throw
    | solve [auto with tame]
    | apply tame_bind; [|intros ?]
    | apply tame_try_catch; [|intros ?]
    | match goal with
      | |- tame _ (if ?b then _ else _) => destruct b
      | |- tame _ (match ?x with _ => _ end) => destruct x
      end ].

Lemma tame_generatePodcastScript (X : External) (r : GenerateScriptRequest) :
  tame any (generatePodcastScript X r).
Proof. unfold generatePodcastScript. tame. Qed.

Lemma tame_save_script (X : External) (supabase : option SupabaseClient)
    (req : Request) (topic durationMinutes style script : Value) :
  tame any (save_script X supabase req topic durationMinutes style script).
Proof. unfold save_script, store_insert. tame. Qed.

Lemma tame_generateAudioFromScript (X : External) (script : list Value) :
  tame any (generateAudioFromScript X script).
Proof. unfold generateAudioFromScript, generateSingleAudio. tame. Qed.

#[local] Hint Resolve tame_generatePodcastScript tame_save_script
  tame_generateAudioFromScript : tame.

Lemma tame_generateResearch_handler (X : External)
    (supabase : option SupabaseClient) (req : Request) :
  tame not_limited (generateResearch_handler X supabase req).
Proof. unfold generateResearch_handler, not_limited. tame. Qed.

Lemma tame_generateAudio_handler (X : External) (req : Request) :
  tame not_limited (generateAudio_handler X req).
Proof. unfold generateAudio_handler, not_limited. tame. Qed.

Lemma tame_listScripts_handler (X : External) (supabase : option SupabaseClient)
    (req : Request) :
  tame not_limited (listScripts_handler X supabase req).
Proof. unfold listScripts_handler, store_list, not_limited. tame. Qed.

Lemma tame_getScript_handler (X : External) (supabase : option SupabaseClient)
    (id : jsstring) (req : Request) :
  tame not_limited (getScript_handler X supabase id req).
Proof. unfold getScript_handler, store_get, not_limited. tame. Qed.

Lemma tame_deleteScript_handler (X : External) (supabase : option SupabaseClient)
    (id : jsstring) (req : Request) :
  tame not_limited (deleteScript_handler X supabase id req).
Proof.
  unfold deleteScript_handler, store_get_id, store_delete, not_limited. tame.
Qed.

Lemma generateResearch_route_limiter (X : External)
    (supabase : option SupabaseClient) (req : Request) (w : World) :
  let verdict := rateLimit generateLimiter (generate_hits w) (ip req) (now req) in
  generate_hits (snd (generateResearch_route X supabase req w)) = snd verdict
  /\ audio_hits (snd (generateResearch_route X supabase req w)) = audio_hits w
  /\ admitted (fst (generateResearch_route X supabase req w)) = fst verdict
  /\ (fst verdict = false ->
      generateResearch_route X supabase req w =
        (Returns (tooMany generateLimiter), set_generate_hits (snd verdict) w)).
Proof.
  unfold generateResearch_route.
  destruct (rateLimit generateLimiter _ _ _) as [pass hits]. simpl.
  destruct pass.
  - destruct (tame_generateResearch_handler X supabase req
                (set_generate_hits hits w)) as [[G A] R].
    destruct (generateResearch_handler X supabase req _) as [[r|e] w1];
      simpl in *; repeat split; try assumption; try discriminate.
    apply negb_true_iff, bool_decide_eq_false. exact R.
  - repeat split.
Qed.

Lemma generateAudio_route_limiter (X : External) (req : Request) (w : World) :
  let verdict := rateLimit audioLimiter (audio_hits w) (ip req) (now req) in
  audio_hits (snd (generateAudio_route X req w)) = snd verdict
  /\ generate_hits (snd (generateAudio_route X req w)) = generate_hits w
  /\ admitted (fst (generateAudio_route X req w)) = fst verdict
  /\ (fst verdict = false ->
      generateAudio_route X req w =
        (Returns (tooMany audioLimiter), set_audio_hits (snd verdict) w)).
Proof.
  unfold generateAudio_route.
  destruct (rateLimit audioLimiter _ _ _) as [pass hits]. simpl.
  destruct pass.
  - destruct (tame_generateAudio_handler X req (set_audio_hits hits w))
      as [[G A] R].
    destruct (generateAudio_handler X req _) as [[r|e] w1];
      simpl in *; repeat split; try assumption; try discriminate.
    apply negb_true_iff, bool_decide_eq_false. exact R.
  - repeat split.
Qed.

(** A request for another route leaves both limiter stores as they are. *)
Lemma router_other (X : External) (rs : Routers) (req : Request) (w : World) :
  is_research req = false -> is_audio req = false ->
  same_hits w (snd (router X rs req w)).
Proof.
  unfold is_research, is_audio, router.
  destruct (mount req), (method req), (path req) as [|id [|id' p]];
    intros; try discriminate; try apply same_hits_refl;
    first [ apply tame_listScripts_handler
          | apply tame_getScript_handler
          | apply tame_deleteScript_handler ].
Qed.

Lemma router_research (X : External) (rs : Routers) (req : Request) :
  is_research req = true ->
  router X rs req = generateResearch_route X (research_supabase rs) req.
Proof.
  unfold is_research, router.
  destruct (mount req), (method req), (path req); intros; try discriminate.
  reflexivity.
Qed.

Lemma router_audio (X : External) (rs : Routers) (req : Request) :
  is_audio req = true -> router X rs req = generateAudio_route X req.
Proof.
  unfold is_audio, router.
  destruct (mount req), (method req), (path req); intros; try discriminate.
  reflexivity.
Qed.

Lemma research_not_audio (req : Request) :
  is_research req = true -> is_audio req = false.
Proof.
  unfold is_research, is_audio.
  destruct (mount req), (method req), (path req); intros; try discriminate;
    reflexivity.
Qed.

Lemma router_generate_hits (X : External) (rs : Routers) (req : Request) (w : World) :
  generate_hits (snd (router X rs req w)) =
    if is_research req
    then snd (rateLimit generateLimiter (generate_hits w) (ip req) (now req))
    else generate_hits w.
Proof.
  destruct (is_research req) eqn:R.
  - rewrite (router_research X rs req R).
    apply (generateResearch_route_limiter X _ req w).
  - destruct (is_audio req) eqn:A.
    + rewrite (router_audio X rs req A).
      apply (generateAudio_route_limiter X req w).
    + apply (router_other X rs req w R A).
Qed.

Lemma router_audio_hits (X : External) (rs : Routers) (req : Request) (w : World) :
  audio_hits (snd (router X rs req w)) =
    if is_audio req
    then snd (rateLimit audioLimiter (audio_hits w) (ip req) (now req))
    else audio_hits w.
Proof.
  destruct (is_audio req) eqn:A.
  - rewrite (router_audio X rs req A).
    apply (generateAudio_route_limiter X req w).
  - destruct (is_research req) eqn:R.
    + rewrite (router_research X rs req R).
      apply (generateResearch_route_limiter X _ req w).
    + apply (router_other X rs req w R A).
Qed.

Lemma router_research_admits (X : External) (rs : Routers) (req : Request)
    (w : World) :
  is_research req = true ->
  admitted (fst (router X rs req w)) =
    fst (rateLimit generateLimiter (generate_hits w) (ip req) (now req)).
Proof.
  intros R. rewrite (router_research X rs req R).
  apply (generateResearch_route_limiter X _ req w).
Qed.

Lemma router_audio_admits (X : External) (rs : Routers) (req : Request)
    (w : World) :
  is_audio req = true ->
  admitted (fst (router X rs req w)) =
    fst (rateLimit audioLimiter (audio_hits w) (ip req) (now req)).
Proof.
  intros A. rewrite (router_audio X rs req A).
  apply (generateAudio_route_limiter X req w).
Qed.

(** C7. Requests that passed the auth gate are served in the order of their
    clocks.  For every client and every 15-minute interval, at most 10 of its
    generate-research requests and at most 5 of its generate-audio requests
    arriving in the interval get past the limiter, each route counted by its
    own store, which requests for other routes do not change.  A request that
    finds the cap already reached in the preceding 15 minutes (the 11th of 11
    consecutive generate-research requests, the 6th generate-audio request)
    is answered 429 with the limiter's message, and the world changes only in
    that limiter's store: the handler and the external services are not
    reached. *)
Theorem C7_rate_limits_per_client_and_route (X : External) (rs : Routers) :
  windowMs generateLimiter = 900000 /\ windowMs audioLimiter = 900000
  /\ (forall reqs w a c, chronological reqs = true ->
        (admitted_in generateLimiter is_research a c
           (served_by (router X rs) reqs w) <= 10)%nat
        /\ (admitted_in audioLimiter is_audio a c
              (served_by (router X rs) reqs w) <= 5)%nat)
  /\ (forall req w, is_research req = false ->
        generate_hits (snd (router X rs req w)) = generate_hits w)
  /\ (forall req w, is_audio req = false ->
        audio_hits (snd (router X rs req w)) = audio_hits w)
  /\ (forall pre x w, chronological (pre ++ [x]) = true ->
        is_research x = true ->
        (10 <= arrived is_research (now x - 900000) (ip x) pre)%nat ->
        exists hits,
          router X rs x (snd (serve (router X rs) pre w)) =
            (Returns {| status := 429; headers := [];
                        body := Text "Too many script generation requests, please try again later." |},
             set_generate_hits hits (snd (serve (router X rs) pre w))))
  /\ (forall pre x w, chronological (pre ++ [x]) = true ->
        is_audio x = true ->
        (5 <= arrived is_audio (now x - 900000) (ip x) pre)%nat ->
        exists hits,
          router X rs x (snd (serve (router X rs) pre w)) =
            (Returns {| status := 429; headers := [];
                        body := Text "Too many audio generation requests, please try again later." |},
             set_audio_hits hits (snd (serve (router X rs) pre w)))).
Proof.
  split; [reflexivity|]. split; [reflexivity|].
  split; [|split; [|split; [|split]]].
  - intros reqs w a c C. split.
    + apply (window_bound generateLimiter generate_hits is_research (router X rs)
               (router_generate_hits X rs) (router_research_admits X rs)); exact C.
    + apply (window_bound audioLimiter audio_hits is_audio (router X rs)
               (router_audio_hits X rs) (router_audio_admits X rs)); exact C.
  - intros req w R. rewrite router_generate_hits, R. reflexivity.
  - intros req w A. rewrite router_audio_hits, A. reflexivity.
  - intros pre x w C R A.
    pose proof (over_cap generateLimiter generate_hits is_research (router X rs)
                  (router_generate_hits X rs) pre x w C R A) as V.
    rewrite (router_research X rs x R).
    eexists. apply (generateResearch_route_limiter X _ x _). exact V.
  - intros pre x w C R A.
    pose proof (over_cap audioLimiter audio_hits is_audio (router X rs)
                  (router_audio_hits X rs) pre x w C R A) as V.
    rewrite (router_audio X rs x R).
    eexists. apply (generateAudio_route_limiter X x _). exact V.
Qed.

Lemma C7_witness :
  exists hits,
    router demo_external (load_routers demo_env) (research_at 899999)
      (snd (serve (router demo_external (load_routers demo_env)) ten_requests
              demo_world)) =
      (Returns {| status := 429; headers := [];
                  body := Text "Too many script generation requests, please try again later." |},
       set_generate_hits hits
         (snd (serve (router demo_external (load_routers demo_env)) ten_requests
                 demo_world))).
Proof.
  destruct (C7_rate_limits_per_client_and_route demo_external
              (load_routers demo_env)) as (_ & _ & _ & _ & _ & H & _).
  apply (H ten_requests (research_at 899999) demo_world); reflexivity.
Defined.


(** ** The whole pipeline *)

Example coffee_end_to_end :
  fst (api demo_external (load_routers demo_env) bearer_request demo_world) =
    Returns (json 200 (JsonScript demo_script (Some (js "script-")))).
Proof. reflexivity. Qed.

Example coffee_with_failing_store :
  fst (api failing_store_external (load_routers demo_env) bearer_request demo_world) =
    Returns (json 200 (JsonScript demo_script None)).
Proof. reflexivity. Qed.

Lemma startsWith_nonempty (h : jsstring) : startsWith h BEARER = true -> h <> [].
Proof. intros H ->. discriminate H. Qed.

(** X17. The auth gate builds its client from the variables the routers build
    theirs from: when they are missing, a request that carries a bearer token
    is answered 500 by the gate, before any router. *)
Remark gate_needs_credentials (X : External) (rs : Routers) (req : Request)
    (w : World) :
  has_bearer (authorization req) = true ->
  auth_supabase w = None ->
  createClientFromEnv (env w) = None ->
  api X rs req w =
    (Returns (json 500 (JsonError (Lit "Authentication service not configured"))), w).
Proof.
  intros H Ha He. unfold api, authMiddleware, getSupabaseClient.
  unfold mbind, M_bind, mret, M_ret, try_catch.
  destruct (authorization req) as [h|]; [|discriminate H]. simpl in H.
  rewrite H, (bool_decide_eq_false_2 _ (startsWith_nonempty h H)).
  cbn [negb andb]. rewrite Ha, He.
  destruct w. simpl in *. subst. reflexivity.
Qed.

(** * Further properties of the code *)

(** ** Frames, in general *)

Section Frame.

Context (R : relation World) `{!PreOrder R}.
Hypothesis R_log : forall c w, R w (log_call c w).

Lemma framed_ret {A} (P : A -> Prop) (a : A) : P a -> framed R P (mret a).
Proof. intros H w. split; [reflexivity|exact H]. Qed.

Lemma framed_throw {A} (P : A -> Prop) (e : Message) : framed R P (throw e).
Proof. intros w. split; [reflexivity|exact I]. Qed.

Lemma framed_bind {A B} (P : B -> Prop) (m : M A) (k : A -> M B) :
  framed R any m -> (forall a, framed R P (k a)) -> framed R P (m ≫= k).
Proof.
  intros Hm Hk w. unfold mbind, M_bind. destruct (Hm w) as [S _].
  destruct (m w) as [[a|e] w1]; simpl in *.
  - destruct (Hk a w1) as [S' Q]. split; [etransitivity; eassumption|exact Q].
  - split; [exact S|exact I].
Qed.

Lemma framed_try_catch {A} (P : A -> Prop) (m : M A) (h : Message -> M A) :
  framed R P m -> (forall e, framed R P (h e)) -> framed R P (try_catch m h).
Proof.
  intros Hm Hh w. unfold try_catch. destruct (Hm w) as [S Q].
  destruct (m w) as [[a|e] w1]; simpl in *.
  - split; assumption.
  - destruct (Hh e w1) as [S' Q']. split; [etransitivity; eassumption|exact Q'].
Qed.

Lemma framed_any {A} (P : A -> Prop) (m : M A) : framed R P m -> framed R any m.
Proof.
  intros H w. destruct (H w) as [S _]. split; [exact S|].
  destruct (fst (m w)); exact I.
Qed.

Lemma framed_get_env : framed R any get_env.
Proof. intros w. split; [reflexivity|exact I]. Qed.

Lemma framed_get_prop (v : Value) (k : jsstring) : framed R any (get_prop v k).
Proof.
  unfold get_prop. destruct (prop v k); [apply framed_ret; exact I|apply framed_throw].
Qed.

Lemma framed_fetch_script (X : External) (endpoint : jsstring)
    (r : GenerateScriptRequest) : framed R any (fetch_script X endpoint r).
Proof.
  intros w. unfold fetch_script.
  destruct (fetchScript X endpoint r); split; simpl; first [apply R_log|exact I].
Qed.

Lemma framed_fetch_speech (X : External) (voiceId apiKey text : jsstring) :
  framed R any (fetch_speech X voiceId apiKey text).
Proof.
  intros w. unfold fetch_speech.
  destruct (fetchSpeech X voiceId apiKey text); split; simpl;
    first [apply R_log|exact I].
Qed.

(** A store call, when the change it makes to the rows is one [R] allows. *)
Lemma framed_store_call (X : External) {A} (op : StoreOp)
    (answer : list ScriptRow -> PgResult A * list ScriptRow) :
  (forall w, R w (set_table (snd (answer (scripts_table w)))
                    (log_call (CallStore op) w))) ->
  framed R any (store_call X op answer).
Proof.
  intros H w. unfold store_call.
  destruct (storeFault X op) as [[|code|]|]; simpl;
    try (split; [apply R_log|exact I]).
  specialize (H w). destruct (answer (scripts_table w)). split; [exact H|exact I].
Qed.

End Frame.

#[local] Instance same_table_preorder : PreOrder same_table.
Proof. split; [intros w; reflexivity|intros a b c; unfold same_table; congruence]. Qed.

#[local] Instance same_others_preorder (uid : jsstring) : PreOrder (same_others uid).
Proof.
  split; [intros w; reflexivity|intros a b c; unfold same_others; congruence].
Qed.

#[local] Instance unrelated_preorder : PreOrder unrelated.
Proof. split; [intros w; exact I|intros a b c _ _; exact I]. Qed.

Lemma same_table_log (c : Call) (w : World) : same_table w (log_call c w).
Proof. reflexivity. Qed.

Lemma same_others_log (uid : jsstring) (c : Call) (w : World) :
  same_others uid w (log_call c w).
Proof. reflexivity. Qed.

Lemma unrelated_log (c : Call) (w : World) : unrelated w (log_call c w).
Proof. exact I. Qed.

(** Walks a computation: binds, catches, conditionals, matches and the
    calls to the outside, whose side conditions [leaf] settles. *)
Ltac walk leaf :=
  repeat first
    [ apply framed_ret; try typeclasses eauto; first [exact I | solve [leaf]]
    | apply framed_throw; typeclasses eauto
    | apply framed_get_env; typeclasses eauto
    | apply framed_get_prop; typeclasses eauto
    | apply framed_fetch_script; solve [leaf]
    | apply framed_fetch_speech; solve [leaf]
    | apply framed_store_call; solve [leaf]
    | apply framed_bind; try typeclasses eauto; [|intros ?]
    | apply framed_try_catch; try typeclasses eauto; [|intros ?]
    | match goal with
      | |- framed _ _ (if ?b then _ else _) => destruct b
      | |- framed _ _ (match ?x with _ => _ end) => destruct x eqn:?
      end ].

Ltac unfold_handlers :=
  unfold generateResearch_handler, generateAudio_handler, listScripts_handler,
    getScript_handler, deleteScript_handler, generatePodcastScript, save_script,
    generateAudioFromScript, generateSingleAudio, store_insert, store_list,
    store_get, store_get_id, store_delete, bad_request, DB_NOT_CONFIGURED,
    NOT_FOUND.

(** ** The statuses a handler can answer *)

Ltac member := unfold status_in; simpl; repeat constructor.

Ltac included :=
  let x := fresh in let Hx := fresh in
  intros x Hx;
  repeat (apply elem_of_cons in Hx as [->|Hx]; [repeat constructor|]);
  inversion Hx.

Ltac status_leaf := first [exact unrelated_log | intros; exact I | member].

Lemma generateResearch_handler_statuses (X : External)
    (supabase : option SupabaseClient) (req : Request) :
  framed unrelated (status_in [200; 400; 500])
    (generateResearch_handler X supabase req).
Proof. unfold_handlers. walk status_leaf. Qed.

Lemma generateAudio_handler_statuses (X : External) (req : Request) :
  framed unrelated (status_in [200; 400; 500]) (generateAudio_handler X req).
Proof. unfold_handlers. walk status_leaf. Qed.

Lemma listScripts_handler_statuses (X : External)
    (supabase : option SupabaseClient) (req : Request) :
  framed unrelated (status_in [200; 500]) (listScripts_handler X supabase req).
Proof. unfold_handlers. walk status_leaf. Qed.

Lemma getScript_handler_statuses (X : External)
    (supabase : option SupabaseClient) (id : jsstring) (req : Request) :
  framed unrelated (status_in [200; 404; 500]) (getScript_handler X supabase id req).
Proof. unfold_handlers. walk status_leaf. Qed.

Lemma deleteScript_handler_statuses (X : External)
    (supabase : option SupabaseClient) (id : jsstring) (req : Request) :
  framed unrelated (status_in [200; 404; 500])
    (deleteScript_handler X supabase id req).
Proof. unfold_handlers. walk status_leaf. Qed.

Lemma authMiddleware_statuses (X : External) (req : Request) :
  framed unrelated
    (fun r => match r with inl resp => status_in [401; 500] resp | inr _ => True end)
    (authMiddleware X req).
Proof.
  unfold authMiddleware, getSupabaseClient, auth_getUser.
  apply framed_try_catch; try typeclasses eauto.
  - destruct (authorization req) as [h|]; [|walk status_leaf].
    destruct (_ && _); [|walk status_leaf].
    intros w. split; [exact I|]. unfold mbind, M_bind, mret, M_ret.
    destruct (auth_supabase w) as [c|]; simpl.
    + destruct (getUser X c _) as [[u|] [|]|]; simpl;
        first [exact I | member].
    + destruct (createClientFromEnv (env w)) as [c|]; simpl;
        [|member].
      destruct (createClientThrows X _ _); simpl; [exact I|].
      destruct (getUser X c _) as [[u|] [|]|]; simpl;
        first [exact I | member].
  - intros e. walk status_leaf.
Qed.

Lemma framed_returns {A} (R : relation World) (P : A -> Prop) (m : M A)
    (w w' : World) (a : A) :
  framed R P m -> m w = (Returns a, w') -> P a /\ R w w'.
Proof. intros H E. destruct (H w) as [S Q]. rewrite E in *. split; assumption. Qed.

Lemma status_in_mono (small big : list Z) (r : Response) :
  small ⊆ big -> status_in small r -> status_in big r.
Proof. unfold status_in. intros H Hr. exact (H _ Hr). Qed.

Lemma router_statuses (X : External) (rs : Routers) (req : Request) :
  framed unrelated (status_in [200; 400; 404; 429; 500]) (router X rs req).
Proof.
  intros w. split; [exact I|]. unfold router.
  destruct (mount req), (method req), (path req) as [|id [|id' p]];
    try (member).
  - unfold generateResearch_route. destruct (rateLimit _ _ _ _) as [[|] hits];
      [|member].
    destruct (generateResearch_handler_statuses X (research_supabase rs) req
                (set_generate_hits hits w)) as [_ H].
    destruct (fst _); [|exact I]. revert H. apply status_in_mono. included.
  - unfold generateAudio_route. destruct (rateLimit _ _ _ _) as [[|] hits];
      [|member].
    destruct (generateAudio_handler_statuses X req (set_audio_hits hits w)) as [_ H].
    destruct (fst _); [|exact I]. revert H. apply status_in_mono. included.
  - destruct (listScripts_handler_statuses X (scripts_supabase rs) req w) as [_ H].
    destruct (fst _); [|exact I]. revert H. apply status_in_mono. included.
  - destruct (getScript_handler_statuses X (scripts_supabase rs) id req w) as [_ H].
    destruct (fst _); [|exact I]. revert H. apply status_in_mono. included.
  - destruct (deleteScript_handler_statuses X (scripts_supabase rs) id req w)
      as [_ H].
    destruct (fst _); [|exact I]. revert H. apply status_in_mono. included.
Qed.

(** X1. Whatever the request and whatever the external services do, an answer
    of the API has one of the statuses 200, 400, 401, 404, 429, 500 (never
    403); the list of scripts answers only 200 or 500, the script by id and
    its deletion only 200, 404 or 500, and the two generating handlers only
    200, 400 or 500. *)
Theorem api_statuses (X : External) (rs : Routers) (req : Request) (w : World)
    (supabase : option SupabaseClient) (id : jsstring) :
  (forall r w', api X rs req w = (Returns r, w') ->
     status r ∈ [200; 400; 401; 404; 429; 500])
  /\ (forall r w', listScripts_handler X supabase req w = (Returns r, w') ->
        status r ∈ [200; 500])
  /\ (forall r w', getScript_handler X supabase id req w = (Returns r, w') ->
        status r ∈ [200; 404; 500])
  /\ (forall r w', deleteScript_handler X supabase id req w = (Returns r, w') ->
        status r ∈ [200; 404; 500])
  /\ (forall r w', generateResearch_handler X supabase req w = (Returns r, w') ->
        status r ∈ [200; 400; 500])
  /\ (forall r w', generateAudio_handler X req w = (Returns r, w') ->
        status r ∈ [200; 400; 500]).
Proof.
  split; [|repeat split; intros r w' E].
  - intros r w' E. unfold api, mbind, M_bind in E.
    destruct (authMiddleware_statuses X req w) as [_ H].
    destruct (authMiddleware X req w) as [[[resp|req']|e] w1]; simpl in *;
      try discriminate.
    + injection E as <- <-. revert H. apply status_in_mono. included.
    + destruct (framed_returns _ _ _ _ _ _ (router_statuses X rs req') E) as [S _].
      revert S. apply status_in_mono. included.
  - apply (framed_returns _ _ _ _ _ _ (listScripts_handler_statuses X supabase req) E).
  - apply (framed_returns _ _ _ _ _ _ (getScript_handler_statuses X supabase id req) E).
  - apply (framed_returns _ _ _ _ _ _
             (deleteScript_handler_statuses X supabase id req) E).
  - apply (framed_returns _ _ _ _ _ _
             (generateResearch_handler_statuses X supabase req) E).
  - apply (framed_returns _ _ _ _ _ _ (generateAudio_handler_statuses X req) E).
Qed.

Lemma api_statuses_witness :
  exists r w', api demo_external (load_routers demo_env) bearer_request demo_world
               = (Returns r, w') /\ status r ∈ [200; 400; 401; 404; 429; 500].
Proof.
  pose proof (proj1 (api_statuses demo_external (load_routers demo_env)
                       bearer_request demo_world None [])) as H.
  eexists _, _. split; [reflexivity|]. eapply H. reflexivity.
Defined.

(** ** No exception leaves the API *)

Lemma responds_ret {A} (a : A) : responds (mret a : M A).
Proof. intros w. exists a. reflexivity. Qed.

Lemma responds_try_catch {A} (m : M A) (h : Message -> M A) :
  (forall e, responds (h e)) -> responds (try_catch m h).
Proof.
  intros H w. unfold try_catch. destruct (m w) as [[a|e] w1].
  - exists a. reflexivity.
  - apply H.
Qed.

Lemma responds_bind {A B} (m : M A) (k : A -> M B) :
  responds m -> (forall a, responds (k a)) -> responds (m ≫= k).
Proof.
  intros Hm Hk w. unfold mbind, M_bind. destruct (Hm w) as [a E].
  destruct (m w) as [r w1]. simpl in E. subst r. apply Hk.
Qed.

Lemma router_responds (X : External) (rs : Routers) (req : Request) :
  responds (router X rs req).
Proof.
  unfold router.
  destruct (mount req), (method req), (path req) as [|id [|id' p]];
    try apply responds_ret;
    try (apply responds_try_catch; intros e; apply responds_ret).
  - intros w. unfold generateResearch_route.
    destruct (rateLimit _ _ _ _) as [[|] hits]; [|eexists; reflexivity].
    apply responds_try_catch. intros e. apply responds_ret.
  - intros w. unfold generateAudio_route.
    destruct (rateLimit _ _ _ _) as [[|] hits]; [|eexists; reflexivity].
    apply responds_try_catch. intros e. apply responds_ret.
Qed.

(** X2. Every request to the API is answered: whatever the body holds and
    whatever the identity provider, the script service, the speech service
    and the store do (reject, fail, answer nonsense), the gate and the
    routers catch it and send a response; nothing is left to Express's error
    handler. *)
Theorem api_always_answers (X : External) (rs : Routers) (req : Request)
    (w : World) :
  exists r w', api X rs req w = (Returns r, w').
Proof.
  assert (H : responds (api X rs req)).
  { unfold api. apply responds_bind.
    - apply responds_try_catch. intros e. apply responds_ret.
    - intros [resp|req']; [apply responds_ret|apply router_responds]. }
  destruct (H w) as [r E]. exists r, (snd (api X rs req w)).
  destruct (api X rs req w). simpl in E. subst. reflexivity.
Qed.

(** ** The auth gate, beyond the missing header *)

Lemma has_bearer_header (req : Request) :
  has_bearer (authorization req) = true ->
  exists h, authorization req = Some h /\ startsWith h BEARER = true /\ h <> [].
Proof.
  destruct (authorization req) as [h|]; [|discriminate]. simpl. intros H.
  exists h. repeat split; [exact H|]. apply startsWith_nonempty, H.
Qed.

Lemma startsWith_app (p s : jsstring) : startsWith (p ++ s) p = true.
Proof.
  induction p as [|a p IH]; simpl; [destruct s; reflexivity|].
  rewrite bool_decide_eq_true_2 by reflexivity. exact IH.
Qed.

Lemma startsWith_split (s p : jsstring) :
  startsWith s p = true -> s = p ++ drop (length p) s.
Proof.
  revert s. induction p as [|a p IH]; intros s H; [reflexivity|].
  destruct s as [|b s]; [discriminate|]. simpl in H.
  apply andb_true_iff in H as [E H]. apply bool_decide_eq_true in E. subst b.
  simpl. f_equal. apply IH, H.
Qed.

Lemma authMiddleware_asks (X : External) (req : Request) (w : World)
    (h : jsstring) (c : SupabaseClient) :
  authorization req = Some h -> startsWith h BEARER = true ->
  gate_client X w = Some c ->
  authMiddleware X req w =
    match getUser X c (bearer_token h) with
    | AuthReturns (Some u) false =>
        (Returns (inr (set_user {| user_id := user_id u; user_email := user_email u |}
                         req)),
         verified_with c (bearer_token h) w)
    | AuthReturns _ _ =>
        (Returns (inl (json 401 (JsonError (Lit "Invalid or expired token")))),
         verified_with c (bearer_token h) w)
    | AuthRejects =>
        (Returns (inl (json 500 (JsonError (Lit "Authentication error")))),
         verified_with c (bearer_token h) w)
    end.
Proof.
  intros Hh Hs Hc. unfold authMiddleware, getSupabaseClient, auth_getUser.
  unfold mbind, M_bind, mret, M_ret, try_catch, gate_client in *.
  rewrite Hh, Hs, (bool_decide_eq_false_2 _ (startsWith_nonempty h Hs)).
  cbn [negb andb]. unfold verified_with, bearer_token, substring.
  destruct (auth_supabase w) as [c'|] eqn:A.
  - injection Hc as ->.
    assert (W : set_auth_supabase (Some c) w = w)
      by (destruct w; simpl in *; subst; reflexivity).
    rewrite W. destruct (getUser X c (drop 7 h)) as [[u|] [|]|]; reflexivity.
  - destruct (createClientFromEnv (env w)) as [c'|]; [|discriminate].
    destruct (createClientThrows X _ _); [discriminate|].
    injection Hc as ->. simpl.
    destruct (getUser X c (drop 7 h)) as [[u|] [|]|]; reflexivity.
Qed.

Lemma authMiddleware_cannot_build (X : External) (req : Request) (w : World) :
  has_bearer (authorization req) = true ->
  client_cannot_be_built X w ->
  authMiddleware X req w =
    (Returns (inl (json 500 (JsonError (Lit "Authentication error")))), w).
Proof.
  intros Hb (Ha & c & Hc & Ht).
  destruct (has_bearer_header req Hb) as (h & Hh & Hs & Hn).
  unfold authMiddleware, getSupabaseClient.
  unfold mbind, M_bind, mret, M_ret, try_catch.
  rewrite Hh, Hs, (bool_decide_eq_false_2 _ Hn). cbn [negb andb].
  rewrite Ha, Hc, Ht. reflexivity.
Qed.

(** X3. When the Authorization header is [Bearer ] followed by a token, the
    gate has a client (the one it cached, or one that [createClient] builds
    from the two variables without throwing), and the identity provider
    vouches for the token, then the provider was asked once, about exactly
    the text after the prefix; the request goes on to the router with
    [req.user] set to the identity the provider returned; and the gate
    changed nothing but its cached client. *)
Theorem gate_verifies_the_token_and_attaches_the_identity
    (X : External) (rs : Routers) (req : Request) (w : World)
    (token : jsstring) (c : SupabaseClient) (u : User) :
  authorization req = Some (BEARER ++ token) ->
  gate_client X w = Some c ->
  getUser X c token = AuthReturns (Some u) false ->
  api X rs req w = router X rs (set_user u req) (verified_with c token w).
Proof.
  intros Hh Hc Hu. unfold api, mbind, M_bind.
  rewrite (authMiddleware_asks X req w _ c Hh (startsWith_app _ _) Hc).
  unfold bearer_token. change 7%nat with (length BEARER).
  rewrite drop_app_length, Hu. destruct u; reflexivity.
Qed.

Lemma gate_verifies_witness :
  api demo_external (load_routers demo_env) bearer_request demo_world =
    router demo_external (load_routers demo_env) (set_user alice bearer_request)
      (verified_with demo_client (js "alice-token") demo_world).
Proof.
  apply (gate_verifies_the_token_and_attaches_the_identity demo_external
           (load_routers demo_env) bearer_request demo_world (js "alice-token")
           demo_client alice); reflexivity.
Defined.

(** X4. When the header carries a bearer token and the gate has a client
    (cached, or built by [createClient] without throwing), but the identity
    client does not vouch for the token, the request stops at the gate: 401
    "Invalid or expired token" if the client comes back with an error or
    with no user (an unreachable provider is such an error), 500
    "Authentication error" if the call throws.  The client was asked once;
    no router ran, so the limiter stores and the rows are as before. *)
Theorem gate_stops_unverified_tokens
    (X : External) (rs : Routers) (req : Request) (w : World) (c : SupabaseClient) :
  has_bearer (authorization req) = true ->
  gate_client X w = Some c ->
  (forall h u, authorization req = Some h ->
     getUser X c (bearer_token h) <> AuthReturns (Some u) false) ->
  exists h answer,
    authorization req = Some h
    /\ api X rs req w = (Returns answer, verified_with c (bearer_token h) w)
    /\ answer =
         match getUser X c (bearer_token h) with
         | AuthRejects => json 500 (JsonError (Lit "Authentication error"))
         | _ => json 401 (JsonError (Lit "Invalid or expired token"))
         end
    /\ generate_hits (snd (api X rs req w)) = generate_hits w
    /\ audio_hits (snd (api X rs req w)) = audio_hits w
    /\ scripts_table (snd (api X rs req w)) = scripts_table w.
Proof.
  intros Hb Hc Hn. destruct (has_bearer_header req Hb) as (h & Hh & Hs & _).
  specialize (Hn h). unfold api, mbind, M_bind.
  rewrite (authMiddleware_asks X req w h c Hh Hs Hc).
  exists h. destruct (getUser X c (bearer_token h)) as [[u|] [|]|];
    try (eexists; repeat split; first [exact Hh | reflexivity]).
  exfalso. apply (Hn u Hh). reflexivity.
Qed.

Lemma gate_stops_witness :
  api demo_external (load_routers demo_env) mallory_request bobs_world =
    (Returns (json 401 (JsonError (Lit "Invalid or expired token"))),
     verified_with demo_client (js "stolen-token") bobs_world)
  /\ api offline_identity_external (load_routers demo_env) bearer_request demo_world =
       (Returns (json 401 (JsonError (Lit "Invalid or expired token"))),
        verified_with demo_client (js "alice-token") demo_world)
  /\ api throwing_identity_external (load_routers demo_env) bearer_request demo_world =
       (Returns (json 500 (JsonError (Lit "Authentication error"))),
        verified_with demo_client (js "alice-token") demo_world).
Proof.
  split; [|split].
  - destruct (gate_stops_unverified_tokens demo_external (load_routers demo_env)
                mallory_request bobs_world demo_client eq_refl eq_refl)
      as (h & answer & Hh & E & -> & _).
    + intros h u Hh. injection Hh as <-. discriminate.
    + injection Hh as <-. exact E.
  - destruct (gate_stops_unverified_tokens offline_identity_external
                (load_routers demo_env) bearer_request demo_world demo_client
                eq_refl eq_refl)
      as (h & answer & Hh & E & -> & _).
    + intros h u Hh. discriminate.
    + injection Hh as <-. exact E.
  - destruct (gate_stops_unverified_tokens throwing_identity_external
                (load_routers demo_env) bearer_request demo_world demo_client
                eq_refl eq_refl)
      as (h & answer & Hh & E & -> & _).
    + intros h u Hh. discriminate.
    + injection Hh as <-. exact E.
Defined.

(** X21. When the header carries a bearer token, the gate has no client yet,
    both Supabase variables are set, and [createClient] throws on them (a
    [SUPABASE_URL] that is no URL), the gate answers 500 "Authentication
    error".  Nothing is cached and nobody is asked: the world is as before,
    so the next request tries to build the client again. *)
Theorem gate_answers_500_when_its_client_cannot_be_built
    (X : External) (rs : Routers) (req : Request) (w : World) :
  has_bearer (authorization req) = true ->
  client_cannot_be_built X w ->
  api X rs req w =
    (Returns (json 500 (JsonError (Lit "Authentication error"))), w).
Proof.
  intros Hb Hc. unfold api, mbind, M_bind.
  rewrite (authMiddleware_cannot_build X req w Hb Hc). reflexivity.
Qed.

Lemma gate_cannot_build_witness :
  api url_checking_external (load_routers bare_env) bearer_request typo_world =
    (Returns (json 500 (JsonError (Lit "Authentication error"))), typo_world).
Proof.
  apply (gate_answers_500_when_its_client_cannot_be_built url_checking_external
           (load_routers bare_env) bearer_request typo_world eq_refl).
  split; [reflexivity|]. eexists. split; reflexivity.
Defined.

Lemma gate_needs_credentials_witness :
  api demo_external (load_routers bare_env) bearer_request bare_world =
    (Returns (json 500 (JsonError (Lit "Authentication service not configured"))),
     bare_world).
Proof.
  apply (gate_needs_credentials demo_external (load_routers bare_env)
           bearer_request bare_world); reflexivity.
Defined.

(** ** Whose rows a request can touch *)

Lemma rows_of_others_app (uid : jsstring) (rows : list ScriptRow) (r : ScriptRow) :
  row_user_id r = uid -> rows_of_others uid (rows ++ [r]) = rows_of_others uid rows.
Proof.
  intros H. unfold rows_of_others. rewrite List.filter_app. simpl.
  rewrite bool_decide_eq_true_2 by exact H. simpl. apply app_nil_r.
Qed.

Lemma rows_of_others_delete (id uid : jsstring) (rows : list ScriptRow) :
  rows_of_others uid (List.filter (fun r => negb (owned_by id uid r)) rows) =
    rows_of_others uid rows.
Proof.
  unfold rows_of_others, owned_by. induction rows as [|r rows IH]; simpl; [reflexivity|].
  destruct (bool_decide (row_user_id r = uid)) eqn:U; simpl.
  - destruct (bool_decide (row_id r = id)); simpl; rewrite ?U; simpl; exact IH.
  - rewrite andb_false_r. simpl. rewrite U. simpl. f_equal. exact IH.
Qed.

Ltac others_leaf :=
  first [ exact (same_others_log _)
        | intros; exact I
        | intros; unfold same_others; simpl;
          first [ reflexivity
                | apply rows_of_others_delete
                | apply rows_of_others_app; simpl; congruence ] ].

Lemma generateResearch_handler_others (X : External)
    (supabase : option SupabaseClient) (req : Request) (u : User) :
  req_user req = Some u ->
  framed (same_others (user_id u)) any (generateResearch_handler X supabase req).
Proof.
  intros Hu. unfold_handlers. rewrite Hu. walk others_leaf.
Qed.

Lemma deleteScript_handler_others (X : External)
    (supabase : option SupabaseClient) (id : jsstring) (req : Request) (u : User) :
  req_user req = Some u ->
  framed (same_others (user_id u)) any (deleteScript_handler X supabase id req).
Proof.
  intros Hu. unfold_handlers. rewrite Hu. walk others_leaf.
Qed.

Ltac table_leaf :=
  first [ exact same_table_log | intros; exact I | intros; reflexivity ].

Lemma listScripts_handler_reads_only (X : External)
    (supabase : option SupabaseClient) (req : Request) :
  framed same_table any (listScripts_handler X supabase req).
Proof. unfold_handlers. walk table_leaf. Qed.

Lemma getScript_handler_reads_only (X : External)
    (supabase : option SupabaseClient) (id : jsstring) (req : Request) :
  framed same_table any (getScript_handler X supabase id req).
Proof. unfold_handlers. walk table_leaf. Qed.

Lemma generateAudio_handler_reads_only (X : External) (req : Request) :
  framed same_table any (generateAudio_handler X req).
Proof. unfold_handlers. walk table_leaf. Qed.

Lemma same_table_others (uid : jsstring) (w w' : World) :
  same_table w w' -> same_others uid w w'.
Proof. unfold same_table, same_others. intros ->. reflexivity. Qed.

(** X5. Whatever a request that passed the gate asks of the router, and
    whatever the services answer, the rows of every other user are afterwards
    exactly what they were, in the same order: a caller can add and delete
    rows of their own only.  The three reading routes (list, get by id,
    generate-audio) leave the whole table as it was. *)
Theorem router_touches_own_rows_only
    (X : External) (rs : Routers) (req : Request) (u : User) (w : World) :
  req_user req = Some u ->
  rows_of_others (user_id u) (scripts_table (snd (router X rs req w))) =
    rows_of_others (user_id u) (scripts_table w)
  /\ (method req = GET \/ mount req = ApiGenerateAudio ->
      scripts_table (snd (router X rs req w)) = scripts_table w).
Proof.
  intros Hu. unfold router.
  destruct (mount req) eqn:Mo, (method req) eqn:Me, (path req) as [|id [|id' p]];
    try (split; [reflexivity|intros _; reflexivity]).
  - split; [|intros [|]; discriminate].
    unfold generateResearch_route. destruct (rateLimit _ _ _ _) as [[|] hits];
      [|reflexivity].
    exact (proj1 (generateResearch_handler_others X _ req u Hu
                    (set_generate_hits hits w))).
  - unfold generateAudio_route. destruct (rateLimit _ _ _ _) as [[|] hits];
      [|split; [reflexivity|intros _; reflexivity]].
    pose proof (proj1 (generateAudio_handler_reads_only X req
                         (set_audio_hits hits w))) as T.
    split; [apply same_table_others, T|intros _; exact T].
  - pose proof (proj1 (listScripts_handler_reads_only X (scripts_supabase rs) req w))
      as T.
    split; [apply same_table_others, T|intros _; exact T].
  - pose proof (proj1 (getScript_handler_reads_only X (scripts_supabase rs) id req w))
      as T.
    split; [apply same_table_others, T|intros _; exact T].
  - split; [|intros [|]; discriminate].
    exact (proj1 (deleteScript_handler_others X _ id req u Hu w)).
Qed.

Lemma router_touches_own_rows_only_witness :
  rows_of_others (user_id alice)
    (scripts_table (snd (router demo_external (load_routers demo_env)
                           (alice_request DELETE [js "s1"]) shared_world))) =
    [row_of "s2" bob 20].
Proof.
  apply (router_touches_own_rows_only demo_external (load_routers demo_env)
           (alice_request DELETE [js "s1"]) alice shared_world). reflexivity.
Defined.

(** ** Script generation, beyond duration and style *)

Lemma topic_invalid_nonblank (v : Value) :
  topic_invalid v = negb (nonblank_string v).
Proof.
  unfold topic_invalid, nonblank_string.
  destruct v as [| |b|n|s|l|f]; try reflexivity;
    try (destruct (truthy _); reflexivity).
  rewrite negb_involutive. cbn [str].
  destruct (whitespace_only s) eqn:W; unfold whitespace_only in W.
  - apply trim_nil in W. rewrite W. apply orb_true_r.
  - assert (T : trim s <> []) by (intros T; apply trim_nil in T; congruence).
    assert (S : s <> []) by (intros ->; apply T; reflexivity).
    cbn [truthy typeof].
    rewrite (bool_decide_eq_false_2 (s = [])) by exact S.
    destruct (trim s); [contradiction|reflexivity].
Qed.

(** X6. When the [topic] of a POST /api/generate-research request is missing,
    not a string, empty or white space only, the handler answers 400 "Topic is
    required and must be a non-empty string", whatever the other fields hold,
    and leaves the world untouched: no upstream call, no store call. *)
Theorem blank_topic_is_400_before_anything_else
    (X : External) (supabase : option SupabaseClient) (req : Request) (w : World)
    (topic : Value) :
  prop (req_body req) (js "topic") = Some topic ->
  nonblank_string topic = false ->
  generateResearch_handler X supabase req w =
    (Returns (bad_request "Topic is required and must be a non-empty string"), w).
Proof.
  intros Ht Hb. destruct (reads_of_prop req _ _ Ht) as (t' & d & s & R).
  assert (t' = topic) as -> by (destruct R as (R & _); congruence).
  rewrite (generateResearch_handler_reads X supabase req w _ _ _ R).
  rewrite topic_invalid_nonblank, Hb. reflexivity.
Qed.

Lemma blank_topic_witness :
  generateResearch_handler demo_external (Some demo_client) blank_topic_request
    demo_world =
    (Returns (bad_request "Topic is required and must be a non-empty string"),
     demo_world).
Proof.
  apply (blank_topic_is_400_before_anything_else demo_external (Some demo_client)
           blank_topic_request demo_world (VString (js "   "))); reflexivity.
Defined.

Lemma upstream_ok_succeeds (X : External) (e : Env) (r : GenerateScriptRequest) :
  upstream_ok X e r = true <-> exists script, upstream_succeeds X e r script.
Proof.
  unfold upstream_ok, upstream_succeeds. split.
  - destruct (fetchScript X _ r) as [|resp]; [discriminate|].
    intros H. apply andb_true_iff in H as [Hok H].
    destruct (resp_json resp) as [v|] eqn:J; [|discriminate].
    exists v, resp. repeat split; first [reflexivity | assumption].
  - intros (script & resp & -> & -> & -> & ->). reflexivity.
Qed.

Lemma generatePodcastScript_fails (X : External) (r : GenerateScriptRequest)
    (w : World) :
  upstream_ok X (env w) r = false ->
  exists m, fst (generatePodcastScript X r w) = Throws m.
Proof.
  unfold upstream_ok, generatePodcastScript, fetch_script, script_endpoint.
  unfold mbind, M_bind, mret, M_ret, throw, get_env, get_prop. cbv beta iota.
  destruct (fetchScript X _ r) as [|resp]; [eauto|]. cbv beta iota.
  destruct (resp_ok resp); simpl.
  - destruct (resp_json resp) as [v|]; [|eauto].
    intros ->. simpl. eauto.
  - intros _. destruct (prop _ _) as [err|]; [|eauto].
    unfold mret, M_ret. destruct (truthy err); eauto.
Qed.

(** X7. When a request passes validation but the script service does not
    answer a 2xx response holding a JSON array (it is unreachable, answers an
    error status, or answers something that is not an array), the handler
    answers 500; it has called the script service once and the store not at
    all, so nothing is saved. *)
Theorem failed_generation_is_500_and_saves_nothing
    (X : External) (supabase : option SupabaseClient) (req : Request) (w : World)
    (topic durationMinutes style : Value) :
  reads req topic durationMinutes style ->
  accepted X topic durationMinutes style = true ->
  upstream_ok X (env w) (forwarded X topic durationMinutes style) = false ->
  exists m,
    generateResearch_handler X supabase req w =
      (Returns (json 500 (JsonError m)),
       log_call (CallScriptService (script_endpoint (env w))
                   (forwarded X topic durationMinutes style)) w).
Proof.
  intros R A U. rewrite (generateResearch_handler_reads X supabase req w _ _ _ R).
  unfold accepted in A.
  apply andb_true_iff in A as [A Hu]. apply andb_true_iff in A as [A Hm].
  apply andb_true_iff in A as [Ht Hd].
  apply negb_true_iff in Hu, Hm, Ht, Hd. rewrite Ht, Hd, Hm, Hu.
  destruct (generatePodcastScript_fails X _ w U) as [m E].
  pose proof (generatePodcastScript_world X
                (forwarded X topic durationMinutes style) w) as G.
  destruct (generatePodcastScript X _ w) as [res w1]. simpl in *. subst.
  exists m. reflexivity.
Qed.

Lemma failed_generation_witness :
  exists m,
    generateResearch_handler refusing_script_external (Some demo_client)
      coffee_request demo_world =
      (Returns (json 500 (JsonError m)),
       log_call (CallScriptService (js "http://localhost:8000/generate")
                   {| gs_topic := js "The history of coffee";
                      gs_durationMinutes := num_of_Z 10;
                      gs_style := js "conversational" |}) demo_world).
Proof.
  apply (failed_generation_is_500_and_saves_nothing refusing_script_external
           (Some demo_client) coffee_request demo_world
           (VString (js "The history of coffee")) (VNumber (num_of_Z 10))
           (VString (js "Conversational"))); try reflexivity.
  repeat split.
Defined.

(** X8. Whatever status outside 200..299 the script service answers, and
    whatever its body, the handler answers 500, having called the script
    service once and the store not at all.  The message is the body's
    [error] when that is truthy, "Unknown error" when the body is no JSON,
    the status otherwise (a body [null] gives the runtime's TypeError); in
    particular, a non-empty string under [error] of a JSON object is the
    message the client gets. *)
Theorem upstream_error_text_is_passed_on_with_500
    (X : External) (supabase : option SupabaseClient) (req : Request) (w : World)
    (topic durationMinutes style : Value) (resp : HttpResponse) :
  reads req topic durationMinutes style ->
  accepted X topic durationMinutes style = true ->
  fetchScript X (script_endpoint (env w)) (forwarded X topic durationMinutes style)
    = Fetched resp ->
  resp_ok resp = false ->
  generateResearch_handler X supabase req w =
    (Returns (json 500 (JsonError (upstream_error_message resp))),
     log_call (CallScriptService (script_endpoint (env w))
                 (forwarded X topic durationMinutes style)) w)
  /\ (forall fields text,
        resp_json resp = Some (VObject fields) ->
        assoc (js "error") fields = VString text ->
        text <> [] ->
        fst (generateResearch_handler X supabase req w) =
          Returns (json 500 (JsonError (ToString (VString text)))))
  /\ (resp_json resp = None ->
      fst (generateResearch_handler X supabase req w) =
        Returns (json 500 (JsonError (ToString (VString (js "Unknown error")))))).
Proof.
  intros R A F Hok.
  assert (E : generateResearch_handler X supabase req w =
    (Returns (json 500 (JsonError (upstream_error_message resp))),
     log_call (CallScriptService (script_endpoint (env w))
                 (forwarded X topic durationMinutes style)) w)).
  { rewrite (generateResearch_handler_reads X supabase req w _ _ _ R).
    unfold accepted in A.
    apply andb_true_iff in A as [A Hu]. apply andb_true_iff in A as [A Hm].
    apply andb_true_iff in A as [Ht Hd].
    apply negb_true_iff in Hu, Hm, Ht, Hd. rewrite Ht, Hd, Hm, Hu.
    unfold generatePodcastScript, fetch_script, script_endpoint in *.
    unfold mbind, M_bind, mret, M_ret, throw, get_env, get_prop. cbv beta iota.
    rewrite F. cbv beta iota. rewrite Hok. cbn [negb].
    unfold upstream_error_message.
    destruct (resp_json resp) as [v|]; [|reflexivity].
    destruct (prop v (js "error")) as [err|]; [|reflexivity].
    unfold mret, M_ret. destruct (truthy err); reflexivity. }
  split; [exact E|]. rewrite E. cbn [fst]. unfold upstream_error_message. split.
  - intros fields text -> He Hn. simpl. rewrite He. simpl.
    rewrite bool_decide_eq_false_2 by exact Hn. reflexivity.
  - intros ->. reflexivity.
Qed.

Lemma upstream_error_text_witness :
  fst (generateResearch_handler refusing_script_external (Some demo_client)
         coffee_request demo_world) =
    Returns (json 500 (JsonError (ToString (VString (js "Topic not allowed"))))).
Proof.
  refine (proj1 (proj2 (upstream_error_text_is_passed_on_with_500
           refusing_script_external
           (Some demo_client) coffee_request demo_world
           (VString (js "The history of coffee")) (VNumber (num_of_Z 10))
           (VString (js "Conversational"))
           {| resp_status := 422;
              resp_json := Some (VObject [(js "error", VString (js "Topic not allowed"))]);
              resp_text := []; resp_bytes := [] |}
           _ eq_refl eq_refl eq_refl))
           [(js "error", VString (js "Topic not allowed"))]
           (js "Topic not allowed") eq_refl eq_refl _).
  - repeat split.
  - discriminate.
Defined.

(** ** Saving and reading back *)

Lemma generateResearch_handler_saves
    (X : External) (client : SupabaseClient) (u : User) (req : Request) (w : World)
    (topic durationMinutes style script : Value) :
  reads req topic durationMinutes style ->
  accepted X topic durationMinutes style = true ->
  upstream_succeeds X (env w) (forwarded X topic durationMinutes style) script ->
  req_user req = Some u ->
  storeFault X (OpInsert (inserted X u topic durationMinutes style script)) = None ->
  generateResearch_handler X (Some client) req w =
    (Returns (json 200 (JsonScript script
                (Some (gen_random_uuid X (scripts_table w))))),
     set_table
       (scripts_table w ++
          [stored_row X (scripts_table w) (now req)
             (inserted X u topic durationMinutes style script)])
       (log_call (CallStore (OpInsert (inserted X u topic durationMinutes style script)))
          (log_call (CallScriptService (script_endpoint (env w))
                       (forwarded X topic durationMinutes style)) w))).
Proof.
  intros R A U Hu Hf.
  rewrite (generateResearch_handler_generated X _ req w _ _ _ script R A U).
  unfold save_script. rewrite Hu.
  unfold try_catch, mbind, M_bind, mret, M_ret, store_insert, store_call.
  fold (inserted X u topic durationMinutes style script). rewrite Hf.
  reflexivity.
Qed.

Lemma generateResearch_handler_appends
    (X : External) (client : SupabaseClient) (u : User) (req : Request) (w : World)
    (topic durationMinutes style script : Value) :
  reads req topic durationMinutes style ->
  accepted X topic durationMinutes style = true ->
  upstream_succeeds X (env w) (forwarded X topic durationMinutes style) script ->
  req_user req = Some u ->
  storeFault X (OpInsert (inserted X u topic durationMinutes style script)) = None ->
  let row := stored_row X (scripts_table w) (now req)
               (inserted X u topic durationMinutes style script) in
  fst (generateResearch_handler X (Some client) req w) =
    Returns (json 200 (JsonScript script (Some (row_id row))))
  /\ scripts_table (snd (generateResearch_handler X (Some client) req w)) =
       scripts_table w ++ [row]
  /\ row_user_id row = user_id u
  /\ row_script_data row = script.
Proof.
  intros R A U Hu Hf row.
  rewrite (generateResearch_handler_saves X client u req w _ _ _ script R A U Hu Hf).
  repeat split.
Qed.

(** X9. When a request passes validation, the script service answers a
    script and the store takes the insert, the handler answers 200 with the
    script and the id the store gave the new row; the table has gained exactly
    that row, at its end, owned by the authenticated user (not by anything in
    the body), holding the trimmed topic, the lower-cased style, the duration
    and the script. *)
Theorem generated_script_is_saved_under_the_caller
    (X : External) (client : SupabaseClient) (u : User) (req : Request) (w : World)
    (topic durationMinutes style script : Value) :
  reads req topic durationMinutes style ->
  accepted X topic durationMinutes style = true ->
  upstream_succeeds X (env w) (forwarded X topic durationMinutes style) script ->
  req_user req = Some u ->
  storeFault X (OpInsert (inserted X u topic durationMinutes style script)) = None ->
  let row := stored_row X (scripts_table w) (now req)
               (inserted X u topic durationMinutes style script) in
  fst (generateResearch_handler X (Some client) req w) =
    Returns (json 200 (JsonScript script (Some (row_id row))))
  /\ scripts_table (snd (generateResearch_handler X (Some client) req w)) =
       scripts_table w ++ [row]
  /\ row_user_id row = user_id u
  /\ row_script_data row = script.
Proof.
  intros R A U Hu Hf row.
  rewrite (generateResearch_handler_generated X _ req w _ _ _ script R A U).
  unfold save_script. rewrite Hu.
  unfold try_catch, mbind, M_bind, mret, M_ret, store_insert, store_call.
  fold (inserted X u topic durationMinutes style script). rewrite Hf.
  repeat split.
Qed.

Lemma generated_script_is_saved_witness :
  fst (generateResearch_handler demo_external (Some demo_client) coffee_request
         bobs_world) =
    Returns (json 200 (JsonScript demo_script (Some (js "script-1"))))
  /\ scripts_table (snd (generateResearch_handler demo_external (Some demo_client)
                           coffee_request bobs_world)) =
       [row_of "s1" bob 10;
        {| row_id := js "script-1"; row_user_id := js "alice";
           row_topic := js "The history of coffee";
           row_duration_minutes := num_of_Z 10; row_style := js "conversational";
           row_script_data := demo_script; row_created_at := 1000;
           row_updated_at := 1000 |}].
Proof.
  destruct (generated_script_is_saved_under_the_caller demo_external demo_client
              alice coffee_request bobs_world
              (VString (js "The history of coffee")) (VNumber (num_of_Z 10))
              (VString (js "Conversational")) demo_script)
    as (H1 & H2 & _); try reflexivity.
  - repeat split.
  - eexists. repeat split.
  - split; [exact H1|exact H2].
Defined.

Lemma filter_unique (uid : jsstring) (rows : list ScriptRow) (r : ScriptRow) :
  unique_ids rows -> r ∈ rows -> row_user_id r = uid ->
  List.filter (owned_by (row_id r) uid) rows = [r].
Proof.
  unfold unique_ids. intros N Hin Hu.
  induction rows as [|x rows IH]; [inversion Hin|].
  simpl in N. apply NoDup_cons in N as [Hx N]. simpl.
  apply elem_of_cons in Hin as [<-|Hin].
  - unfold owned_by at 1. rewrite !bool_decide_eq_true_2 by auto. simpl. f_equal.
    apply filter_none. apply forallb_forall. intros y Hy.
    apply negb_true_iff. unfold owned_by.
    rewrite (bool_decide_eq_false_2 (row_id y = row_id r)); [reflexivity|].
    intros E. apply Hx. rewrite <- E. apply list_elem_of_fmap_2.
    apply list_elem_of_In, Hy.
  - unfold owned_by at 1.
    rewrite (bool_decide_eq_false_2 (row_id x = row_id r)).
    + simpl. apply IH; assumption.
    + intros E. apply Hx. rewrite E. apply list_elem_of_fmap_2, Hin.
Qed.

(** X10. In a table whose ids are pairwise different, GET /api/scripts/:id
    for the id of a row the caller owns answers 200 with exactly that row,
    dialogue payload included, provided the store answers; the table is not
    changed. *)
Theorem own_script_is_returned_in_full
    (X : External) (client : SupabaseClient) (u : User) (req : Request) (w : World)
    (r : ScriptRow) :
  req_user req = Some u ->
  storeFault X (OpGet (row_id r) (user_id u)) = None ->
  unique_ids (scripts_table w) ->
  r ∈ scripts_table w ->
  row_user_id r = user_id u ->
  fst (getScript_handler X (Some client) (row_id r) req w) = Returns (json 200 (JsonRow r))
  /\ scripts_table (snd (getScript_handler X (Some client) (row_id r) req w)) =
       scripts_table w.
Proof.
  intros Hu Hf N Hin Ho. unfold getScript_handler, store_get, store_call.
  unfold try_catch, mbind, M_bind, mret, M_ret.
  rewrite Hu, Hf, (filter_unique _ _ _ N Hin Ho). split; reflexivity.
Qed.

Lemma own_script_witness :
  fst (getScript_handler demo_external (Some demo_client) (js "s3")
         (alice_request GET [js "s3"]) shared_world) =
    Returns (json 200 (JsonRow (row_of "s3" alice 30))).
Proof.
  apply (own_script_is_returned_in_full demo_external demo_client alice
           (alice_request GET [js "s3"]) shared_world (row_of "s3" alice 30));
    try reflexivity.
  - unfold unique_ids. simpl. repeat constructor; intros H;
      repeat (apply elem_of_cons in H as [H|H]; [discriminate|]); inversion H.
  - simpl. repeat constructor.
Defined.

(** X11. Generate, then read back: when the store gave the saved script an id
    that no other row has, GET /api/scripts/:id with the [savedId] of the
    answer returns, to the same user, a row whose dialogue payload is the
    script that was generated; to any other user it answers 404. *)
Theorem saved_script_can_be_read_back_by_its_owner_only
    (X : External) (client : SupabaseClient) (u v : User) (req get_u get_v : Request)
    (w : World) (topic durationMinutes style script : Value) :
  reads req topic durationMinutes style ->
  accepted X topic durationMinutes style = true ->
  upstream_succeeds X (env w) (forwarded X topic durationMinutes style) script ->
  req_user req = Some u ->
  storeFault X (OpInsert (inserted X u topic durationMinutes style script)) = None ->
  absent (gen_random_uuid X (scripts_table w)) (scripts_table w) = true ->
  req_user get_u = Some u ->
  req_user get_v = Some v ->
  user_id v <> user_id u ->
  storeFault X (OpGet (gen_random_uuid X (scripts_table w)) (user_id u)) = None ->
  storeFault X (OpGet (gen_random_uuid X (scripts_table w)) (user_id v)) = None ->
  let w' := snd (generateResearch_handler X (Some client) req w) in
  exists savedId row,
    fst (generateResearch_handler X (Some client) req w) =
      Returns (json 200 (JsonScript script (Some savedId)))
    /\ fst (getScript_handler X (Some client) savedId get_u w') =
         Returns (json 200 (JsonRow row))
    /\ row_script_data row = script
    /\ fst (getScript_handler X (Some client) savedId get_v w') = Returns NOT_FOUND.
Proof.
  intros R A U Hu Hf Hfresh Hgu Hgv Hne Hfu Hfv w'.
  destruct (generateResearch_handler_appends X client u req w
              topic durationMinutes style script R A U Hu Hf) as (E & T & Ho & Hs).
  set (row := stored_row X (scripts_table w) (now req)
                (inserted X u topic durationMinutes style script)) in *.
  exists (gen_random_uuid X (scripts_table w)), row.
  split; [exact E|]. split; [|split; [exact Hs|]].
  - unfold getScript_handler, store_get, store_call.
    unfold try_catch, mbind, M_bind, mret, M_ret. rewrite Hgu, Hfu.
    cbv beta iota zeta. unfold w'. rewrite T, List.filter_app.
    rewrite (filter_none _ _ (absent_not_owned _ (user_id u) _ Hfresh)).
    simpl. unfold owned_by. rewrite !bool_decide_eq_true_2 by reflexivity.
    reflexivity.
  - unfold getScript_handler, store_get, store_call.
    unfold try_catch, mbind, M_bind, mret, M_ret. rewrite Hgv, Hfv.
    cbv beta iota zeta. unfold w'. rewrite T, List.filter_app.
    rewrite (filter_none _ _ (absent_not_owned _ (user_id v) _ Hfresh)).
    simpl. unfold owned_by.
    rewrite (bool_decide_eq_false_2 (user_id u = user_id v)) by congruence.
    rewrite andb_false_r. reflexivity.
Qed.

Lemma saved_script_read_back_witness :
  exists savedId row,
    fst (generateResearch_handler demo_external (Some demo_client) coffee_request
           bobs_world) = Returns (json 200 (JsonScript demo_script (Some savedId)))
    /\ fst (getScript_handler demo_external (Some demo_client) savedId
              (alice_request GET [js "script-1"])
              (snd (generateResearch_handler demo_external (Some demo_client)
                      coffee_request bobs_world))) = Returns (json 200 (JsonRow row))
    /\ row_script_data row = demo_script
    /\ fst (getScript_handler demo_external (Some demo_client) savedId
              (bob_request GET [js "script-1"])
              (snd (generateResearch_handler demo_external (Some demo_client)
                      coffee_request bobs_world))) = Returns NOT_FOUND.
Proof.
  apply (saved_script_can_be_read_back_by_its_owner_only demo_external demo_client
           alice bob coffee_request (alice_request GET [js "script-1"])
           (bob_request GET [js "script-1"]) bobs_world
           (VString (js "The history of coffee")) (VNumber (num_of_Z 10))
           (VString (js "Conversational")) demo_script); try reflexivity.
  - repeat split.
  - eexists. repeat split.
  - discriminate.
Defined.

(** ** Deleting *)

Lemma deleteScript_succeeds (X : External) (client : SupabaseClient) (u : User)
    (req : Request) (w : World) (r : ScriptRow) :
  req_user req = Some u ->
  storeFault X (OpGetId (row_id r) (user_id u)) = None ->
  storeFault X (OpDelete (row_id r) (user_id u)) = None ->
  unique_ids (scripts_table w) ->
  r ∈ scripts_table w ->
  row_user_id r = user_id u ->
  deleteScript_handler X (Some client) (row_id r) req w =
    (Returns (json 200 (JsonMessage "Script deleted successfully")),
     set_table (List.filter (fun x => negb (owned_by (row_id r) (user_id u) x))
                  (scripts_table w))
       (log_call (CallStore (OpDelete (row_id r) (user_id u)))
          (set_table (scripts_table w)
             (log_call (CallStore (OpGetId (row_id r) (user_id u))) w)))).
Proof.
  intros Hu Hg Hd N Hin Ho.
  unfold deleteScript_handler, store_get_id, store_delete, store_call.
  unfold try_catch, mbind, M_bind, mret, M_ret.
  rewrite Hu, Hg, (filter_unique _ _ _ N Hin Ho). simpl. rewrite Hd. reflexivity.
Qed.

Lemma unique_ids_same_row (rows : list ScriptRow) (x r : ScriptRow) :
  unique_ids rows -> x ∈ rows -> r ∈ rows -> row_id x = row_id r -> x = r.
Proof.
  unfold unique_ids. intros N Hx Hr E.
  apply list_elem_of_lookup in Hx as [i Hi], Hr as [j Hj].
  assert (i = j).
  { apply (NoDup_lookup _ i j (row_id r) N);
      rewrite list_lookup_fmap; [rewrite Hi|rewrite Hj]; simpl; congruence. }
  subst. congruence.
Qed.

(** X12. In a table whose ids are pairwise different, DELETE
    /api/scripts/:id for the id of a row the caller owns, with a store that
    answers, is answered 200 "Script deleted successfully"; afterwards that
    row is gone and every other row is still there, in the same order. *)
Theorem delete_removes_that_row_and_no_other
    (X : External) (client : SupabaseClient) (u : User) (req : Request) (w : World)
    (r : ScriptRow) :
  req_user req = Some u ->
  storeFault X (OpGetId (row_id r) (user_id u)) = None ->
  storeFault X (OpDelete (row_id r) (user_id u)) = None ->
  unique_ids (scripts_table w) ->
  r ∈ scripts_table w ->
  row_user_id r = user_id u ->
  let after := scripts_table (snd (deleteScript_handler X (Some client) (row_id r) req w)) in
  (fst (deleteScript_handler X (Some client) (row_id r) req w) =
     Returns (json 200 (JsonMessage "Script deleted successfully"))
   /\ after = List.filter (fun x => negb (bool_decide (row_id x = row_id r)))
                (scripts_table w)
   /\ (r ∉ after)
   /\ (forall x, x ∈ scripts_table w -> x <> r -> x ∈ after)).
Proof.
  intros Hu Hg Hd N Hin Ho after. unfold after.
  rewrite (deleteScript_succeeds X client u req w r Hu Hg Hd N Hin Ho). simpl.
  assert (E : List.filter (fun x => negb (owned_by (row_id r) (user_id u) x))
                (scripts_table w) =
              List.filter (fun x => negb (bool_decide (row_id x = row_id r)))
                (scripts_table w)).
  { apply List.filter_ext_in. intros x Hx. f_equal. unfold owned_by.
    destruct (bool_decide_reflect (row_id x = row_id r)) as [Eid|]; [|reflexivity].
    apply list_elem_of_In in Hx.
    rewrite (unique_ids_same_row _ x r N Hx Hin Eid).
    rewrite bool_decide_eq_true_2 by exact Ho. reflexivity. }
  rewrite E. repeat split.
  - intros H. apply list_elem_of_In, filter_In in H as [_ H].
    rewrite bool_decide_eq_true_2 in H by reflexivity. discriminate.
  - intros x Hx Hne. apply list_elem_of_In, filter_In.
    split; [apply list_elem_of_In, Hx|].
    apply negb_true_iff, bool_decide_eq_false. intros Eid.
    apply Hne, (unique_ids_same_row _ x r N Hx Hin Eid).
Qed.

Lemma delete_removes_witness :
  scripts_table (snd (deleteScript_handler demo_external (Some demo_client) (js "s1")
                        (alice_request DELETE [js "s1"]) shared_world)) =
    [row_of "s2" bob 20; row_of "s3" alice 30].
Proof.
  assert (N : unique_ids (scripts_table shared_world)).
  { unfold unique_ids. simpl. repeat constructor; intros H;
      repeat (apply elem_of_cons in H as [H|H]; [discriminate|]); inversion H. }
  assert (I : row_of "s1" alice 10 ∈ scripts_table shared_world)
    by (simpl; repeat constructor).
  exact (proj1 (proj2 (delete_removes_that_row_and_no_other demo_external
                         demo_client alice (alice_request DELETE [js "s1"])
                         shared_world (row_of "s1" alice 10)
                         eq_refl eq_refl eq_refl N I eq_refl))).
Defined.

(** ** The scripts routes when the store fails *)

(** X13. When the store answers an error whose code is not the "no rows"
    code PGRST116, the list is answered 500 "Failed to fetch scripts" and the
    script by id 500 "Failed to fetch script", but DELETE is answered 404
    "Script not found" and the deletion is not attempted; when the call to
    the store fails outright, each of the three answers 500 "Internal server
    error".  In every case the table is as it was. *)
Theorem scripts_routes_when_the_store_fails
    (X : External) (client : SupabaseClient) (u : User) (req : Request)
    (id : jsstring) (w : World) (fault : StoreFault) :
  req_user req = Some u ->
  storeFault X (OpList (user_id u)) = Some fault ->
  storeFault X (OpGet id (user_id u)) = Some fault ->
  storeFault X (OpGetId id (user_id u)) = Some fault ->
  (fault = FaultRejects \/ exists code, fault = FaultError code /\ code <> PGRST116) ->
  let failed (m : string) := json 500 (JsonError (Lit m)) in
  (listScripts_handler X (Some client) req w =
     (Returns (match fault with
               | FaultRejects => failed "Internal server error"
               | _ => failed "Failed to fetch scripts"
               end),
      log_call (CallStore (OpList (user_id u))) w)
   /\ getScript_handler X (Some client) id req w =
        (Returns (match fault with
                  | FaultRejects => failed "Internal server error"
                  | _ => failed "Failed to fetch script"
                  end),
         log_call (CallStore (OpGet id (user_id u))) w)
   /\ deleteScript_handler X (Some client) id req w =
        (Returns (match fault with
                  | FaultRejects => failed "Internal server error"
                  | _ => NOT_FOUND
                  end),
         log_call (CallStore (OpGetId id (user_id u))) w)).
Proof.
  intros Hu Hl Hg Hi Hf failed.
  unfold listScripts_handler, getScript_handler, deleteScript_handler,
    store_list, store_get, store_get_id, store_call.
  unfold try_catch, mbind, M_bind, mret, M_ret.
  rewrite Hu, Hl, Hg, Hi.
  destruct Hf as [->|(code & -> & Hc)]; [repeat split|].
  cbn [error data]. rewrite (bool_decide_eq_false_2 _ Hc). repeat split.
Qed.

Lemma scripts_routes_store_fails_witness :
  getScript_handler broken_store_external (Some demo_client) (js "s1")
    (bob_request GET [js "s1"]) bobs_world =
    (Returns (json 500 (JsonError (Lit "Failed to fetch script"))),
     log_call (CallStore (OpGet (js "s1") (js "bob"))) bobs_world)
  /\ deleteScript_handler broken_store_external (Some demo_client) (js "s1")
       (bob_request DELETE [js "s1"]) bobs_world =
       (Returns NOT_FOUND,
        log_call (CallStore (OpGetId (js "s1") (js "bob"))) bobs_world).
Proof.
  assert (F : FaultError (js "57P01") = FaultRejects \/
              exists code, FaultError (js "57P01") = FaultError code /\ code <> PGRST116).
  { right. exists (js "57P01"). split; [reflexivity|discriminate]. }
  split.
  - exact (proj1 (proj2 (scripts_routes_when_the_store_fails broken_store_external
                           demo_client bob (bob_request GET [js "s1"]) (js "s1")
                           bobs_world (FaultError (js "57P01"))
                           eq_refl eq_refl eq_refl eq_refl F))).
  - exact (proj2 (proj2 (scripts_routes_when_the_store_fails broken_store_external
                           demo_client bob (bob_request DELETE [js "s1"]) (js "s1")
                           bobs_world (FaultError (js "57P01"))
                           eq_refl eq_refl eq_refl eq_refl F))).
Defined.

(** ** Audio generation, beyond the blank script *)

(** X14. The handler of POST /api/generate-audio checks in this order: a
    [script] that is missing or not an array is answered 400 "Script array is
    required", whether or not the speech key is configured; an array, when
    the key is not configured, is answered 500 "ELEVENLABS_API_KEY not
    configured" whatever its lines hold.  Neither calls the speech service. *)
Theorem audio_checks_the_script_then_the_key
    (X : External) (req : Request) (w : World) (script : Value) :
  prop (req_body req) (js "script") = Some script ->
  (isArray script = false ->
   generateAudio_handler X req w = (Returns (bad_request "Script array is required"), w))
  /\ (isArray script = true -> env_truthy (ELEVENLABS_API_KEY (env w)) = false ->
      generateAudio_handler X req w =
        (Returns (json 500 (JsonError (Lit "ELEVENLABS_API_KEY not configured"))), w)).
Proof.
  intros Hs. unfold generateAudio_handler, generateAudioFromScript.
  unfold try_catch, mbind, M_bind, mret, M_ret, throw, get_prop, get_env.
  rewrite Hs. unfold mret, M_ret. cbv beta iota. split.
  - intros ->. rewrite orb_true_r. reflexivity.
  - intros Ha Hk. destruct script; try discriminate Ha.
    cbn [truthy isArray negb orb items]. rewrite Hk. reflexivity.
Qed.

Lemma audio_checks_witness :
  generateAudio_handler demo_external
    (request ApiGenerateAudio POST [] None 0 (VObject [])) bare_world =
    (Returns (bad_request "Script array is required"), bare_world)
  /\ generateAudio_handler demo_external (spoken_request "Host" "Guest") bare_world =
       (Returns (json 500 (JsonError (Lit "ELEVENLABS_API_KEY not configured"))),
        bare_world).
Proof.
  split.
  - apply (audio_checks_the_script_then_the_key demo_external
             (request ApiGenerateAudio POST [] None 0 (VObject [])) bare_world
             VUndefined); reflexivity.
  - destruct (audio_checks_the_script_then_the_key demo_external
                (spoken_request "Host" "Guest") bare_world _ eq_refl) as [_ H].
    apply H; reflexivity.
Defined.

Lemma untyped_lines_throw (lines : list Value) :
  forallb has_text lines = false ->
  map_text lines = None \/
  exists texts, map_text lines = Some texts /\ filter_nonblank texts = None.
Proof.
  induction lines as [|l lines IH]; [discriminate|]. simpl. intros H.
  unfold has_text in H.
  destruct (prop l (js "text")) as [t|]; [|left; reflexivity].
  destruct (map_text lines) as [ts|] eqn:M.
  - right. exists (t :: ts). split; [reflexivity|].
    destruct t; try reflexivity. simpl in H.
    destruct (IH H) as [?|(ts' & E & F)]; [discriminate|].
    injection E as <-. simpl. rewrite F. reflexivity.
  - left. reflexivity.
Qed.

(** X15. When the key is configured and some line of the script is not an
    object with a string [text] (a [null] line, a missing or non-string
    text), the handler answers 500 with the runtime's TypeError, however many
    well-formed lines there are, and does not call the speech service. *)
Theorem one_malformed_line_fails_the_request_with_500
    (X : External) (req : Request) (w : World) (lines : list Value) :
  prop (req_body req) (js "script") = Some (VArray lines) ->
  env_truthy (ELEVENLABS_API_KEY (env w)) = true ->
  forallb has_text lines = false ->
  generateAudio_handler X req w =
    (Returns (json 500 (JsonError (Runtime TypeError))), w).
Proof.
  intros Hs Hk Hl. rewrite (generateAudio_handler_script X req w lines Hs).
  unfold generateAudioFromScript.
  unfold mbind, M_bind, mret, M_ret, throw, get_env. rewrite Hk. simpl.
  destruct (untyped_lines_throw lines Hl) as [->|(texts & -> & ->)]; reflexivity.
Qed.

Lemma one_malformed_line_witness :
  generateAudio_handler demo_external malformed_script_request demo_world =
    (Returns (json 500 (JsonError (Runtime TypeError))), demo_world).
Proof.
  apply (one_malformed_line_fails_the_request_with_500 demo_external
           malformed_script_request demo_world
           [line "Host" "Welcome back.";
            VObject [(js "speaker", VString (js "Guest"));
                     (js "text", VNumber (num_of_Z 42))]]); reflexivity.
Defined.

(** X16. For a script whose lines carry string texts, not all of them white
    space, and a configured key, the answer follows the speech service: a 2xx
    answer gives 200 with the three audio headers and exactly the bytes the
    service sent; any other status gives 500 with a message built from that
    status and the service's body text; an unreachable service gives 500. *)
Theorem audio_answer_follows_the_speech_service
    (X : External) (req : Request) (w : World) (lines : list Value) :
  prop (req_body req) (js "script") = Some (VArray lines) ->
  forallb has_text lines = true ->
  spoken_text lines <> [] ->
  env_truthy (ELEVENLABS_API_KEY (env w)) = true ->
  fst (generateAudio_handler X req w) =
    Returns
      match fetchSpeech X (configured_voice (env w)) (configured_key (env w))
              (spoken_text lines) with
      | Fetched resp =>
          if resp_ok resp
          then {| status := 200; headers := AUDIO_HEADERS;
                  body := Audio (resp_bytes resp) |}
          else json 500 (JsonError (ElevenLabsApiError (resp_status resp)
                                      (resp_text resp)))
      | FetchFailed => json 500 (JsonError (Runtime NetworkError))
      end.
Proof.
  intros Hs Ht Hn Hk. rewrite (generateAudio_handler_script X req w lines Hs).
  rewrite (generateAudioFromScript_typed X lines w Ht), Hk.
  rewrite (bool_decide_eq_false_2 _ Hn). simpl.
  unfold generateSingleAudio, fetch_speech, mbind, M_bind, mret, M_ret, throw.
  destruct (fetchSpeech X _ _ _) as [|resp]; [reflexivity|].
  destruct (resp_ok resp); reflexivity.
Qed.

Lemma audio_answer_witness :
  fst (generateAudio_handler demo_external (spoken_request "Host" "Guest") demo_world) =
    Returns {| status := 200; headers := AUDIO_HEADERS;
               body := Audio (js "Welcome back. Thanks for having me.") |}.
Proof.
  apply (audio_answer_follows_the_speech_service demo_external
           (spoken_request "Host" "Guest") demo_world _ eq_refl eq_refl);
    [discriminate|reflexivity].
Defined.

(** ** Trimming *)

Lemma trimStart_no_leading_space (s : jsstring) : no_leading_space (trimStart s).
Proof.
  induction s as [|c s IH]; simpl; [exact I|].
  destruct (isWhiteSpace c) eqn:W; [exact IH|exact W].
Qed.

Lemma trimStart_fixed (s : jsstring) : no_leading_space s -> trimStart s = s.
Proof. destruct s as [|c s]; simpl; [reflexivity|]. intros ->. reflexivity. Qed.

Lemma trim_no_leading_space (s : jsstring) : no_leading_space (trim s).
Proof.
  unfold trim, trimEnd.
  pose proof (trimStart_no_leading_space s) as A.
  destruct (trimStart_suffix (reverse (trimStart s))) as (p & E & _).
  apply (f_equal reverse) in E. rewrite reverse_involutive, reverse_app in E.
  destruct (reverse (trimStart (reverse (trimStart s)))) as [|c t]; [exact I|].
  rewrite E in A. exact A.
Qed.

Lemma trim_no_trailing_space (s : jsstring) : no_leading_space (reverse (trim s)).
Proof.
  unfold trim, trimEnd. rewrite reverse_involutive.
  apply trimStart_no_leading_space.
Qed.

(** Trimming twice is trimming once. *)
Lemma trim_idempotent (s : jsstring) : trim (trim s) = trim s.
Proof.
  pose proof (trim_no_leading_space s) as A.
  pose proof (trim_no_trailing_space s) as B.
  unfold trim at 1. unfold trimEnd.
  rewrite (trimStart_fixed _ A), (trimStart_fixed _ B).
  apply reverse_involutive.
Qed.

Lemma trim_nonblank (s : jsstring) : trim s <> [] -> whitespace_only (trim s) = false.
Proof.
  intros H. pose proof (trim_no_leading_space s) as A.
  unfold whitespace_only. destruct (trim s) as [|c t]; [contradiction|].
  simpl in *. rewrite A. reflexivity.
Qed.

(** ** The generator form and the handler *)

Lemma accepted_calls_the_script_service (X : External)
    (supabase : option SupabaseClient) (req : Request) (w : World)
    (topic durationMinutes style : Value) :
  reads req topic durationMinutes style ->
  accepted X topic durationMinutes style = true ->
  exists rest,
    calls (snd (generateResearch_handler X supabase req w)) =
      calls w ++ CallScriptService (script_endpoint (env w))
                   (forwarded X topic durationMinutes style) :: rest.
Proof.
  intros R A. rewrite (generateResearch_handler_reads X supabase req w _ _ _ R).
  unfold accepted in A.
  apply andb_true_iff in A as [A Hu]. apply andb_true_iff in A as [A Hm].
  apply andb_true_iff in A as [Ht Hd].
  apply negb_true_iff in Hu, Hm, Ht, Hd. rewrite Ht, Hd, Hm, Hu.
  pose proof (generatePodcastScript_world X
                (forwarded X topic durationMinutes style) w) as G.
  destruct (generatePodcastScript X _ w) as [[script|e] w1]; simpl in G; subst w1.
  - destruct (save_script_calls X supabase req topic durationMinutes style script
                (log_call (CallScriptService (script_endpoint (env w))
                   (forwarded X topic durationMinutes style)) w))
      as (rest & saved & w2 & -> & C).
    exists rest. simpl. rewrite C. simpl. rewrite <- app_assoc. reflexivity.
  - exists []. reflexivity.
Qed.

Lemma form_styles_are_valid :
  map (fun o => js (fst o)) STYLE_OPTIONS = validStyles.
Proof. reflexivity. Qed.

(** X18. Whatever the generator form can submit passes the handler's
    validation: with the submit button enabled (a topic that is not blank),
    a duration from 5 up to the form's limit of 30, and a style out of the
    form's options, the body the form posts is accepted, and the script
    service is called with the trimmed topic, that duration and that style
    (provided lower-casing leaves the five lower-case style names alone). *)
Theorem form_submissions_pass_validation
    (X : External) (supabase : option SupabaseClient) (req : Request) (w : World)
    (f : GeneratorForm) (q : Q) :
  req_body req = generate_body f ->
  submit_disabled f = false ->
  exceeds_max f = false ->
  form_duration f = Finite q ->
  Qle_bool (inject_Z 5) q = true ->
  form_style f ∈ map (fun o => js (fst o)) STYLE_OPTIONS ->
  keeps_style_names X ->
  exists rest,
    calls (snd (generateResearch_handler X supabase req w)) =
      calls w ++ CallScriptService (script_endpoint (env w))
                   {| gs_topic := trim (form_topic f);
                      gs_durationMinutes := Finite q;
                      gs_style := form_style f |} :: rest.
Proof.
  intros Hb Hs Hm Hd H5 Hst Hk. rewrite form_styles_are_valid in Hst.
  assert (R : reads req (VString (trim (form_topic f))) (VNumber (Finite q))
                (VString (form_style f))).
  { unfold reads. rewrite Hb. unfold generate_body. rewrite Hd. repeat split. }
  assert (A : accepted X (VString (trim (form_topic f))) (VNumber (Finite q))
                (VString (form_style f)) = true).
  { unfold accepted.
    rewrite topic_invalid_nonblank, duration_invalid_in_range. simpl.
    unfold submit_disabled in Hs. apply bool_decide_eq_false in Hs.
    rewrite (trim_nonblank _ Hs). simpl.
    unfold exceeds_max, num_gt in Hm. rewrite Hd in Hm. simpl in Hm.
    apply negb_false_iff, Qle_bool_iff in Hm.
    assert (L : Qle_bool q (inject_Z 120) = true).
    { apply Qle_bool_iff. eapply Qle_trans; [exact Hm|]. vm_compute. discriminate. }
    rewrite H5, L. simpl.
    unfold style_missing, style_unknown, includes. simpl.
    rewrite (Hk _ Hst), (bool_decide_eq_true_2 _ Hst).
    assert (N : form_style f <> []).
    { intros E. rewrite E in Hst. unfold validStyles in Hst. simpl in Hst.
      repeat (apply elem_of_cons in Hst as [Hst|Hst]; [discriminate|]).
      inversion Hst. }
    rewrite (bool_decide_eq_false_2 _ N). reflexivity. }
  destruct (accepted_calls_the_script_service X supabase req w _ _ _ R A)
    as [rest C].
  exists rest. rewrite C. unfold forwarded. simpl.
  rewrite trim_idempotent, (Hk _ Hst). reflexivity.
Qed.

Lemma asciiLower_keeps_style_names : keeps_style_names demo_external.
Proof.
  intros s Hs. unfold validStyles in Hs. simpl in Hs.
  repeat (apply elem_of_cons in Hs as [->|Hs]; [reflexivity|]). inversion Hs.
Qed.

Lemma form_submissions_witness :
  exists rest,
    calls (snd (generateResearch_handler demo_external (Some demo_client)
                  coffee_form_request demo_world)) =
      CallScriptService (js "http://localhost:8000/generate")
        {| gs_topic := js "The history of coffee";
           gs_durationMinutes := num_of_Z 20;
           gs_style := js "storytelling" |} :: rest.
Proof.
  apply (form_submissions_pass_validation demo_external (Some demo_client)
           coffee_form_request demo_world coffee_form (inject_Z 20));
    try reflexivity.
  - simpl. repeat constructor.
  - exact asciiLower_keeps_style_names.
Defined.

(** ** The name of a downloaded script *)

Lemma hyphenate_no_space (in_run : bool) (s : jsstring) :
  forallb (fun c => negb (isWhiteSpace c)) (hyphenate in_run s) = true.
Proof.
  revert in_run. induction s as [|c s IH]; intros in_run; simpl; [reflexivity|].
  destruct (isWhiteSpace c) eqn:W.
  - destruct in_run; simpl; rewrite ?IH; reflexivity.
  - simpl. rewrite W, IH. reflexivity.
Qed.

Lemma hyphenate_shorter (in_run : bool) (s : jsstring) :
  (length (hyphenate in_run s) <= length s)%nat.
Proof.
  revert in_run. induction s as [|c s IH]; intros in_run; simpl; [lia|].
  pose proof (IH true). pose proof (IH false).
  destruct (isWhiteSpace c); [destruct in_run|]; simpl; lia.
Qed.

(** X19. In the name of a downloaded script, the topic with its runs of
    white space replaced by hyphens has no white space left and is no longer
    than the topic; a topic without white space is kept as it is, and doing
    the replacement again changes nothing. *)
Theorem hyphenated_topic_has_no_space (topic : jsstring) :
  forallb (fun c => negb (isWhiteSpace c)) (hyphenate false topic) = true
  /\ (length (hyphenate false topic) <= length topic)%nat
  /\ (forallb (fun c => negb (isWhiteSpace c)) topic = true ->
      hyphenate false topic = topic)
  /\ hyphenate false (hyphenate false topic) = hyphenate false topic.
Proof.
  assert (K : forall b s, forallb (fun c => negb (isWhiteSpace c)) s = true ->
                          hyphenate b s = s).
  { intros b s. revert b. induction s as [|c s IH]; intros b H; [reflexivity|].
    simpl in *. apply andb_true_iff in H as [Hc H].
    apply negb_true_iff in Hc. rewrite Hc. f_equal. apply IH, H. }
  split; [apply hyphenate_no_space|]. split; [apply hyphenate_shorter|].
  split; [apply K|]. apply K, hyphenate_no_space.
Qed.

Example hyphenate_coffee :
  download_name asciiLower (js "The  History of	Coffee") =
    js "podcast-script-the-history-of-coffee.txt".
Proof. reflexivity. Qed.

(** ** Generating, then listing *)

(** X20. Generate, then list: once a generated script is saved, the list of
    its owner holds the new row's summary together with what was listed
    before, newest first, which fixes it up to the order of equal creation
    times; the list of any other user is what it was. *)
Theorem saved_script_appears_in_its_owners_list_only
    (X : External) (client : SupabaseClient) (u v : User) (req list_u list_v : Request)
    (w : World) (topic durationMinutes style script : Value) :
  reads req topic durationMinutes style ->
  accepted X topic durationMinutes style = true ->
  upstream_succeeds X (env w) (forwarded X topic durationMinutes style) script ->
  req_user req = Some u ->
  storeFault X (OpInsert (inserted X u topic durationMinutes style script)) = None ->
  req_user list_u = Some u ->
  req_user list_v = Some v ->
  user_id v <> user_id u ->
  storeFault X (OpList (user_id u)) = None ->
  storeFault X (OpList (user_id v)) = None ->
  let w' := snd (generateResearch_handler X (Some client) req w) in
  let row := stored_row X (scripts_table w) (now req)
               (inserted X u topic durationMinutes style script) in
  (exists rows,
     fst (listScripts_handler X (Some client) list_u w') =
       Returns (json 200 (JsonScripts (map summary rows)))
     /\ rows ≡ₚ row :: listed (user_id u) (scripts_table w)
     /\ StronglySorted (fun a b => row_created_at b <= row_created_at a) rows)
  /\ fst (listScripts_handler X (Some client) list_v w') =
       fst (listScripts_handler X (Some client) list_v w).
Proof.
  intros R A U Hu Hf Hlu Hlv Hne Hfu Hfv w' row.
  destruct (generateResearch_handler_appends X client u req w
              topic durationMinutes style script R A U Hu Hf) as (_ & T & Ho & _).
  fold row in T, Ho. fold w' in T.
  rewrite !(listScripts_lists X client u) by assumption.
  rewrite !(listScripts_lists X client v) by assumption.
  unfold listed. rewrite T, !List.filter_app. simpl.
  rewrite (bool_decide_eq_true_2 _ Ho).
  rewrite (bool_decide_eq_false_2 (row_user_id row = user_id v)) by congruence.
  rewrite app_nil_r. split; [|reflexivity].
  eexists. split; [reflexivity|]. split.
  - rewrite !merge_sort_Permutation. symmetry. apply Permutation_cons_append.
  - apply (StronglySorted_merge_sort newer).
Qed.

Lemma saved_script_listed_witness :
  fst (listScripts_handler demo_external (Some demo_client) (bob_request GET [])
         (snd (generateResearch_handler demo_external (Some demo_client)
                 coffee_request bobs_world))) =
  fst (listScripts_handler demo_external (Some demo_client) (bob_request GET [])
         bobs_world).
Proof.
  apply (saved_script_appears_in_its_owners_list_only demo_external demo_client
           alice bob coffee_request (alice_request GET []) (bob_request GET [])
           bobs_world (VString (js "The history of coffee"))
           (VNumber (num_of_Z 10)) (VString (js "Conversational")) demo_script);
    try reflexivity.
  - repeat split.
  - eexists. repeat split.
  - discriminate.
Defined.
